(** * Base-station operator console (tabbed_window.py)

    A shallow embedding of the status store, the telemetry and console
    handlers, the wifi prober with its modem policy, the service-response
    handler, mission loading, theme switching and the fin-calibration dialog
    of [MainWindow], followed by the properties proved about them.

    Conventions of the embedding
    - a Python [int] is a [Z]; a Python [float] carried by a ROS message is a
      binary64 [float] (the kernel's primitive floats); a number read from a
      YAML mission file is the rational it denotes ([Qc]), which is what
      Python's [==] compares on finite numbers;
    - a [str] is the [string] of its characters, a character being a code
      point below 256;
    - a [dict] that is only looked up and assigned is a [gmap]; a [dict] that
      is iterated is an insertion-ordered association list ([Py.dict_set]);
    - [self] is the record [MainWindow]; a method that cannot raise is a
      function [MainWindow -> MainWindow]; a method that can raise is an
      [action], whose [outcome] keeps the mutations made before the raise;
    - a Qt signal connected to a slot of the window is the call of that slot
      ([recieve_console_update] is [_update_console_gui]);
    - what the window sends through [ros_node] is appended to the trace
      [ros_node : list ros_call]. *)

From Stdlib Require Import ZArith QArith Qcanon Floats Ascii String.
From stdpp Require Import gmap strings list fin_maps pretty.

#[local] Open Scope Z_scope.

(** ** Python values and built-ins *)

Module Py.

(** [str.lower] on the ASCII range. *)
Definition ascii_lower (c : ascii) : ascii :=
  let n := nat_of_ascii c in
  if (65 <=? n)%nat && (n <=? 90)%nat then ascii_of_nat (n + 32) else c.

Fixpoint lower (s : string) : string :=
  match s with
  | EmptyString => EmptyString
  | String c s' => String (ascii_lower c) (lower s')
  end.

(** [needle in hay] on strings. *)
Fixpoint contains (needle hay : string) : bool :=
  String.prefix needle hay ||
  match hay with
  | EmptyString => false
  | String _ hay' => contains needle hay'
  end.

(** [s[-1]]: the last character, [None] standing for the IndexError on the
    empty string. *)
Fixpoint last_char (s : string) : option ascii :=
  match s with
  | EmptyString => None
  | String c EmptyString => Some c
  | String _ s' => last_char s'
  end.

(** [int(s)] for a string made of one decimal digit. *)
Definition int_of_digit (c : ascii) : option Z :=
  let n := nat_of_ascii c in
  if (48 <=? n)%nat && (n <=? 57)%nat then Some (Z.of_nat n - 48) else None.

Definition newline : string := String (ascii_of_nat 10) EmptyString.

(** [repr(s)] of a [str] whose characters are code points below 256. The
    quote is the apostrophe, or the double quote when the text holds an
    apostrophe and no double quote; the quote and the backslash are escaped
    with a backslash, tab, line feed and carriage return are written
    [\t], [\n] and [\r], and every other character that is not
    printable (below 32, from 127 to 160, and 173) is written [\x] with
    its two hexadecimal digits. *)
Definition apostrophe : ascii := ascii_of_nat 39.
Definition double_quote : ascii := ascii_of_nat 34.
Definition backslash : ascii := ascii_of_nat 92.

Definition hex_digit (n : nat) : ascii :=
  if (n <? 10)%nat then ascii_of_nat (48 + n) else ascii_of_nat (87 + n).

Definition isprintable (c : ascii) : bool :=
  let n := nat_of_ascii c in
  ((32 <=? n)%nat && (n <? 127)%nat)
  || ((161 <=? n)%nat && negb (n =? 173)%nat).

Definition repr_char (quote c : ascii) : string :=
  let n := nat_of_ascii c in
  if Ascii.eqb c quote || Ascii.eqb c backslash
  then String backslash (String c EmptyString)
  else if (n =? 9)%nat then String backslash "t"
  else if (n =? 10)%nat then String backslash "n"
  else if (n =? 13)%nat then String backslash "r"
  else if isprintable c then String c EmptyString
  else String backslash
         (String "x" (String (hex_digit (n / 16))
                        (String (hex_digit (n mod 16)) EmptyString))).

Fixpoint repr_chars (quote : ascii) (s : string) : string :=
  match s with
  | EmptyString => EmptyString
  | String c s' => repr_char quote c +:+ repr_chars quote s'
  end.

Fixpoint has_char (c : ascii) (s : string) : bool :=
  match s with
  | EmptyString => false
  | String c' s' => Ascii.eqb c' c || has_char c s'
  end.

Definition repr (s : string) : string :=
  let quote := if has_char apostrophe s && negb (has_char double_quote s)
               then double_quote else apostrophe in
  String quote (repr_chars quote s +:+ String quote EmptyString).

(** [repr] of a list of strings, as an f-string prints it. *)
Fixpoint join (sep : string) (l : list string) : string :=
  match l with
  | [] => ""
  | [s] => s
  | s :: l' => s +:+ sep +:+ join sep l'
  end.

Definition repr_list (l : list string) : string :=
  "[" +:+ join ", " (repr <$> l) +:+ "]".

(** Insertion-ordered dictionaries: [d[k] = v] replaces the value of an
    existing key in place and appends a new key at the end. *)
Section dict.
Context {K V : Type} `{EqDecision K}.

Fixpoint dict_get (k : K) (d : list (K * V)) : option V :=
  match d with
  | [] => None
  | (k', v) :: d' => if decide (k' = k) then Some v else dict_get k d'
  end.

Fixpoint dict_set (k : K) (v : V) (d : list (K * V)) : list (K * V) :=
  match d with
  | [] => [(k, v)]
  | (k', v') :: d' =>
      if decide (k' = k) then (k, v) :: d' else (k', v') :: dict_set k v d'
  end.

End dict.

(** [round(x, ndigits)] on a float, for [ndigits >= 0]: the exact binary
    value of [x] is rounded to [ndigits] decimals, ties to the even digit,
    and the decimal obtained is converted back to the nearest float. NaN,
    infinities and zeros round to themselves. *)
Definition round_half_even (a d : Z) : Z :=
  let q := a / d in
  match 2 * (a mod d) ?= d with
  | Lt => q
  | Gt => q + 1
  | Eq => if Z.even q then q else q + 1
  end.

Definition round (x : float) (ndigits : Z) : float :=
  match Prim2SF x with
  | S754_finite s m e =>
      let p := 10 ^ ndigits in
      let n := if 0 <=? e then Z.pos m * 2 ^ e * p
               else round_half_even (Z.pos m * p) (2 ^ (- e)) in
      match n with
      | Z.pos n' =>
          SF2Prim (SFdiv prec emax (S754_finite s n' 0)
                     (S754_finite false (Z.to_pos p) 0))
      | _ => SF2Prim (S754_zero s)
      end
  | _ => x
  end.

End Py.

(** ** The status store *)

(** What [feedback_dict] holds: ints for the three-state health flags and
    the initial placeholders, floats for telemetry, text, and lists of
    text lines. *)
Inductive value : Type :=
  | VInt (n : Z)
  | VFloat (x : float)
  | VStr (s : string)
  | VList (l : list string).

(** The keys of [feedback_dict], in the order of the dictionary display. *)
Definition health_keys : list string :=
  ["Wifi"; "Radio"; "Modem"; "DVL"; "GPS"; "IMU"; "Battery"].

Definition telemetry_keys : list string :=
  ["Modem_seconds"; "Radio_seconds"; "XPos"; "YPos"; "Depth"; "Heading";
   "Waypoint"; "DVL_vel"; "Angular_vel"; "Pressure"].

Definition metric_keys : list string :=
  health_keys ++ ["Status_messages"; "Console_messages"; "Missions"]
  ++ telemetry_keys.

(** [{vehicle_num: x for vehicle_num in selected_vehicles}] *)
Definition dict_comprehension (x : value) (selected_vehicles : list Z)
  : gmap Z value :=
  foldl (λ d vehicle_num, <[vehicle_num := x]> d) ∅ selected_vehicles.

Definition feedback_dict_init (selected_vehicles : list Z)
  : gmap string (gmap Z value) :=
  let waiting := dict_comprehension (VInt 2) selected_vehicles in
  <["Pressure" := waiting]> (
  <["Angular_vel" := waiting]> (
  <["DVL_vel" := waiting]> (
  <["Waypoint" := waiting]> (
  <["Heading" := waiting]> (
  <["Depth" := waiting]> (
  <["YPos" := waiting]> (
  <["XPos" := waiting]> (
  <["Radio_seconds" := waiting]> (
  <["Modem_seconds" := waiting]> (
  <["Missions" := dict_comprehension (VStr "") selected_vehicles]> (
  <["Console_messages" := dict_comprehension (VList []) selected_vehicles]> (
  <["Status_messages" := dict_comprehension (VStr "") selected_vehicles]> (
  <["Battery" := waiting]> (
  <["IMU" := waiting]> (
  <["GPS" := waiting]> (
  <["DVL" := waiting]> (
  <["Modem" := waiting]> (
  <["Radio" := waiting]> (
  <["Wifi" := waiting]> ∅))))))))))))))))))).

(** ** Widgets

    The widget tree is kept as far as the handlers look into it: labels with
    their text, stylesheet and, for status icons, the icon shown and the
    colour painted behind it; push buttons; containers as maps from the
    objectName of a child label to the label ([findChild] is a lookup). *)

Inductive StandardPixmap : Type :=
  | SP_MessageBoxCritical
  | SP_DialogApplyButton
  | SP_TitleBarContextHelpButton.

(** [icons_dict[status]]; [None] is the KeyError. *)
Definition icons_dict (status : value) : option StandardPixmap :=
  match status with
  | VInt 0 => Some SP_MessageBoxCritical
  | VInt 1 => Some SP_DialogApplyButton
  | VInt 2 => Some SP_TitleBarContextHelpButton
  | _ => None
  end.

Record QLabel : Type := mkQLabel {
  text : string;
  styleSheet : string;
  _icon_type : option StandardPixmap;
  pixmap : option (StandardPixmap * string)
}.

Definition setText (t : string) (l : QLabel) : QLabel :=
  mkQLabel t (styleSheet l) (_icon_type l) (pixmap l).

Definition setStyleSheet (s : string) (l : QLabel) : QLabel :=
  mkQLabel (text l) s (_icon_type l) (pixmap l).

Definition new_label (t s : string) : QLabel := mkQLabel t s None None.

Record QPushButton : Type := mkQPushButton {
  button_text : string;
  button_styleSheet : string
}.

(** The colour attributes [set_color_theme] assigns. *)
Record ColorTheme : Type := mkColorTheme {
  background_color : string;
  border_outline : string;
  text_color : string;
  normal_button_color : string;
  danger_button_color : string;
  danger_button_style_sheet : string;
  normal_button_style_sheet : string;
  selected_tab_color : string;
  selected_tab_text_color : string;
  not_selected_tab_color : string;
  not_selected_tab_text_color : string;
  check_box_color : string;
  dark_icon_bkgrnd_color : string;
  light_icon_bkgrnd_color : string;
  pop_up_window_style : string
}.

Record Widgets : Type := mkWidgets {
  (** stylesheet of the tab bar, set by [repaintTabs] *)
  tabs_styleSheet : string;
  (** [tab_dict]: tab name to the stylesheet of the tab's content widget *)
  tab_dict : list (string * string);
  (** [confirm_reject_labels]: tab name to its confirmation label *)
  confirm_reject_labels : gmap string QLabel;
  (** [general_page_vehicle_widgets]: the column of a vehicle on the
      General tab *)
  general_page_vehicle_widgets : gmap Z (gmap string QLabel);
  (** the attributes [vehicle{n}_column0_widget] *)
  column0_widget : gmap Z (gmap string QLabel);
  (** the attributes [vehicle{n}_column01_widget] *)
  column01_widget : gmap Z (gmap string QLabel);
  (** the attributes [vehicle{n}_buttons_column_widget] *)
  buttons_column_widget : gmap Z (gmap string QLabel);
  (** the attributes [vehicle{n}_console_scroll_area]: their stylesheet *)
  console_scroll_area : gmap Z string;
  (** the console labels, by objectName [Console_messages{n}] *)
  console_messages : gmap string QLabel;
  (** every push button of the window *)
  buttons : list QPushButton;
  (** the labels without an objectName (titles, captions) *)
  anonymous_labels : list QLabel;
  (** the stylesheets of the horizontal and vertical lines *)
  lines : list string
}.

(** What the window sends through its ROS node. *)
Inductive ros_call : Type :=
  | cli_call_async (beacon_id : Z)
  | cli2_call_async (beacon_id : Z)
  | cli3_call_async (modem_shut_off : bool) (vehicle_id : Z)
  | publish_origin (origin : option Qc * option Qc)
  | publish_path (path_msg : list (Qc * Qc)) (num : Z)
  | deploy_main (vehicles : list Z) (files : list string).

Record MainWindow : Type := mkMainWindow {
  theme : ColorTheme;
  selected_vehicles : list Z;
  feedback_dict : gmap string (gmap Z value);
  widgets : Widgets;
  width : Z;
  Vehicle_IP_addresses : list string;
  ip_to_vehicle : gmap string Z;
  ros_node : list ros_call
}.

Definition button_padding : Z := 15.
Definition button_font_size : Z := 15.

(** Field updates. *)
Definition with_theme (t : ColorTheme) (w : MainWindow) : MainWindow :=
  mkMainWindow t (selected_vehicles w) (feedback_dict w) (widgets w) (width w)
    (Vehicle_IP_addresses w) (ip_to_vehicle w) (ros_node w).

Definition with_feedback_dict (f : gmap string (gmap Z value)) (w : MainWindow)
  : MainWindow :=
  mkMainWindow (theme w) (selected_vehicles w) f (widgets w) (width w)
    (Vehicle_IP_addresses w) (ip_to_vehicle w) (ros_node w).

Definition with_widgets (g : Widgets) (w : MainWindow) : MainWindow :=
  mkMainWindow (theme w) (selected_vehicles w) (feedback_dict w) g (width w)
    (Vehicle_IP_addresses w) (ip_to_vehicle w) (ros_node w).

Definition with_IPs (ips : list string) (m : gmap string Z) (w : MainWindow)
  : MainWindow :=
  mkMainWindow (theme w) (selected_vehicles w) (feedback_dict w) (widgets w)
    (width w) ips m (ros_node w).

Definition ros_send (c : ros_call) (w : MainWindow) : MainWindow :=
  mkMainWindow (theme w) (selected_vehicles w) (feedback_dict w) (widgets w)
    (width w) (Vehicle_IP_addresses w) (ip_to_vehicle w) (ros_node w ++ [c]).

Definition with_tabs_styleSheet (s : string) (g : Widgets) : Widgets :=
  mkWidgets s (tab_dict g) (confirm_reject_labels g)
    (general_page_vehicle_widgets g) (column0_widget g) (column01_widget g)
    (buttons_column_widget g) (console_scroll_area g) (console_messages g)
    (buttons g) (anonymous_labels g) (lines g).

Definition with_tab_dict (d : list (string * string)) (g : Widgets) : Widgets :=
  mkWidgets (tabs_styleSheet g) d (confirm_reject_labels g)
    (general_page_vehicle_widgets g) (column0_widget g) (column01_widget g)
    (buttons_column_widget g) (console_scroll_area g) (console_messages g)
    (buttons g) (anonymous_labels g) (lines g).

Definition with_confirm_reject_labels (m : gmap string QLabel) (g : Widgets)
  : Widgets :=
  mkWidgets (tabs_styleSheet g) (tab_dict g) m
    (general_page_vehicle_widgets g) (column0_widget g) (column01_widget g)
    (buttons_column_widget g) (console_scroll_area g) (console_messages g)
    (buttons g) (anonymous_labels g) (lines g).

Definition with_general_page_vehicle_widgets (m : gmap Z (gmap string QLabel))
  (g : Widgets) : Widgets :=
  mkWidgets (tabs_styleSheet g) (tab_dict g) (confirm_reject_labels g)
    m (column0_widget g) (column01_widget g)
    (buttons_column_widget g) (console_scroll_area g) (console_messages g)
    (buttons g) (anonymous_labels g) (lines g).

Definition with_column0_widget (m : gmap Z (gmap string QLabel)) (g : Widgets)
  : Widgets :=
  mkWidgets (tabs_styleSheet g) (tab_dict g) (confirm_reject_labels g)
    (general_page_vehicle_widgets g) m (column01_widget g)
    (buttons_column_widget g) (console_scroll_area g) (console_messages g)
    (buttons g) (anonymous_labels g) (lines g).

Definition with_column01_widget (m : gmap Z (gmap string QLabel)) (g : Widgets)
  : Widgets :=
  mkWidgets (tabs_styleSheet g) (tab_dict g) (confirm_reject_labels g)
    (general_page_vehicle_widgets g) (column0_widget g) m
    (buttons_column_widget g) (console_scroll_area g) (console_messages g)
    (buttons g) (anonymous_labels g) (lines g).

Definition with_buttons_column_widget (m : gmap Z (gmap string QLabel))
  (g : Widgets) : Widgets :=
  mkWidgets (tabs_styleSheet g) (tab_dict g) (confirm_reject_labels g)
    (general_page_vehicle_widgets g) (column0_widget g) (column01_widget g)
    m (console_scroll_area g) (console_messages g)
    (buttons g) (anonymous_labels g) (lines g).

Definition with_console_scroll_area (m : gmap Z string) (g : Widgets) : Widgets :=
  mkWidgets (tabs_styleSheet g) (tab_dict g) (confirm_reject_labels g)
    (general_page_vehicle_widgets g) (column0_widget g) (column01_widget g)
    (buttons_column_widget g) m (console_messages g)
    (buttons g) (anonymous_labels g) (lines g).

Definition with_console_messages (m : gmap string QLabel) (g : Widgets)
  : Widgets :=
  mkWidgets (tabs_styleSheet g) (tab_dict g) (confirm_reject_labels g)
    (general_page_vehicle_widgets g) (column0_widget g) (column01_widget g)
    (buttons_column_widget g) (console_scroll_area g) m
    (buttons g) (anonymous_labels g) (lines g).

Definition with_buttons (l : list QPushButton) (g : Widgets) : Widgets :=
  mkWidgets (tabs_styleSheet g) (tab_dict g) (confirm_reject_labels g)
    (general_page_vehicle_widgets g) (column0_widget g) (column01_widget g)
    (buttons_column_widget g) (console_scroll_area g) (console_messages g)
    l (anonymous_labels g) (lines g).

Definition with_anonymous_labels (l : list QLabel) (g : Widgets) : Widgets :=
  mkWidgets (tabs_styleSheet g) (tab_dict g) (confirm_reject_labels g)
    (general_page_vehicle_widgets g) (column0_widget g) (column01_widget g)
    (buttons_column_widget g) (console_scroll_area g) (console_messages g)
    (buttons g) l (lines g).

Definition with_lines (l : list string) (g : Widgets) : Widgets :=
  mkWidgets (tabs_styleSheet g) (tab_dict g) (confirm_reject_labels g)
    (general_page_vehicle_widgets g) (column0_widget g) (column01_widget g)
    (buttons_column_widget g) (console_scroll_area g) (console_messages g)
    (buttons g) (anonymous_labels g) l.

(** ** Exceptions *)

Inductive exn : Type :=
  | KeyError (key : string)
  | AttributeError (name : string)
  | IndexError
  | OSError (file : string)
  | ValueError (what : string)
  | OverflowError
  | Exception (what : string).

(** [str(e)], as the f-strings of the handlers print an exception. *)
Definition exn_str (e : exn) : string :=
  match e with
  | KeyError key => Py.repr key
  | AttributeError name => "'NoneType' object has no attribute '" +:+ name +:+ "'"
  | IndexError => "list index out of range"
  | OSError file => "[Errno 2] No such file or directory: " +:+ Py.repr file
  | ValueError what => what
  | OverflowError => "(34, 'Numerical result out of range')"
  | Exception what => what
  end.

Inductive outcome : Type :=
  | Ok (w : MainWindow)
  | Raise (e : exn) (w : MainWindow).

Definition state_of (o : outcome) : MainWindow :=
  match o with Ok w => w | Raise _ w => w end.

Definition action : Type := MainWindow → outcome.

Definition pure (f : MainWindow → MainWindow) : action := λ w, Ok (f w).

Definition raise (e : exn) : action := λ w, Raise e w.

Definition and_then (a b : action) : action :=
  λ w, match a w with Ok w' => b w' | Raise e w' => Raise e w' end.

Notation "a >> b" := (and_then a b) (at level 60, right associativity).

(** [try: a  except Exception as e: handler(e)] *)
Definition try_except (a : action) (handler : exn → MainWindow → MainWindow)
  : MainWindow → MainWindow :=
  λ w, match a w with Ok w' => w' | Raise e w' => handler e w' end.

Fixpoint for_each {A : Type} (l : list A) (body : A → action) : action :=
  match l with
  | [] => pure id
  | x :: l' => body x >> for_each l' body
  end.

(** ** Console log and confirmation label *)

Definition console_name (vehicle : Z) : string :=
  "Console_messages" +:+ pretty vehicle.

Definition color_style (color : string) : string := "color: " +:+ color +:+ ";".

(** The body of the loop of [_update_console_gui] on a label that was found:
    the message becomes the text of an empty log and a new last line of a
    non-empty one. *)
Definition append_line (current_text console_message : string) : string :=
  if bool_decide (current_text = "") then console_message
  else current_text +:+ Py.newline +:+ console_message.

Definition console_append (console_message color : string) (label : QLabel)
  : QLabel :=
  setStyleSheet (color_style color)
    (setText (append_line (text label) console_message) label).

(** The body of the loop of [_update_console_gui]: the label named
    [Console_messages{vehicle}] is looked up and, when found, written in
    place; a label that is not found is only printed about. The scroll bar
    of the log is not part of the state, and nothing in the body raises, so
    its [try] is transparent. *)
Definition console_write (console_message : string) (vehicle : Z)
  (w : MainWindow) : MainWindow :=
  with_widgets
    (with_console_messages
       (alter (console_append console_message (text_color (theme w)))
          (console_name vehicle) (console_messages (widgets w)))
       (widgets w)) w.

(** [_update_console_gui] *)
Definition _update_console_gui (console_message : string) (vehicle_number : Z)
  (w : MainWindow) : MainWindow :=
  let vehicle_numbers :=
    if bool_decide (vehicle_number = 0) then selected_vehicles w
    else [vehicle_number] in
  foldl (λ w vehicle, console_write console_message vehicle w) w vehicle_numbers.

(** [recieve_console_update] emits [update_console_signal], whose slot is
    [_update_console_gui]. *)
Definition recieve_console_update (console_message : string)
  (vehicle_number : Z) : MainWindow → MainWindow :=
  _update_console_gui console_message vehicle_number.

(** [for i in self.selected_vehicles: self.recieve_console_update(msg, i)] *)
Definition console_update_all (console_message : string) (w : MainWindow)
  : MainWindow :=
  foldl (λ w i, recieve_console_update console_message i w) w
    (selected_vehicles w).

(** [handle_console_log] *)
Definition handle_console_log (message : string) (vehicle_number : Z)
  (w : MainWindow) : MainWindow :=
  if bool_decide (vehicle_number = 0) then console_update_all message w
  else if bool_decide (vehicle_number ∈ selected_vehicles w)
  then recieve_console_update message vehicle_number w
  else w.

(** [replace_confirm_reject_label] *)
Definition replace_confirm_reject_label (confirm_reject_text : string)
  (w : MainWindow) : MainWindow :=
  with_widgets
    (with_confirm_reject_labels
       (setText confirm_reject_text <$> confirm_reject_labels (widgets w))
       (widgets w)) w.

(** ** Colour themes *)

Definition button_style_sheet (bg fg border : string) : string :=
  "background-color: " +:+ bg +:+ "; color: " +:+ fg
  +:+ "; border: 2px solid " +:+ border
  +:+ "; padding-top: " +:+ pretty button_padding
  +:+ "px; padding-bottom: " +:+ pretty button_padding
  +:+ "px; font-size: " +:+ pretty button_font_size +:+ "px;".

(** [base_pop_up_style.format(bg=.., text=..)], up to white space. *)
Definition base_pop_up_style (bg text : string) : string :=
  "QDialog { background-color: " +:+ bg +:+ "; color: " +:+ text +:+ "; } "
  +:+ "QLabel, QCheckBox { color: " +:+ text +:+ "; } "
  +:+ "QCheckBox::indicator { width: 13px; height: 13px; } "
  +:+ "QLineEdit { background-color: " +:+ bg +:+ "; color: " +:+ text
  +:+ "; border: 1px solid " +:+ text +:+ "; padding: 2px; }".

(** [extra_checkbox_rules.format(text=..)], up to white space. *)
Definition extra_checkbox_rules (text : string) : string :=
  " QCheckBox::indicator:checked { border: 1px solid " +:+ text +:+ "; } "
  +:+ "QCheckBox::indicator:unchecked { background-color: " +:+ text
  +:+ "; border: 1px solid " +:+ text +:+ "; }".

(** The assignments of [set_color_theme]: one branch per theme; a theme
    that is none of the seven assigns nothing, and only dark mode assigns
    [check_box_color]. *)
Definition theme_colors (color_theme : string) (old : ColorTheme) : ColorTheme :=
  let theme := Py.lower color_theme in
  if String.eqb theme "dark_mode" then
    let bg := "#0F1C37" in let outline := "#FFFFFF" in let txt := "#FFFFFF" in
    let normal := "#28625a" in let danger := "#953f10" in
    mkColorTheme bg outline txt normal danger
      (button_style_sheet danger txt outline)
      (button_style_sheet normal txt outline)
      txt bg bg txt txt txt bg
      (base_pop_up_style bg txt +:+ extra_checkbox_rules txt)
  else if String.eqb theme "light_mode" then
    let bg := "#f4f6fc" in let outline := "#000000" in let txt := "#000000" in
    let danger := "#faa94a" in let normal := "#99d1c5" in
    mkColorTheme bg outline txt normal danger
      (button_style_sheet danger txt outline)
      (button_style_sheet normal txt outline)
      normal outline bg txt (check_box_color old) bg bg
      (base_pop_up_style bg txt)
  else if String.eqb theme "blue_pastel" then
    let bg := "#caedee" in let outline := "#000000" in let txt := "#000000" in
    let danger := "#ffdb4f" in let normal := "#81b673" in
    mkColorTheme bg outline txt normal danger
      (button_style_sheet danger txt outline)
      (button_style_sheet normal txt outline)
      normal outline bg txt (check_box_color old) bg bg
      (base_pop_up_style bg txt)
  else if String.eqb theme "brown_sepia" then
    let bg := "#f2edd1" in let outline := "#44312b" in let txt := "#44312b" in
    let danger := "#44312b" in let normal := "#44312b" in
    mkColorTheme bg outline txt normal danger
      (button_style_sheet danger bg outline)
      (button_style_sheet normal bg outline)
      normal bg bg txt (check_box_color old) bg bg
      (base_pop_up_style bg txt)
  else if String.eqb theme "cadetblue" then
    let bg := "cadetblue" in let outline := "#44312b" in let txt := "#000000" in
    let danger := "red" in let normal := "blue" in
    mkColorTheme bg outline txt normal danger
      (button_style_sheet danger "#FFFFFF" outline)
      (button_style_sheet normal "#FFFFFF" outline)
      "blue" "white" "grey" "black" (check_box_color old) bg bg
      (base_pop_up_style bg txt)
  else if String.eqb theme "intense_dark" then
    let bg := "black" in let outline := "white" in let txt := "white" in
    let danger := "white" in let normal := "white" in
    mkColorTheme bg outline txt normal danger
      (button_style_sheet danger bg outline)
      (button_style_sheet normal bg outline)
      "white" "black" "black" "white" (check_box_color old) txt bg
      (base_pop_up_style bg txt +:+ extra_checkbox_rules txt)
  else if String.eqb theme "intense_light" then
    let bg := "white" in let outline := "black" in let txt := "black" in
    let danger := "black" in let normal := "black" in
    mkColorTheme bg outline txt normal danger
      (button_style_sheet danger bg outline)
      (button_style_sheet normal bg outline)
      "black" "white" "white" "black" (check_box_color old) bg bg
      (base_pop_up_style bg txt)
  else old.

(** [repaintTabs] *)
Definition tabs_style (width_px : Z) (t : ColorTheme) : string :=
  "QTabBar::tab { height: 30px; width: " +:+ pretty (width_px - 15)
  +:+ "px; font-size: 12pt; padding: 5px; background: "
  +:+ not_selected_tab_color t +:+ "; color: " +:+ not_selected_tab_text_color t
  +:+ "; border: 2px solid " +:+ not_selected_tab_text_color t +:+ "; } "
  +:+ "QTabBar::tab:selected { background: " +:+ selected_tab_color t
  +:+ "; color: " +:+ selected_tab_text_color t
  +:+ "; border: 2px solid " +:+ selected_tab_text_color t
  +:+ "; font-weight: bold; }".

Definition repaintTabs (width_px : Z) (w : MainWindow) : MainWindow :=
  with_widgets (with_tabs_styleSheet (tabs_style width_px (theme w)) (widgets w)) w.

(** [set_background]: the palette colour and the stylesheet carry the same
    colour; the stylesheet is kept. *)
Definition background_style (color : string) : string :=
  "background-color: " +:+ color +:+ ";".

Definition scroll_area_style (t : ColorTheme) : string :=
  "border: 2px solid " +:+ border_outline t
  +:+ "; border-radius: 6px; background: " +:+ background_color t +:+ ";".

(** [set_console_log_colors] *)
Definition set_console_log_colors (text_color background_color : string)
  (w : MainWindow) : MainWindow :=
  foldl (λ w vehicle_number,
    match console_scroll_area (widgets w) !! vehicle_number with
    | Some _ =>
        let g := with_console_scroll_area
                   (<[vehicle_number := scroll_area_style (theme w)]>
                      (console_scroll_area (widgets w))) (widgets w) in
        match console_messages g !! console_name vehicle_number with
        | Some label =>
            with_widgets
              (with_console_messages
                 (<[console_name vehicle_number :=
                      setStyleSheet (color_style text_color) label]>
                    (console_messages g)) g) w
        | None => with_widgets g w
        end
    | None => w
    end) w (selected_vehicles w).

Definition is_danger_button (b : QPushButton) : bool :=
  let t := Py.lower (button_text b) in
  Py.contains "recall" t || Py.contains "emergency" t
  || Py.contains "clear console" t.

Definition icon_bkgrnd (t : ColorTheme) (icon_type : StandardPixmap) : string :=
  match icon_type with
  | SP_MessageBoxCritical => light_icon_bkgrnd_color t
  | SP_DialogApplyButton => light_icon_bkgrnd_color t
  | SP_TitleBarContextHelpButton => dark_icon_bkgrnd_color t
  end.

(** [repaint_icon], and the icon loop of [apply_theme_to_widgets]: a label
    that carries an icon gets it painted on the background of its type. *)
Definition repaint_icon (t : ColorTheme) (ic_label : QLabel) : QLabel :=
  match _icon_type ic_label with
  | Some icon_type =>
      mkQLabel (text ic_label) (styleSheet ic_label) (Some icon_type)
        (Some (icon_type, icon_bkgrnd t icon_type))
  | None => ic_label
  end.

Definition restyle_label (t : ColorTheme) (name : string) (l : QLabel) : QLabel :=
  let l := setStyleSheet (color_style (text_color t)) l in
  if String.prefix "icon" name then repaint_icon t l else l.

Definition restyle_children (t : ColorTheme) (c : gmap string QLabel)
  : gmap string QLabel :=
  map_imap (λ name l, Some (restyle_label t name l)) c.

Definition restyle_button (t : ColorTheme) (b : QPushButton) : QPushButton :=
  mkQPushButton (button_text b)
    (if is_danger_button b then danger_button_style_sheet t
     else normal_button_style_sheet t).

(** One round of the loop of [apply_theme_to_widgets], for the tab [name]:
    the background of that tab, then the console logs, every button, every
    label, every line and every icon of the window. *)
Definition apply_theme_to_tab (name : string) (w : MainWindow) : MainWindow :=
  let t := theme w in
  let w := with_widgets
             (with_tab_dict
                (Py.dict_set name (background_style (background_color t))
                   (tab_dict (widgets w))) (widgets w)) w in
  let w := set_console_log_colors (text_color t) (background_color t) w in
  let g := widgets w in
  with_widgets
    (mkWidgets (tabs_styleSheet g) (tab_dict g)
       (setStyleSheet (color_style (text_color t)) <$> confirm_reject_labels g)
       (restyle_children t <$> general_page_vehicle_widgets g)
       (restyle_children t <$> column0_widget g)
       (restyle_children t <$> column01_widget g)
       (restyle_children t <$> buttons_column_widget g)
       (console_scroll_area g)
       (setStyleSheet (color_style (text_color t)) <$> console_messages g)
       (restyle_button t <$> buttons g)
       (setStyleSheet (color_style (text_color t)) <$> anonymous_labels g)
       ((λ _, background_style (text_color t)) <$> lines g)) w.

(** [apply_theme_to_widgets] *)
Definition apply_theme_to_widgets (w : MainWindow) : MainWindow :=
  let width_px := width w / (Z.of_nat (length (selected_vehicles w)) + 1) - 10 in
  let w := repaintTabs width_px w in
  foldl (λ w name, apply_theme_to_tab name w) w (tab_dict (widgets w)).*1.

(** [set_color_theme] *)
Definition set_color_theme (color_theme : string) (first_time : bool)
  (w : MainWindow) : MainWindow :=
  let w := with_theme (theme_colors color_theme (theme w)) w in
  if first_time then w else apply_theme_to_widgets w.

(** ** Reading and writing the status store *)

(** [self.feedback_dict[key][vehicle_number]] *)
Definition feedback_get (key : string) (vehicle_number : Z) (w : MainWindow)
  : option value :=
  feedback_dict w !! key ≫= λ d, d !! vehicle_number.

(** [self.feedback_dict[key][vehicle_number] = x]: the outer lookup raises on
    a key that is missing, the inner assignment creates the entry. *)
Definition feedback_set (key : string) (vehicle_number : Z) (x : value)
  : action :=
  λ w, match feedback_dict w !! key with
       | Some d =>
           Ok (with_feedback_dict
                 (<[key := <[vehicle_number := x]> d]> (feedback_dict w)) w)
       | None => Raise (KeyError key) w
       end.

(** [stored != n] for an int [n]. Floats never reach the keys compared this
    way and are taken as different. *)
Definition ne_int (stored : value) (n : Z) : bool :=
  match stored with
  | VInt m => negb (m =? n)
  | _ => true
  end.

(** ** Status icons *)

Definition icon_name (prefix : string) (vehicle_number : Z) (page : string)
  : string :=
  "icon_" +:+ prefix +:+ pretty vehicle_number +:+ page.

(** [replace_icon_widget] followed by its [repaint_icon]. *)
Definition replace_icon_widget (t : ColorTheme) (icon_type : StandardPixmap)
  (icon_label : QLabel) : QLabel :=
  mkQLabel (text icon_label) (styleSheet icon_label) (Some icon_type)
    (Some (icon_type, icon_bkgrnd t icon_type)).

(** [replace_general_page_icon_widget]: the status and its icon are looked up
    first, then the column of the vehicle, [None] there raising on
    [widget.findChild]; a label that is not found is only printed about. *)
Definition replace_general_page_icon_widget (vehicle_number : Z)
  (prefix : string) : action :=
  λ w,
  let widget := general_page_vehicle_widgets (widgets w) !! vehicle_number in
  match feedback_dict w !! prefix with
  | None => Raise (KeyError prefix) w
  | Some d =>
  match d !! vehicle_number with
  | None => Raise (KeyError (pretty vehicle_number)) w
  | Some status =>
  match icons_dict status with
  | None => Raise (KeyError "status") w
  | Some icon_type =>
  match widget with
  | None => Raise (AttributeError "findChild") w
  | Some children =>
  match children !! icon_name prefix vehicle_number "0" with
  | Some existing_label =>
      Ok (with_widgets
            (with_general_page_vehicle_widgets
               (<[vehicle_number :=
                    <[icon_name prefix vehicle_number "0" :=
                        replace_icon_widget (theme w) icon_type existing_label]>
                      children]>
                  (general_page_vehicle_widgets (widgets w)))
               (widgets w)) w)
  | None => Ok w
  end end end end end.

(** [replace_specific_icon_widget]: [getattr] without a default raises on a
    column that was never created. *)
Definition replace_specific_icon_widget (vehicle_number : Z) (prefix : string)
  : action :=
  λ w,
  match column0_widget (widgets w) !! vehicle_number with
  | None =>
      Raise (AttributeError ("vehicle" +:+ pretty vehicle_number
                             +:+ "_column0_layout")) w
  | Some children =>
  match feedback_dict w !! prefix with
  | None => Raise (KeyError prefix) w
  | Some d =>
  match d !! vehicle_number with
  | None => Raise (KeyError (pretty vehicle_number)) w
  | Some status =>
  match icons_dict status with
  | None => Raise (KeyError "status") w
  | Some icon_type =>
  match children !! icon_name prefix vehicle_number "1" with
  | Some existing_label =>
      Ok (with_widgets
            (with_column0_widget
               (<[vehicle_number :=
                    <[icon_name prefix vehicle_number "1" :=
                        replace_icon_widget (theme w) icon_type existing_label]>
                      children]>
                  (column0_widget (widgets w)))
               (widgets w)) w)
  | None => Ok w
  end end end end end.

(** ** Modem control and service responses *)

(** [modem_shut_off_service]: label, console line, then the request on
    [cli3]. The future it returns completes later, see
    [handle_service_response]. *)
Definition modem_shut_off_service (shutoff : bool) (vehicle_id : Z)
  (w : MainWindow) : MainWindow :=
  let message := if shutoff then "Wifi Connected, Shutting Off Modem"
                 else "Wifi Disconnected, Turning On Modem" in
  let w := replace_confirm_reject_label message w in
  let w := recieve_console_update message vehicle_id w in
  ros_send (cli3_call_async shutoff vehicle_id) w.

(** How a future completed: with a response, or with an exception raised by
    [future.result()]. *)
Inductive future_result : Type :=
  | Response (success : bool)
  | Raised (e : exn).

Definition success_message (action : string) : string :=
  action +:+ " Service Initiated Successfully".

Definition failure_message (action : string) : string :=
  action +:+ " Service Initialization Failed".

Definition exception_message (action : string) (e : exn) : string :=
  action +:+ " service call failed: " +:+ exn_str e.

(** [handle_service_response] *)
Definition handle_service_response (future : future_result) (action : string)
  (vehicle_number : Z) (w : MainWindow) : MainWindow :=
  match future with
  | Response success =>
      let message := if success then success_message action
                     else failure_message action in
      let w := replace_confirm_reject_label message w in
      if bool_decide (vehicle_number = 0) then console_update_all message w
      else if bool_decide (vehicle_number ∈ selected_vehicles w)
      then recieve_console_update message vehicle_number w
      else w
  | Raised e =>
      let w := replace_confirm_reject_label (exception_message action e) w in
      if bool_decide (vehicle_number ∈ selected_vehicles w)
      then recieve_console_update (exception_message action e) vehicle_number w
      else w
  end.

(** ** Wifi prober *)

Record vehicle_config : Type := mk_vehicle_config {
  remote_host : string;
  remote_user : string;
  remote_path : string;
  param_file : string
}.

Definition config_error (num : Z) : string :=
  "❌ Vehicle " +:+ pretty num
  +:+ " not found in config, consider adding to config.json".

(** [get_IP_addresses], on the [vehicles] section of the parsed
    deploy_config.json. *)
Definition get_IP_addresses (vehicles : gmap string vehicle_config)
  (w : MainWindow) : MainWindow :=
  foldl (λ w num,
    match vehicles !! pretty num with
    | Some entry =>
        let ip := remote_host entry in
        with_IPs (Vehicle_IP_addresses w ++ [ip])
          (<[ip := num]> (ip_to_vehicle w)) w
    | None => recieve_console_update (config_error num) num w
    end) (with_IPs [] ∅ w) (selected_vehicles w).

(** [do_ping] of [ping_vehicles_via_wifi]: one probe per recorded address,
    [ping ip] telling whether the probe of [ip] returned 0. *)
Definition do_ping (ping : string → bool) (w : MainWindow) : list (string * Z) :=
  foldl (λ IPs_reachable ip,
           Py.dict_set ip (if ping ip then 1 else 0) IPs_reachable)
    [] (Vehicle_IP_addresses w).

Definition ping_message (reachable vehicle_number : Z) : string :=
  (if bool_decide (reachable = 1) then "Ping successful for"
   else "Unable to Ping") +:+ " vehicle" +:+ pretty vehicle_number.

(** The body of the loop of [update_wifi_widgets] for one item of the
    report. *)
Definition update_wifi_item (item : string * Z) : action :=
  λ w,
  let '(ip, reachable) := item in
  match ip_to_vehicle w !! ip with
  | None => Ok w
  | Some vehicle_number =>
      match feedback_get "Wifi" vehicle_number w with
      | None => Raise (KeyError (pretty vehicle_number)) w
      | Some wifi_status =>
          if ne_int wifi_status reachable then
            (pure (recieve_console_update
                     (ping_message reachable vehicle_number) vehicle_number)
             >> feedback_set "Wifi" vehicle_number (VInt reachable)
             >> replace_general_page_icon_widget vehicle_number "Wifi"
             >> replace_specific_icon_widget vehicle_number "Wifi"
             >> pure (modem_shut_off_service (negb (reachable =? 0))
                        vehicle_number)) w
          else Ok w
      end
  end.

(** [update_wifi_widgets]: an exception leaves the loop and is printed. *)
Definition update_wifi_widgets (IPs_dict : list (string * Z))
  : MainWindow → MainWindow :=
  try_except (for_each IPs_dict update_wifi_item) (λ _ w, w).

(** [ping_vehicles_via_wifi]: the report of [do_ping] reaches
    [update_wifi_widgets] through [update_wifi_signal]. *)
Definition ping_vehicles_via_wifi (ping : string → bool) (w : MainWindow)
  : MainWindow :=
  update_wifi_widgets (do_ping ping w) w.

(** ** Telemetry messages *)

Module Vector3.
Record t : Type := mk { x : float; y : float; z : float }.
End Vector3.

Module Quaternion.
Record t : Type := mk { x : float; y : float; z : float; w : float }.
End Quaternion.

(** The smoothed-output message: [pose.pose.position],
    [pose.pose.orientation], [twist.twist.linear], [twist.twist.angular]. *)
Record Odometry : Type := mkOdometry {
  position : Vector3.t;
  orientation : Quaternion.t;
  linear : Vector3.t;
  angular : Vector3.t
}.

(** The safety-status message; each field is the [.data] of the source. *)
Record SafetyStatus : Type := mkSafetyStatus {
  gps_status : bool;
  dvl_status : bool;
  imu_published : bool;
  emergency_status : Z
}.

(** The connections message. *)
Record Connections : Type := mkConnections {
  connection_type : bool;
  vehicle_ids : list Z;
  connections : list bool;
  last_ping : list Z
}.

(** [math.sqrt(x)]: the correctly rounded square root, and a ValueError
    below zero. *)
Definition math_sqrt (x : float) : exn + float :=
  if PrimFloat.ltb x 0 then inl (ValueError "math domain error")
  else inr (PrimFloat.sqrt x).

(** [get_status_label]: the text of the label it builds. *)
Definition get_status_label (status_message : Z) : string :=
  if bool_decide (status_message = 0) then "Good"
  else if bool_decide (status_message = 1) then "EMERGENCY: <br>Recall Vehicle"
  else if bool_decide (status_message = 2) then "Surfaced/Disarmed"
  else "No Data Received".

Definition key_to_text_dict : list (string * string) :=
  [("XPos", "x (m): "); ("YPos", "y (m): "); ("Depth", "Depth (m): ");
   ("Heading", "Heading (deg): "); ("Waypoint", "Current Waypoint: ");
   ("DVL_vel", "DVL Velocity <br>(m/s): "); ("Battery", "Battery (V): ");
   ("Pressure", "Pressure (Pa): ");
   ("Angular_vel", "Angular Velocity <br>(rad/s): ")].

Section telemetry.

(** What the handlers take from outside this file: the text Python prints
    for a float, [quat2euler] of transforms3d on [(w, x, y, z)],
    [math.degrees(yaw) % 360], and [x ** n] on a float, which is the power
    the C library computes or the exception raised for it (OverflowError
    when the power is out of range). *)
Variable float_str : float → string.
Variable quat2euler : float * float * float * float → float * float * float.
Variable degrees_mod_360 : float → float.
Variable float_pow : float → Z → exn + float.

(** [math.sqrt(v.x**2 + v.y**2 + v.z**2)]: the three powers in the order
    they are written, their sum, and its root. *)
Definition euclidean_norm (v : Vector3.t) : exn + float :=
  match float_pow (Vector3.x v) 2 with
  | inl e => inl e
  | inr x2 =>
  match float_pow (Vector3.y v) 2 with
  | inl e => inl e
  | inr y2 =>
  match float_pow (Vector3.z v) 2 with
  | inl e => inl e
  | inr z2 => math_sqrt (PrimFloat.add (PrimFloat.add x2 y2) z2)
  end end end.

(** [str(x)] *)
Definition str (x : value) : string :=
  match x with
  | VInt n => pretty n
  | VFloat x => float_str x
  | VStr s => s
  | VList l => Py.repr_list l
  end.

(** [replace_specific_status_widget] *)
Definition replace_specific_status_widget (vehicle_number : Z)
  (prefix : string) : action :=
  λ w,
  match column01_widget (widgets w) !! vehicle_number with
  | None =>
      Raise (AttributeError ("vehicle" +:+ pretty vehicle_number
                             +:+ "_column01_layout")) w
  | Some children =>
  match Py.dict_get prefix key_to_text_dict with
  | None => Raise (KeyError prefix) w
  | Some caption =>
  match feedback_dict w !! prefix with
  | None => Raise (KeyError prefix) w
  | Some d =>
  match d !! vehicle_number with
  | None => Raise (KeyError (pretty vehicle_number)) w
  | Some x =>
  match children !! (prefix +:+ pretty vehicle_number) with
  | Some existing_label =>
      Ok (with_widgets
            (with_column01_widget
               (<[vehicle_number :=
                    <[prefix +:+ pretty vehicle_number :=
                        setText (caption +:+ str x) existing_label]> children]>
                  (column01_widget (widgets w)))
               (widgets w)) w)
  | None => Ok w
  end end end end end.

(** [_update_safety_status_information] *)
Definition _update_safety_status_information (vehicle_number : Z)
  (safety_message : SafetyStatus) : action :=
  let gps_data := if gps_status safety_message then 0 else 1 in
  let dvl_data := if dvl_status safety_message then 0 else 1 in
  let imu_data := if imu_published safety_message then 1 else 0 in
  feedback_set "GPS" vehicle_number (VInt gps_data)
  >> feedback_set "DVL" vehicle_number (VInt dvl_data)
  >> feedback_set "IMU" vehicle_number (VInt imu_data)
  >> replace_general_page_icon_widget vehicle_number "GPS"
  >> replace_general_page_icon_widget vehicle_number "DVL"
  >> replace_general_page_icon_widget vehicle_number "IMU"
  >> replace_specific_icon_widget vehicle_number "GPS"
  >> replace_specific_icon_widget vehicle_number "DVL"
  >> replace_specific_icon_widget vehicle_number "IMU"
  >> λ w,
     match feedback_get "Status_messages" vehicle_number w with
     | None => Raise (KeyError (pretty vehicle_number)) w
     | Some stored =>
         if ne_int stored (emergency_status safety_message) then
           (feedback_set "Status_messages" vehicle_number
              (VInt (emergency_status safety_message))
            >> λ w,
               match general_page_vehicle_widgets (widgets w) !! vehicle_number
               with
               | None => Raise (AttributeError "findChild") w
               | Some children =>
                   let name := "Status_messages" +:+ pretty vehicle_number in
                   match children !! name with
                   | Some existing_label =>
                       Ok (with_widgets
                             (with_general_page_vehicle_widgets
                                (<[vehicle_number :=
                                     <[name :=
                                         setText
                                           (get_status_label
                                              (emergency_status safety_message))
                                           existing_label]> children]>
                                   (general_page_vehicle_widgets (widgets w)))
                                (widgets w)) w)
                   | None => Ok w
                   end
               end) w
         else Ok w
     end.

(** [_update_gui_smoothed_output] *)
Definition _update_gui_smoothed_output (vehicle_number : Z) (msg : Odometry)
  : action :=
  let x := Vector3.x (position msg) in
  let y := Vector3.y (position msg) in
  let q := (Quaternion.w (orientation msg), Quaternion.x (orientation msg),
            Quaternion.y (orientation msg), Quaternion.z (orientation msg)) in
  let yaw := (quat2euler q).2 in
  let heading_deg := degrees_mod_360 yaw in
  match euclidean_norm (linear msg) with
  | inl e => raise e
  | inr total_linear_vel =>
  match euclidean_norm (angular msg) with
  | inl e => raise e
  | inr total_angular_vel =>
  feedback_set "XPos" vehicle_number (VFloat (Py.round x 2))
  >> feedback_set "YPos" vehicle_number (VFloat (Py.round y 2))
  >> feedback_set "DVL_vel" vehicle_number (VFloat (Py.round total_linear_vel 2))
  >> feedback_set "Angular_vel" vehicle_number
       (VFloat (Py.round total_angular_vel 2))
  >> feedback_set "Heading" vehicle_number (VFloat (Py.round heading_deg 2))
  >> replace_specific_status_widget vehicle_number "XPos"
  >> replace_specific_status_widget vehicle_number "YPos"
  >> replace_specific_status_widget vehicle_number "DVL_vel"
  >> replace_specific_status_widget vehicle_number "Angular_vel"
  >> replace_specific_status_widget vehicle_number "Heading"
  end end.

(** [update_depth_data], on [msg.pose.pose.position.z] *)
Definition update_depth_data (vehicle_number : Z) (z : float) : action :=
  feedback_set "Depth" vehicle_number (VFloat (Py.round z 2))
  >> replace_specific_status_widget vehicle_number "Depth".

(** [update_pressure_data], on [msg.fluid_pressure] *)
Definition update_pressure_data (vehicle_number : Z) (fluid_pressure : float)
  : action :=
  feedback_set "Pressure" vehicle_number (VFloat (Py.round fluid_pressure 2))
  >> replace_specific_status_widget vehicle_number "Pressure".

(** [update_battery_data], on [msg.voltage] *)
Definition update_battery_data (vehicle_number : Z) (voltage : float)
  : action :=
  feedback_set "Battery" vehicle_number (VFloat (Py.round voltage 1))
  >> replace_specific_status_widget vehicle_number "Battery".

End telemetry.

(** [_update_kill_confirmation_gui] and [_update_surf_confirmation_gui] *)
Definition _update_kill_confirmation_gui (value : bool) : MainWindow → MainWindow :=
  console_update_all
    (if value then "Kill Command Confirmed" else "Kill Command Failed").

Definition _update_surf_confirmation_gui (value : bool) : MainWindow → MainWindow :=
  console_update_all
    (if value then "Surface Command Confirmed" else "Surface Command Failed").

(** ** Connection health *)

(** The first loop of [_update_connections_gui], for the item [i] of
    [vehicle_ids]. *)
Definition update_connection_status (conn_message : Connections)
  (feedback_key : string) (item : nat * Z) : action :=
  λ w,
  let '(i, vehicle_number) := item in
  match feedback_dict w !! feedback_key with
  | None => Raise (KeyError feedback_key) w
  | Some d =>
      if bool_decide (d !! vehicle_number = None) then Ok w
      else
        match (connections conn_message !! i : option bool) with
        | None => Raise IndexError w
        | Some connected =>
            (feedback_set feedback_key vehicle_number
               (VInt (if connected then 1 else 0))
             >> (λ w,
                 if bool_decide (is_Some (general_page_vehicle_widgets
                                            (widgets w) !! vehicle_number))
                 then replace_general_page_icon_widget vehicle_number
                        feedback_key w
                 else Ok w)
             >> (λ w,
                 if bool_decide (is_Some (column0_widget (widgets w)
                                            !! vehicle_number))
                 then replace_specific_icon_widget vehicle_number
                        feedback_key w
                 else Ok w)) w
        end
  end.

Definition seconds_label_name (conn_type : bool) (vehicle_number : Z) : string :=
  "vehicle" +:+ pretty vehicle_number
  +:+ (if conn_type then "_radio_seconds_widget" else "_modem_seconds_widget").

(** The second loop of [_update_connections_gui]. *)
Definition update_connection_seconds (conn_message : Connections)
  (feedback_key_seconds : string) (conn_type : bool) (item : nat * Z) : action :=
  λ w,
  let '(i, vehicle_number) := item in
  if bool_decide (vehicle_number ∈ selected_vehicles w) then
    match (last_ping conn_message !! i : option Z) with
    | None => Raise IndexError w
    | Some ping =>
        (feedback_set feedback_key_seconds vehicle_number (VInt ping)
         >> pure (λ w,
              match buttons_column_widget (widgets w) !! vehicle_number with
              | Some children =>
                  let name := seconds_label_name conn_type vehicle_number in
                  match children !! name with
                  | Some existing_label =>
                      with_widgets
                        (with_buttons_column_widget
                           (<[vehicle_number :=
                                <[name :=
                                    setText
                                      ((if conn_type then "Radio: "
                                        else "Acoustics: ") +:+ pretty ping)
                                      existing_label]> children]>
                              (buttons_column_widget (widgets w)))
                           (widgets w)) w
                  | None => w
                  end
              | None => w
              end)) w
    end
  else Ok w.

(** [_update_connections_gui]: each round of either loop has its own [try],
    whose handler prints. *)
Definition _update_connections_gui (conn_message : Connections)
  (w : MainWindow) : MainWindow :=
  let conn_type := connection_type conn_message in
  let feedback_key := if conn_type then "Radio" else "Modem" in
  let feedback_key_seconds :=
    if conn_type then "Radio_seconds" else "Modem_seconds" in
  let items := zip (seq 0 (length (vehicle_ids conn_message)))
                 (vehicle_ids conn_message) in
  let w := foldl (λ w item,
                    try_except
                      (update_connection_status conn_message feedback_key item)
                      (λ _ w, w) w) w items in
  foldl (λ w item,
           try_except
             (update_connection_seconds conn_message feedback_key_seconds
                conn_type item)
             (λ _ w, w) w) w items.

(** ** Emergency buttons *)

(** [emergency_shutdown_button]; [confirmed] is the answer of the dialog. *)
Definition emergency_shutdown_button (vehicle_number : Z) (confirmed : bool)
  (w : MainWindow) : MainWindow :=
  if confirmed then
    let w := replace_confirm_reject_label "Starting Emergency Shutdown..." w in
    let w := recieve_console_update
               ("Starting Emergency Shutdown for Vehicle "
                +:+ pretty vehicle_number) vehicle_number w in
    ros_send (cli_call_async vehicle_number) w
  else
    let w := replace_confirm_reject_label
               "Canceling Emergency Shutdown command..." w in
    recieve_console_update
      ("Canceling Emergency Shutdown for Vehicle " +:+ pretty vehicle_number)
      vehicle_number w.

(** [emergency_surface_button] *)
Definition emergency_surface_button (vehicle_number : Z) (confirmed : bool)
  (w : MainWindow) : MainWindow :=
  if confirmed then
    let w := replace_confirm_reject_label "Starting Emergency Surface..." w in
    let w := recieve_console_update
               ("Starting Emergency Surface for Vehicle "
                +:+ pretty vehicle_number) vehicle_number w in
    ros_send (cli2_call_async vehicle_number) w
  else
    let w := replace_confirm_reject_label
               "Canceling Emergency Surface command..." w in
    recieve_console_update
      ("Canceling Emergency Surface for Vehicle " +:+ pretty vehicle_number)
      vehicle_number w.

(** ** Construction of the window *)

Definition add_label (l : QLabel) (g : Widgets) : Widgets :=
  with_anonymous_labels (anonymous_labels g ++ [l]) g.

Definition add_line (t : ColorTheme) (g : Widgets) : Widgets :=
  with_lines (lines g ++ [background_style (text_color t)]) g.

Definition add_button (button_text style : string) (g : Widgets) : Widgets :=
  with_buttons (buttons g ++ [mkQPushButton button_text style]) g.

(** [create_title_label] and the other captions: a label of the text colour. *)
Definition caption (t : ColorTheme) (text : string) : QLabel :=
  new_label text (color_style (text_color t)).

(** [make_icon_label] *)
Definition make_icon_label (t : ColorTheme) (icon : StandardPixmap) : QLabel :=
  mkQLabel "" "" (Some icon) (Some (icon, icon_bkgrnd t icon)).

(** [self.icons_dict[self.feedback_dict[key][vehicle_number]]] while the
    window is built, when every entry is still the 2 of the initial
    dictionary. *)
Definition initial_icon (fd : gmap string (gmap Z value)) (key : string)
  (vehicle_number : Z) : StandardPixmap :=
  default SP_TitleBarContextHelpButton
    (((fd !! key) ≫= (λ d : gmap Z value, d !! vehicle_number)) ≫= icons_dict).

Definition connection_and_sensor_keys : list string :=
  ["Wifi"; "Radio"; "Modem"; "DVL"; "GPS"; "IMU"].

(** The icon labels [create_icon_and_text] names
    [icon_{text}{vehicle_number}{icon_pg_type}]. *)
Definition icon_children (t : ColorTheme) (fd : gmap string (gmap Z value))
  (vehicle_number : Z) (page : string) : gmap string QLabel :=
  foldl (λ c key,
           <[icon_name key vehicle_number page :=
               make_icon_label t (initial_icon fd key vehicle_number)]> c)
    ∅ connection_and_sensor_keys.

(** [set_general_page_C1_widgets] *)
Definition set_general_page_C1_widgets (t : ColorTheme)
  (fd : gmap string (gmap Z value)) (vehicle_number : Z) (g : Widgets)
  : Widgets :=
  let children :=
    <["Status_messages" +:+ pretty vehicle_number :=
        new_label "No Data Recieved" (color_style (text_color t))]>
      (icon_children t fd vehicle_number "0") in
  let g := with_general_page_vehicle_widgets
             (<[vehicle_number := children]> (general_page_vehicle_widgets g))
             g in
  foldl (λ g text, add_label (caption t text) g) g
    ["Vehicle " +:+ pretty vehicle_number +:+ ":"; "Connections"; "Wifi";
     "Radio"; "Modem"; "Sensors"; "DVL"; "GPS"; "IMU"; "Emergency Status"].

(** [set_general_page_C0_widgets] *)
Definition set_general_page_C0_widgets (t : ColorTheme) (g : Widgets) : Widgets :=
  let g := add_label (caption t "General Options:") g in
  let g := foldl (λ g text, add_button text (normal_button_style_sheet t) g) g
             ["Load All Missions"; "Start All Missions"; "Plot Waypoints";
              "Copy Bags to Base Station"; "Calibrate All Vehicles (BUGGY)";
              "Calibrate Fins (In Progress)"] in
  add_button "Recall Vehicles (No Signal)" (danger_button_style_sheet t) g.

(** [set_general_page_widgets] *)
Definition set_general_page_widgets (t : ColorTheme)
  (fd : gmap string (gmap Z value)) (selected_vehicles : list Z) (g : Widgets)
  : Widgets :=
  let g := with_general_page_vehicle_widgets ∅ g in
  let g := foldl (λ g vehicle_number,
                    with_general_page_vehicle_widgets
                      (<[vehicle_number := ∅]> (general_page_vehicle_widgets g))
                      (add_line t g)) g selected_vehicles in
  let g := set_general_page_C0_widgets t g in
  foldl (λ g vehicle_number, set_general_page_C1_widgets t fd vehicle_number g)
    g selected_vehicles.

(** [create_specific_vehicle_column0] *)
Definition create_specific_vehicle_column0 (t : ColorTheme)
  (fd : gmap string (gmap Z value)) (vehicle_number : Z) (g : Widgets)
  : Widgets :=
  let g := with_column0_widget
             (<[vehicle_number := icon_children t fd vehicle_number "1"]>
                (column0_widget g)) g in
  foldl (λ g text, add_label (caption t text) g) g
    ["Vehicle " +:+ pretty vehicle_number; "Connections"; "Wifi"; "Radio";
     "Modem"; "Sensors"; "DVL"; "GPS"; "IMU"].

(** [create_specific_vehicle_column01] *)
Definition create_specific_vehicle_column01 (t : ColorTheme)
  (vehicle_number : Z) (g : Widgets) : Widgets :=
  let children :=
    foldl (λ c '(name, text),
             <[name +:+ pretty vehicle_number :=
                 new_label text (color_style (text_color t))]> c) ∅
      [("XPos", "x (m): x"); ("YPos", "y (m): y"); ("Depth", "Depth (m): d");
       ("Heading", "Heading (deg): h"); ("Waypoint", "Current Waypoint: w");
       ("DVL_vel", "DVL Velocity <br>(m/s): v");
       ("Angular_vel", "Angular Velocity <br>(rad/s): a");
       ("Battery", "Battery (V): b"); ("Pressure", "Pressure (Pa):<br>p")] in
  let g := with_column01_widget
             (<[vehicle_number := children]> (column01_widget g)) g in
  add_label (caption t "Status") (add_label (caption t "") g).

(** [create_vehicle_buttons_column] *)
Definition create_vehicle_buttons_column (t : ColorTheme) (vehicle_number : Z)
  (g : Widgets) : Widgets :=
  let g := foldl (λ g text, add_button text (normal_button_style_sheet t) g) g
             ["Load Mission"; "Start Mission"; "Copy Bag to Base Station";
              "Calibrate Vehicle (BUGGY)"] in
  let g := foldl (λ g text, add_button text (danger_button_style_sheet t) g) g
             ["Emergency Surface"; "Recall Vehicle (No Signal)";
              "Emergency Shutdown"; "Clear Console"] in
  let g := add_label (caption t "Seconds since last connected") g in
  let children :=
    <[seconds_label_name false vehicle_number :=
        new_label "Acoustics: xxx" (color_style (text_color t))]>
      (<[seconds_label_name true vehicle_number :=
           new_label "Radio: xxx" (color_style (text_color t))]> ∅) in
  let g := with_buttons_column_widget
             (<[vehicle_number := children]> (buttons_column_widget g)) g in
  add_line t g.

(** [set_specific_vehicle_widgets] *)
Definition set_specific_vehicle_widgets (t : ColorTheme)
  (fd : gmap string (gmap Z value)) (vehicle_number : Z) (g : Widgets)
  : Widgets :=
  let g := create_specific_vehicle_column0 t fd vehicle_number g in
  let g := create_specific_vehicle_column01 t vehicle_number g in
  let g := add_line t g in
  create_vehicle_buttons_column t vehicle_number g.

(** [create_specific_vehicle_console_log] *)
Definition create_specific_vehicle_console_log (t : ColorTheme)
  (vehicle_number : Z) (g : Widgets) : Widgets :=
  let g := add_label (caption t "Console information/message log") g in
  let g := with_console_messages
             (<[console_name vehicle_number := new_label "" ""]>
                (console_messages g)) g in
  with_console_scroll_area
    (<[vehicle_number := scroll_area_style t]> (console_scroll_area g)) g.

Definition confirm_reject_initial : string :=
  "Confirmation/Rejection messages from command buttons will appear here".

(** One round of the tab loop of [__init__]. The vehicle of a tab
    [Vehicle n] is the [n] its name was printed from, which is what
    [int(name.split()[-1])] reads back. *)
Definition create_tab (t : ColorTheme) (fd : gmap string (gmap Z value))
  (selected_vehicles : list Z) (name : string) (vehicle : option Z)
  (g : Widgets) : Widgets :=
  let g := add_line t g in
  let g := with_confirm_reject_labels
             (<[name := new_label confirm_reject_initial
                          (color_style (text_color t) +:+ " font-size: 14px;")]>
                (confirm_reject_labels g)) g in
  let g :=
    match vehicle with
    | Some vehicle_number =>
        let g := set_specific_vehicle_widgets t fd vehicle_number g in
        let g := add_line t g in
        create_specific_vehicle_console_log t vehicle_number g
    | None => set_general_page_widgets t fd selected_vehicles g
    end in
  with_tab_dict
    (Py.dict_set name (background_style (background_color t)) (tab_dict g)) g.

Definition tab_name (i : Z) : string := "Vehicle " +:+ pretty i.

Definition empty_theme : ColorTheme :=
  mkColorTheme "" "" "" "" "" "" "" "" "" "" "" "" "" "" "".

Definition empty_widgets : Widgets :=
  mkWidgets "" [] ∅ ∅ ∅ ∅ ∅ ∅ ∅ [] [] [].

(** [MainWindow.__init__], on the vehicle selection and the [vehicles]
    section of deploy_config.json. The window starts at Qt's default width;
    [resizeEvent] sets the real one. *)
Definition MainWindow_init (vehicle_list : list Z)
  (vehicles : gmap string vehicle_config) : MainWindow :=
  let t := theme_colors "dark_mode" empty_theme in
  let fd := feedback_dict_init vehicle_list in
  let tabs := ("General", None)
              :: ((λ i, (tab_name i, Some i)) <$> vehicle_list) in
  let g := foldl (λ g '(name, vehicle),
                    create_tab t fd vehicle_list name vehicle g)
             empty_widgets tabs in
  let w := mkMainWindow t vehicle_list fd g 640 [] ∅ [] in
  let w := get_IP_addresses vehicles w in
  recieve_console_update
    ("These are the Vehicle IP Addresses that were both selected and in the "
     +:+ "config.json: " +:+ Py.repr_list (Vehicle_IP_addresses w)) 0 w.

(** [resizeEvent], on the new width of the window. *)
Definition resizeEvent (new_width : Z) (w : MainWindow) : MainWindow :=
  let w := mkMainWindow (theme w) (selected_vehicles w) (feedback_dict w)
             (widgets w) new_width (Vehicle_IP_addresses w) (ip_to_vehicle w)
             (ros_node w) in
  repaintTabs
    (new_width / (Z.of_nat (length (selected_vehicles w)) + 1) - 10) w.

(** ** Mission loading *)

(** A parsed mission file. [origin_lla] is [None] when the section is
    missing or empty, and each of its two coordinates is [None] when the key
    is missing; a way-point is [None] when it has no [position_enu] with [x]
    and [y], which is the KeyError of the extraction. *)
Record mission_data : Type := mk_mission_data {
  origin_lla : option (option Qc * option Qc);
  waypoints : list (option (Qc * Qc))
}.

(** The local variables of [deploy_in_thread]. [origin_vars] holds
    [origin_lat] and [origin_long] once they are bound. *)
Record mission_locals : Type := mk_mission_locals {
  origins : list (Qc * Qc);
  spec_paths_dict : list (Z * list (Qc * Qc));
  origin_vars : option (option Qc * option Qc)
}.

Inductive loaded : Type :=
  | Loaded (loc : mission_locals) (w : MainWindow)
  | Failed (e : exn) (w : MainWindow).

Definition warn (err_msg : string) (vehicle_number : Z) (w : MainWindow)
  : MainWindow :=
  replace_confirm_reject_label err_msg
    (recieve_console_update err_msg vehicle_number w).

Definition warn_all (err_msg : string) (w : MainWindow) : MainWindow :=
  replace_confirm_reject_label err_msg (console_update_all err_msg w).

(** [for wp in waypoints: spec_paths_list.append((x, y))] *)
Fixpoint extract_path (waypoints : list (option (Qc * Qc)))
  : option (list (Qc * Qc)) :=
  match waypoints with
  | [] => Some []
  | Some xy :: rest => cons xy <$> extract_path rest
  | None :: _ => None
  end.

Section deploy.

(** What mission loading takes from outside: the mission file a path parses
    to ([None] when it cannot be opened or is no mapping), and the exception
    [deploy.main] ends with, if any. *)
Variable yaml_load : string → option mission_data.
Variable deploy_raises : option exn.

(** One round of the file loop of [deploy_in_thread]. *)
Definition load_mission_file (selected_files : list string) (idx : nat)
  (vehicle_number : Z) (loc : mission_locals) (w : MainWindow) : loaded :=
  match (selected_files !! idx : option string) with
  | None => Failed IndexError w
  | Some file =>
  match yaml_load file with
  | None => Failed (OSError file) w
  | Some mission =>
      let '(loc, w) :=
        match origin_lla mission with
        | None =>
            (loc, warn ("Warning: ⚠️ File " +:+ file
                        +:+ " missing 'origin_lla' section.") vehicle_number w)
        | Some (origin_lat, origin_long) =>
            match origin_lat, origin_long with
            | Some lat, Some long =>
                (mk_mission_locals (origins loc ++ [(lat, long)])
                   (spec_paths_dict loc) (Some (origin_lat, origin_long)), w)
            | _, _ =>
                (mk_mission_locals (origins loc) (spec_paths_dict loc)
                   (Some (origin_lat, origin_long)),
                 warn ("Warning: ⚠️ File " +:+ file
                       +:+ " missing latitude or longitude in 'origin_lla'.")
                   vehicle_number w)
            end
        end in
      match waypoints mission with
      | [] =>
          Loaded loc (warn ("Warning: ⚠️ File " +:+ file
                            +:+ " doesn't have waypoints.") vehicle_number w)
      | _ =>
          match extract_path (waypoints mission) with
          | None => Failed (KeyError "position_enu") w
          | Some spec_paths_list =>
              Loaded (mk_mission_locals (origins loc)
                        (Py.dict_set vehicle_number spec_paths_list
                           (spec_paths_dict loc)) (origin_vars loc)) w
          end
      end
  end end.

Fixpoint load_mission_files (selected_files : list string)
  (items : list (nat * Z)) (loc : mission_locals) (w : MainWindow) : loaded :=
  match items with
  | [] => Loaded loc w
  | (idx, vehicle_number) :: rest =>
      match load_mission_file selected_files idx vehicle_number loc w with
      | Loaded loc w => load_mission_files selected_files rest loc w
      | Failed e w => Failed e w
      end
  end.

Definition origin_warning : string :=
  "Warning: ⚠️ Not all mission files have the same origin (latitude, "
  +:+ "longitude). Not publishing map viz origin data.".

Definition no_paths_warning : string :=
  "Warning: ⚠️ No paths found in files. Not publishing map viz path data.".

(** The origin check of [deploy_in_thread]; the origin published is the
    pair of the variables of the last file that had an [origin_lla]. *)
Definition publish_origin_step (loc : mission_locals) : action :=
  λ w,
  match origins loc with
  | [] => Ok w
  | first_origin :: _ =>
      if forallb (λ origin, bool_decide (origin = first_origin)) (origins loc)
      then
        match origin_vars loc with
        | Some origin => Ok (ros_send (publish_origin origin) w)
        | None => Raise (Exception "origin_lat") w
        end
      else Ok (warn_all origin_warning w)
  end.

Definition publish_paths_step (loc : mission_locals) (w : MainWindow)
  : MainWindow :=
  match spec_paths_dict loc with
  | [] => warn_all no_paths_warning w
  | paths =>
      foldl (λ w '(num, path_msg), ros_send (publish_path path_msg num) w)
        w paths
  end.

Definition deploy_step (selected_files : list string) : action :=
  λ w,
  let w := ros_send (deploy_main (selected_vehicles w) selected_files) w in
  match deploy_raises with
  | Some e => Raise e w
  | None => Ok (replace_confirm_reject_label "Loading Mission Command Complete" w)
  end.

(** [deploy_in_thread] of [load_missions_button] *)
Definition deploy_in_thread (selected_files : list string) (w : MainWindow)
  : MainWindow :=
  let items := zip (seq 0 (length (selected_vehicles w))) (selected_vehicles w) in
  let failed e w :=
    let err_msg := "Mission loading failed: " +:+ exn_str e in
    console_update_all err_msg (replace_confirm_reject_label err_msg w) in
  match load_mission_files selected_files items (mk_mission_locals [] [] None) w
  with
  | Failed e w => failed e w
  | Loaded loc w =>
      try_except
        (publish_origin_step loc >> pure (publish_paths_step loc)
         >> deploy_step selected_files) failed w
  end.

(** [load_missions_button]; [dialog] is [None] when the dialog was
    cancelled and the list of the chosen files otherwise. *)
Definition load_missions_button (dialog : option (list string))
  (w : MainWindow) : MainWindow :=
  let w := replace_confirm_reject_label "Loading the missions..." w in
  let w := console_update_all "Loading the missions..." w in
  match dialog with
  | Some selected_files => deploy_in_thread selected_files w
  | None => warn_all "Mission Loading command was cancelled." w
  end.

End deploy.

(** ** Fin calibration dialog *)

(** [CalibrateFinsDialog.fin_sliders]: tab name to the values of its three
    sliders, in the order the tabs were created. *)
Definition fin_sliders_init (selected_vehicles : list Z)
  (slider_values : Z → list Z) : list (string * list Z) :=
  foldl (λ fin_sliders i, Py.dict_set (tab_name i) (slider_values i) fin_sliders)
    [] selected_vehicles.

(** [tab_name[-1]] as a one-character string. *)
Definition last_character (tab_name : string) : string :=
  match Py.last_char tab_name with
  | Some c => String c EmptyString
  | None => EmptyString
  end.

(** [CalibrateFinsDialog.get_states] *)
Definition get_states (fin_sliders : list (string * list Z))
  : list (string * list Z) :=
  foldl (λ states '(tab_name, sliders),
           Py.dict_set (last_character tab_name) sliders states)
    [] fin_sliders.

(** What [after_worker] does once the dialog is accepted: the parameter
    file saved, the three parameters set, and the vehicle whose console is
    told. *)
Inductive fin_action : Type :=
  | save_param_file (key : string) (states : list Z)
  | set_single_parameter (name : string) (value : Z) (key : string)
  | console_told (message : string) (vehicle : Z).

(** [int(key)] for a key of one character. *)
Definition int_of_key (key : string) : option Z :=
  match key with
  | String c EmptyString => Py.int_of_digit c
  | _ => None
  end.

Section fin_calibration.

(** What [save_param_file] raises for a key and its offsets, if anything:
    it opens the parameter file named after the key for reading and for
    writing, outside any [try]. *)
Variable save_param_file_raises : string → list Z → option exn.

(** One round of the loop over [fin_states.items()]: what was done, and
    the exception that ended the round, if any. *)
Definition after_worker_item (key : string) (states : list Z)
  : list fin_action * option exn :=
  match save_param_file_raises key states with
  | Some e => ([], Some e)
  | None =>
  let saved := [save_param_file key states] in
  match states !! 0%nat with
  | None => (saved, Some IndexError)
  | Some top_fin =>
  let top_set := saved ++ [set_single_parameter "top_fin_offset" top_fin key] in
  match states !! 1%nat with
  | None => (top_set, Some IndexError)
  | Some right_fin =>
  let right_set :=
    top_set ++ [set_single_parameter "right_fin_offset" right_fin key] in
  match states !! 2%nat with
  | None => (right_set, Some IndexError)
  | Some left_fin =>
  let left_set :=
    right_set ++ [set_single_parameter "left_fin_offset" left_fin key] in
  match int_of_key key with
  | None =>
      (left_set,
       Some (ValueError ("invalid literal for int() with base 10: "
                         +:+ Py.repr key)))
  | Some vehicle =>
      (left_set
       ++ [console_told "Vehicle Kinematics param set" vehicle;
           console_told "Fin Calibration Saved to Params" vehicle], None)
  end end end end end.

(** The loop of [after_worker] over the states of the accepted dialog; an
    exception ends it and escapes the slot. *)
Fixpoint after_worker_accepted (fin_states : list (string * list Z))
  : list fin_action * option exn :=
  match fin_states with
  | [] => ([], None)
  | (key, states) :: rest =>
      match after_worker_item key states with
      | (actions, Some e) => (actions, Some e)
      | (actions, None) =>
          let '(more, raised) := after_worker_accepted rest in
          (actions ++ more, raised)
      end
  end.

End fin_calibration.

(** ** A session

    What reaches the window after its construction: timer ticks of the wifi
    prober, messages relayed by the ROS node, completions of service calls,
    and the operator's actions. A handler that lets an exception escape
    ends the session with the state reached. *)

Inductive event : Type :=
  | ping_timer_timeout (ping : string → bool)
  | console_log (message : string) (vehicle_number : Z)
  | safety_status (vehicle_number : Z) (safety_message : SafetyStatus)
  | smoothed_output (vehicle_number : Z) (msg : Odometry)
  | depth_data (vehicle_number : Z) (z : float)
  | pressure_data (vehicle_number : Z) (fluid_pressure : float)
  | battery_data (vehicle_number : Z) (voltage : float)
  | connections_update (conn_message : Connections)
  | kill_confirmation (value : bool)
  | surface_confirmation (value : bool)
  | service_response (future : future_result) (action : string)
      (vehicle_number : Z)
  | theme_selected (color_theme : string)
  | window_resized (new_width : Z)
  | shutdown_clicked (vehicle_number : Z) (confirmed : bool)
  | surface_clicked (vehicle_number : Z) (confirmed : bool)
  | load_missions_clicked (dialog : option (list string))
      (yaml_load : string → option mission_data) (deploy_raises : option exn).

Section session.

Variable float_str : float → string.
Variable quat2euler : float * float * float * float → float * float * float.
Variable degrees_mod_360 : float → float.
Variable float_pow : float → Z → exn + float.

Definition step (ev : event) : action :=
  match ev with
  | ping_timer_timeout ping => pure (ping_vehicles_via_wifi ping)
  | console_log message vehicle_number =>
      pure (handle_console_log message vehicle_number)
  | safety_status vehicle_number safety_message =>
      _update_safety_status_information vehicle_number safety_message
  | smoothed_output vehicle_number msg =>
      _update_gui_smoothed_output float_str quat2euler degrees_mod_360
        float_pow vehicle_number msg
  | depth_data vehicle_number z => update_depth_data float_str vehicle_number z
  | pressure_data vehicle_number fluid_pressure =>
      update_pressure_data float_str vehicle_number fluid_pressure
  | battery_data vehicle_number voltage =>
      update_battery_data float_str vehicle_number voltage
  | connections_update conn_message =>
      pure (_update_connections_gui conn_message)
  | kill_confirmation value => pure (_update_kill_confirmation_gui value)
  | surface_confirmation value => pure (_update_surf_confirmation_gui value)
  | service_response future action vehicle_number =>
      pure (handle_service_response future action vehicle_number)
  | theme_selected color_theme => pure (set_color_theme color_theme false)
  | window_resized new_width => pure (resizeEvent new_width)
  | shutdown_clicked vehicle_number confirmed =>
      pure (emergency_shutdown_button vehicle_number confirmed)
  | surface_clicked vehicle_number confirmed =>
      pure (emergency_surface_button vehicle_number confirmed)
  | load_missions_clicked dialog yaml_load deploy_raises =>
      pure (load_missions_button yaml_load deploy_raises dialog)
  end.

Definition run (events : list event) : action := for_each events step.

End session.

(** The modem requests sent for [vehicle], oldest first: [true] is a
    shut-off request and [false] a power-on request. *)
Definition modem_requests (vehicle : Z) (calls : list ros_call) : list bool :=
  omap (λ c, match c with
             | cli3_call_async modem_shut_off vehicle_id =>
                 if bool_decide (vehicle_id = vehicle) then Some modem_shut_off
                 else None
             | _ => None
             end) calls.

Definition is_publish_origin (c : ros_call) : bool :=
  match c with publish_origin _ => true | _ => false end.

(** The text of the console log of [vehicle]. *)
Definition console_text (vehicle : Z) (w : MainWindow) : option string :=
  text <$> console_messages (widgets w) !! console_name vehicle.

(** ** Console clearing and recall buttons *)


(** [recall_vehicles] *)
Definition recall_vehicles (confirmed : bool) (w : MainWindow) : MainWindow :=
  if confirmed then
    console_update_all "Recalling the Vehicles..."
      (replace_confirm_reject_label "Recalling the Vehicles..." w)
  else
    console_update_all "Canceling Recall All Vehicles Command..."
      (replace_confirm_reject_label
         "Canceling Recall All Vehicles Command..." w).

(** [recall_spec_vehicle] *)
Definition recall_spec_vehicle (vehicle_number : Z) (confirmed : bool)
  (w : MainWindow) : MainWindow :=
  if confirmed then
    recieve_console_update
      ("Recalling Vehicle " +:+ pretty vehicle_number +:+ "...") vehicle_number
      (replace_confirm_reject_label
         ("Recalling Vehicle " +:+ pretty vehicle_number +:+ "...") w)
  else
    recieve_console_update
      ("Canceling Recall Vehicle " +:+ pretty vehicle_number +:+ " Command...")
      vehicle_number
      (replace_confirm_reject_label "Canceling Recall Vehicle Command..." w).

(** ** The vehicle selection dialog *)

Module ConfigurationWindow.

Definition MAX_VEHICLES : Z := 4.
Definition HIGHEST_VEHICLE_LABEL : Z := 999.

(** An element of the list [get_states] returns: a number, or the text of a
    custom input that is no number. *)
Inductive entry : Type :=
  | Int (num : Z)
  | Text (value : string).

#[global] Instance entry_eq_dec : EqDecision entry.
Proof. solve_decision. Defined.

(** How [validate_and_accept] ends: the dialog is accepted, or a warning
    with this title is shown and the dialog stays open. *)
Inductive verdict : Type :=
  | Accepted
  | Warned (title : string).

(** The dialog: the check boxes by option text, in the order of their
    creation, and the texts of the custom inputs. *)
Record t : Type := mk {
  checkboxes : list (string * bool);
  custom_inputs : list string
}.

(** [__init__]: an unchecked box for every option that does not mention
    [select custom:], and no custom input. *)
Definition init (options : list string) : t :=
  mk (foldl (λ boxes opt,
               if Py.contains "select custom:" (Py.lower opt) then boxes
               else Py.dict_set opt false boxes) [] options) [].

(** [add_custom_input]: a new empty input, unless the checked boxes and the
    inputs are [MAX_VEHICLES] already. *)
Definition add_custom_input (d : t) : t :=
  let current_count :=
    Z.of_nat (length (filter (λ box : string * bool, box.2 = true)
                        (checkboxes d)))
    + Z.of_nat (length (custom_inputs d)) in
  if bool_decide (MAX_VEHICLES ≤ current_count) then d
  else mk (checkboxes d) (custom_inputs d ++ [""]).

Section parsing.

(** What the dialog takes from Python: [int(s)] on a string, [None] standing
    for the ValueError; [s.strip()]; and [s.split()[-1]], [None] standing for
    the IndexError on a string without a word. *)
Variable int : string → option Z.
Variable strip : string → string.
Variable last_word : string → option string.

(** [get_states] *)
Definition get_states (d : t) : list entry :=
  (checkboxes d ≫= λ '(opt, checked),
     if checked : bool then
       match last_word opt ≫= int with
       | Some num => [Int num]
       | None => []
       end
     else [])
  ++ (custom_inputs d ≫= λ text,
        let value := strip text in
        if bool_decide (value = "") then []
        else match int value with
             | Some num => [Int num]
             | None => [Text value]
             end).

(** [int(value)] on an element of the list. *)
Definition int_of_entry (value : entry) : option Z :=
  match value with
  | Int num => Some num
  | Text value => int value
  end.

(** The loop of [validate_and_accept] over the states, on the flags
    [(valid_custom, valid_vehicle_number)]. *)
Definition check_entry (flags : bool * bool) (value : entry) : bool * bool :=
  match int_of_entry value with
  | Some num =>
      (flags.1,
       if bool_decide (HIGHEST_VEHICLE_LABEL < num ∨ num < 0) then false
       else flags.2)
  | None => (false, flags.2)
  end.

(** [validate_and_accept] *)
Definition validate_and_accept (d : t) : verdict :=
  let states := get_states d in
  if bool_decide (states = []) then Warned "Selection Required"
  else if bool_decide (MAX_VEHICLES < Z.of_nat (length states))
  then Warned "Max Vehicle Limit Reached"
  else
    let flags := foldl check_entry (true, true) states in
    if bool_decide (length states ≠ length (remove_dups states))
    then Warned "Duplicate Vehicles"
    else if negb flags.1 then Warned "Invalid Custom"
    else if negb flags.2 then Warned "Invalid Vehicle Number"
    else Accepted.

End parsing.

(** What the operator does in the dialog before pressing OK. *)
Inductive action : Type :=
  | toggle (opt : string)
  | plus_clicked
  | edit (index : nat) (text : string).

Definition act (d : t) (a : action) : t :=
  match a with
  | toggle opt =>
      mk ((λ box : string * bool,
             if bool_decide (box.1 = opt) then (box.1, negb box.2) else box)
          <$> checkboxes d) (custom_inputs d)
  | plus_clicked => add_custom_input d
  | edit index text =>
      mk (checkboxes d) (<[index := text]> (custom_inputs d))
  end.

End ConfigurationWindow.

(** ** The mission file dialog, for all vehicles *)

Module LoadMissionsDialog.

(** The dialog: the file chosen for a tab, in the order in which the tabs
    first got one, and the text of the file display of every tab. Tab
    names are those of the tabs, [Vehicle n]. *)
Record t : Type := mk {
  selected_files : list (string * string);
  file_display_labels : list (string * string)
}.

(** [__init__] with [vehicle] 0: a tab and a file display per selected
    vehicle, and no file chosen. *)
Definition init (selected_vehicles : list Z) : t :=
  mk [] (foldl (λ labels i, Py.dict_set (tab_name i) "No file selected" labels)
           [] selected_vehicles).

(** How a slot of the dialog ends: it returns, or a KeyError escapes from
    it; the dialog is as the slot left it either way. *)
Inductive result : Type :=
  | Returned (d : t)
  | KeyError (key : string) (d : t).

Definition dialog_of (r : result) : t :=
  match r with Returned d => d | KeyError _ d => d end.

Section files.

(** [os.path.basename] *)
Variable basename : string → string.

(** [update_file_display(tab_name)]; a name that is no tab has no file
    display, which is the KeyError. *)
Definition update_file_display (tab_name : string) (d : t) : result :=
  match Py.dict_get tab_name (file_display_labels d) with
  | None => KeyError tab_name d
  | Some _ =>
      let text := match Py.dict_get tab_name (selected_files d) with
                  | Some file => basename file
                  | None => "No file selected"
                  end in
      Returned (mk (selected_files d)
                  (Py.dict_set tab_name text (file_display_labels d)))
  end.

(** [browse_file(tab_name)] for the tab [tab_name]; [file_path] is what the
    file dialog returned, empty when it was cancelled. *)
Definition browse_file (tab_name file_path : string) (d : t) : result :=
  if bool_decide (file_path = "") then Returned d
  else update_file_display tab_name
         (mk (Py.dict_set tab_name file_path (selected_files d))
            (file_display_labels d)).

(** [apply_to_all], with the tab shown and the answer of the confirmation
    dialog. *)
Definition apply_to_all (current_tab_name : string) (confirmed : bool) (d : t)
  : result :=
  match Py.dict_get current_tab_name (selected_files d) with
  | None => Returned d
  | Some selected_file =>
      if bool_decide (selected_file = "") then Returned d
      else if confirmed then
        foldl (λ r tab_name,
                 match r with
                 | Returned d =>
                     update_file_display tab_name
                       (mk (Py.dict_set tab_name selected_file
                              (selected_files d))
                          (file_display_labels d))
                 | KeyError key d => KeyError key d
                 end)
          (Returned d) (file_display_labels d).*1
      else Returned d
  end.

(** What the operator does in the dialog before pressing OK: a file chosen
    on the tab of a vehicle, or the file of the tab of a vehicle applied to
    all. *)
Inductive action : Type :=
  | browse (vehicle : Z) (file_path : string)
  | apply_all (vehicle : Z) (confirmed : bool).

Definition act (d : t) (a : action) : result :=
  match a with
  | browse vehicle file_path => browse_file (tab_name vehicle) file_path d
  | apply_all vehicle confirmed => apply_to_all (tab_name vehicle) confirmed d
  end.

(** A session of the dialog; a slot that lets a KeyError escape ends it. *)
Fixpoint run (actions : list action) (d : t) : result :=
  match actions with
  | [] => Returned d
  | a :: actions' =>
      match act d a with
      | Returned d' => run actions' d'
      | KeyError key d' => KeyError key d'
      end
  end.

End files.

(** [validate_and_accept]: whether the dialog is accepted. *)
Definition validate_and_accept (d : t) : bool :=
  bool_decide (length (selected_files d) = length (file_display_labels d))
  && forallb (λ file, negb (bool_decide (file = ""))) (selected_files d).*2.

(** [get_states()['selected_files']] *)
Definition get_states (d : t) : list (string * string) := selected_files d.

(** [list(start_config['selected_files'].values())] of
    [load_missions_button]: the list [deploy_in_thread] indexes by the
    position of a vehicle in the selection. *)
Definition chosen_files (d : t) : list string := (get_states d).*2.

End LoadMissionsDialog.

(** * Properties *)

(** ** What the message handlers leave alone *)

(** [only_labels w w']: from [w] to [w'] nothing changed but the console
    labels and the confirmation labels, and no label appeared or went. *)
Definition only_labels (w w' : MainWindow) : Prop :=
  w' = with_widgets
         (with_confirm_reject_labels (confirm_reject_labels (widgets w'))
            (with_console_messages (console_messages (widgets w')) (widgets w)))
         w
  ∧ dom (console_messages (widgets w')) = dom (console_messages (widgets w))
  ∧ dom (confirm_reject_labels (widgets w'))
    = dom (confirm_reject_labels (widgets w)).

Lemma only_labels_refl w : only_labels w w.
Proof. by destruct w as [? ? ? [] ? ? ? ?]. Qed.

Lemma only_labels_trans w1 w2 w3 :
  only_labels w1 w2 → only_labels w2 w3 → only_labels w1 w3.
Proof.
  intros (H12 & ? & ?) (H23 & ? & ?). split_and!; [|congruence..].
  destruct w1 as [? ? ? [] ? ? ? ?], w2 as [? ? ? [] ? ? ? ?],
    w3 as [? ? ? [] ? ? ? ?].
  unfold with_widgets, with_confirm_reject_labels, with_console_messages in *.
  simpl in *. congruence.
Qed.

#[local] Instance only_labels_preorder : PreOrder only_labels.
Proof. split; [exact only_labels_refl | exact only_labels_trans]. Qed.

Lemma foldl_only_labels {A} (f : MainWindow → A → MainWindow) (l : list A) w :
  (∀ w x, only_labels w (f w x)) → only_labels w (foldl f w l).
Proof.
  intros Hf. revert w. induction l as [|x l IH]; intros w; simpl; [done|].
  by etrans; [apply Hf|apply IH].
Qed.

Section only_labels_frames.
Context {w w' : MainWindow} (H : only_labels w w').

Lemma only_labels_theme : theme w' = theme w.
Proof. destruct H as [-> _]. done. Qed.
Lemma only_labels_selected : selected_vehicles w' = selected_vehicles w.
Proof. destruct H as [-> _]. done. Qed.
Lemma only_labels_feedback : feedback_dict w' = feedback_dict w.
Proof. destruct H as [-> _]. done. Qed.
Lemma only_labels_ip : ip_to_vehicle w' = ip_to_vehicle w.
Proof. destruct H as [-> _]. done. Qed.
Lemma only_labels_addresses : Vehicle_IP_addresses w' = Vehicle_IP_addresses w.
Proof. destruct H as [-> _]. done. Qed.
Lemma only_labels_ros : ros_node w' = ros_node w.
Proof. destruct H as [-> _]. done. Qed.
Lemma only_labels_general :
  general_page_vehicle_widgets (widgets w')
  = general_page_vehicle_widgets (widgets w).
Proof. destruct H as [-> _]. done. Qed.
Lemma only_labels_column0 :
  column0_widget (widgets w') = column0_widget (widgets w).
Proof. destruct H as [-> _]. done. Qed.
Lemma only_labels_column01 :
  column01_widget (widgets w') = column01_widget (widgets w).
Proof. destruct H as [-> _]. done. Qed.

End only_labels_frames.

Lemma console_write_only_labels msg v w : only_labels w (console_write msg v w).
Proof.
  split_and!; [by destruct w as [? ? ? [] ? ? ? ?]| |done].
  simpl. apply dom_alter_L.
Qed.

Lemma update_console_only_labels msg v w :
  only_labels w (_update_console_gui msg v w).
Proof. apply foldl_only_labels. intros. apply console_write_only_labels. Qed.

Lemma console_update_all_only_labels msg w :
  only_labels w (console_update_all msg w).
Proof. apply foldl_only_labels. intros. apply update_console_only_labels. Qed.

Lemma replace_confirm_only_labels msg w :
  only_labels w (replace_confirm_reject_label msg w).
Proof.
  split_and!; [by destruct w as [? ? ? [] ? ? ? ?]|done|].
  simpl. apply dom_fmap_L.
Qed.

Lemma handle_console_log_only_labels msg v w :
  only_labels w (handle_console_log msg v w).
Proof.
  unfold handle_console_log. repeat case_bool_decide;
    auto using console_update_all_only_labels, update_console_only_labels,
      only_labels_refl.
Qed.

Lemma handle_service_response_only_labels future action v w :
  only_labels w (handle_service_response future action v w).
Proof.
  unfold handle_service_response. destruct future as [success|e].
  - etrans; [apply replace_confirm_only_labels|].
    repeat case_bool_decide;
      auto using console_update_all_only_labels, update_console_only_labels,
        only_labels_refl.
  - etrans; [apply replace_confirm_only_labels|].
    repeat case_bool_decide;
      auto using update_console_only_labels, only_labels_refl.
Qed.

Lemma warn_only_labels msg v w : only_labels w (warn msg v w).
Proof.
  etrans; [apply update_console_only_labels|apply replace_confirm_only_labels].
Qed.

Lemma warn_all_only_labels msg w : only_labels w (warn_all msg w).
Proof.
  etrans; [apply console_update_all_only_labels|apply replace_confirm_only_labels].
Qed.

(** ** Console routing *)

Lemma console_name_inj u v : console_name u = console_name v → u = v.
Proof. unfold console_name. intros H. apply (inj pretty). by simplify_eq/=. Qed.

(** A log with one more line: the line alone when the log was empty, and
    the log, a line feed and the line otherwise. *)
Definition with_line (message old : string) : string :=
  match old with
  | EmptyString => message
  | String _ _ => old +:+ String (ascii_of_nat 10) message
  end.

(** [appended k message old]: the log [old] after [message] was appended
    [k] times. *)
Definition appended (k : nat) (message old : string) : string :=
  Nat.iter k (with_line message) old.

Lemma append_line_with_line old message :
  append_line old message = with_line message old.
Proof.
  unfold append_line. destruct old as [|c old]; [done|].
  by rewrite bool_decide_eq_false_2 by done.
Qed.

(** Every selected vehicle has a console label, and no other label answers
    to a console name. *)
Definition console_ok (w : MainWindow) : Prop :=
  ∀ u, is_Some (console_text u w) ↔ u ∈ selected_vehicles w.

Lemma console_write_text msg v u w :
  console_text u (console_write msg v w)
  = if decide (u = v) then with_line msg <$> console_text u w
    else console_text u w.
Proof.
  unfold console_text, console_write. simpl. rewrite lookup_alter.
  destruct (decide (u = v)) as [->|Hne].
  - rewrite decide_True by done. destruct (_ !! _); [|done].
    cbn. by rewrite append_line_with_line.
  - rewrite decide_False; [done|]. intros ?%console_name_inj. done.
Qed.

Lemma fold_console_write_text msg l u w :
  console_text u (foldl (λ w v, console_write msg v w) w l)
  = appended (count_occ Z.eq_dec l u) msg <$> console_text u w.
Proof.
  revert w. induction l as [|v l IH]; intros w; simpl.
  { by destruct (console_text u w). }
  rewrite IH, console_write_text.
  destruct (Z.eq_dec v u) as [->|Hne].
  - rewrite decide_True by done. destruct (console_text u w); simpl; [|done].
    f_equal. exact (eq_sym (Nat.iter_succ_r _ _ _)).
  - by rewrite decide_False by done.
Qed.

(** The vehicles one call of [_update_console_gui] writes to. *)
Definition console_targets (selected : list Z) (vehicle_number : Z) : list Z :=
  if bool_decide (vehicle_number = 0) then selected else [vehicle_number].

Lemma fold_update_console msg selected l w :
  selected_vehicles w = selected →
  foldl (λ w i, recieve_console_update msg i w) w l
  = foldl (λ w v, console_write msg v w) w (l ≫= console_targets selected).
Proof.
  revert w. induction l as [|i l IH]; intros w Hsel; simpl; [done|].
  rewrite foldl_app.
  change (recieve_console_update msg i w)
    with (foldl (λ w v, console_write msg v w) w
            (console_targets (selected_vehicles w) i)).
  rewrite Hsel. apply IH. rewrite <-Hsel. apply only_labels_selected.
  apply foldl_only_labels. intros. apply console_write_only_labels.
Qed.

Lemma count_occ_targets selected u :
  u ∈ selected →
  (1 ≤ count_occ Z.eq_dec (selected ≫= console_targets selected) u)%nat.
Proof.
  intros Hu. apply count_occ_In, list_elem_of_In, list_elem_of_bind.
  unfold console_targets. destruct (decide (u = 0)) as [->|Hne].
  - exists 0. by rewrite bool_decide_true.
  - exists u. rewrite bool_decide_false by done. split; [|done]. set_solver.
Qed.

Lemma targets_no_broadcast selected (l : list Z) :
  0 ∉ l → l ≫= console_targets selected = l.
Proof.
  induction l as [|v l IH]; intros H0; simpl; [done|].
  apply not_elem_of_cons in H0 as [? ?]. unfold console_targets at 1.
  rewrite bool_decide_false by done. simpl. f_equal. by apply IH.
Qed.

Lemma count_occ_NoDup_1 (l : list Z) u :
  NoDup l → u ∈ l → count_occ Z.eq_dec l u = 1%nat.
Proof.
  intros Hnd Hu. apply NoDup_ListNoDup in Hnd.
  apply (proj1 (NoDup_count_occ' Z.eq_dec l) Hnd). by apply list_elem_of_In.
Qed.

Lemma count_occ_not_elem (l : list Z) u :
  u ∉ l → count_occ Z.eq_dec l u = 0%nat.
Proof. intros Hu. apply count_occ_not_In. by rewrite <-list_elem_of_In. Qed.

(** The routing a console update is claimed to follow, between the state
    [w] before it and the state [w'] after it. *)
Definition console_routed (message : string) (vehicle_number : Z)
  (w w' : MainWindow) : Prop :=
  (vehicle_number = 0 →
     ∀ u, u ∈ selected_vehicles w →
       ∃ old k, (1 ≤ k)%nat
         ∧ console_text u w = Some old
         ∧ console_text u w' = Some (appended k message old)
         ∧ (NoDup (selected_vehicles w) → 0 ∉ selected_vehicles w → k = 1%nat))
  ∧ (vehicle_number ≠ 0 → vehicle_number ∈ selected_vehicles w →
       ∃ old, console_text vehicle_number w = Some old
         ∧ console_text vehicle_number w' = Some (with_line message old))
  ∧ (vehicle_number ≠ 0 →
       ∀ u, u ≠ vehicle_number → console_text u w' = console_text u w)
  ∧ (vehicle_number ≠ 0 → vehicle_number ∉ selected_vehicles w →
       ∀ u, console_text u w' = console_text u w).

Lemma update_console_routed message vehicle_number w :
  console_ok w →
  console_routed message vehicle_number w
    (_update_console_gui message vehicle_number w).
Proof.
  intros Hok. unfold console_routed, _update_console_gui. split_and!.
  - intros -> u Hu. rewrite bool_decide_true by done.
    destruct (proj2 (Hok u) Hu) as [old Hold]. exists old.
    exists (count_occ Z.eq_dec (selected_vehicles w) u).
    rewrite fold_console_write_text, Hold. split_and!; [|done|done|].
    + by apply count_occ_In, list_elem_of_In.
    + intros Hnd _. by apply count_occ_NoDup_1.
  - intros Hne Hsel. rewrite bool_decide_false by done. simpl.
    destruct (proj2 (Hok vehicle_number) Hsel) as [old Hold]. exists old.
    by rewrite console_write_text, decide_True, Hold.
  - intros Hne u Hu. rewrite bool_decide_false by done. simpl.
    by rewrite console_write_text, decide_False.
  - intros Hne Hsel u. rewrite bool_decide_false by done. simpl.
    rewrite console_write_text. case_decide as Hu; [subst u|done].
    destruct (console_text vehicle_number w) eqn:E; [|done].
    destruct Hsel. apply Hok. by rewrite E.
Qed.

Lemma handle_console_log_routed message vehicle_number w :
  console_ok w →
  console_routed message vehicle_number w
    (handle_console_log message vehicle_number w).
Proof.
  intros Hok. unfold handle_console_log.
  destruct (decide (vehicle_number = 0)) as [->|Hne].
  - rewrite bool_decide_true by done. unfold console_routed.
    split_and!; try done. intros _ u Hu.
    destruct (proj2 (Hok u) Hu) as [old Hold]. exists old.
    unfold console_update_all.
    rewrite (fold_update_console _ (selected_vehicles w)) by done.
    eexists. rewrite fold_console_write_text, Hold. split_and!; [|done|done|].
    + by apply count_occ_targets.
    + intros Hnd H0. rewrite targets_no_broadcast by done.
      by apply count_occ_NoDup_1.
  - rewrite bool_decide_false by done. case_bool_decide as Hsel.
    + by apply update_console_routed.
    + unfold console_routed. split_and!; done.
Qed.

(** C4. A console update with vehicle id 0 appends the message to the log of
    every selected vehicle (once each when 0 is not itself a selected
    vehicle); a console update with a nonzero id appends it to the log of
    that vehicle when it is selected and to no other log, and changes
    nothing when it is not selected. This holds of [handle_console_log] and
    of [_update_console_gui]. *)
Theorem C4_console_update_routing (w : MainWindow) (message : string)
  (vehicle_number : Z) :
  console_ok w →
  console_routed message vehicle_number w
    (handle_console_log message vehicle_number w)
  ∧ console_routed message vehicle_number w
      (_update_console_gui message vehicle_number w)
  ∧ (vehicle_number ≠ 0 → vehicle_number ∉ selected_vehicles w →
       handle_console_log message vehicle_number w = w).
Proof.
  intros Hok. split_and!.
  - by apply handle_console_log_routed.
  - by apply update_console_routed.
  - intros Hne Hsel. unfold handle_console_log.
    by rewrite !bool_decide_false by done.
Qed.

(** ** The window after construction *)

Lemma foldl_invariant {A B} (P : A → Prop) (f : A → B → A) (l : list B) a :
  (∀ a x, x ∈ l → P a → P (f a x)) → P a → P (foldl f a l).
Proof.
  revert a. induction l as [|x l IH]; intros a Hf Ha; simpl; [done|].
  apply IH; [|apply Hf; [left|done]]. intros. apply Hf; [by right|done].
Qed.

(** What the General tab leaves alone, and what it creates. *)
Lemma set_general_page_widgets_spec t fd selected g :
  let g' := set_general_page_widgets t fd selected g in
  column0_widget g' = column0_widget g
  ∧ column01_widget g' = column01_widget g
  ∧ console_messages g' = console_messages g
  ∧ ∀ u, u ∈ selected → is_Some (general_page_vehicle_widgets g' !! u).
Proof.
  unfold set_general_page_widgets.
  set (g1 := foldl _ (with_general_page_vehicle_widgets ∅ g) selected).
  assert (column0_widget g1 = column0_widget g
          ∧ column01_widget g1 = column01_widget g
          ∧ console_messages g1 = console_messages g) as (E0 & E1 & E2).
  { subst g1. apply foldl_invariant; [|done]. by intros a x _. }
  set (g2 := set_general_page_C0_widgets t g1).
  assert (column0_widget g2 = column0_widget g
          ∧ column01_widget g2 = column01_widget g
          ∧ console_messages g2 = console_messages g) as (F0 & F1 & F2) by done.
  clearbody g2. clear E0 E1 E2 g1. simpl.
  split_and!.
  - rewrite <-F0. apply (foldl_invariant (λ a, column0_widget a = _)); done.
  - rewrite <-F1. apply (foldl_invariant (λ a, column01_widget a = _)); done.
  - rewrite <-F2. apply (foldl_invariant (λ a, console_messages a = _)); done.
  - intros u Hu. revert g2 F0 F1 F2.
    assert (∀ g2, (u ∈ selected ∨ is_Some (general_page_vehicle_widgets g2 !! u)) →
      is_Some (general_page_vehicle_widgets
                 (foldl (λ g v, set_general_page_C1_widgets t fd v g) g2 selected)
               !! u)) as Hgen.
    { clear Hu. induction selected as [|v l IH]; intros g2 [Hu|Hu]; simpl.
      - by apply elem_of_nil in Hu.
      - done.
      - apply IH. apply elem_of_cons in Hu as [->|Hu]; [right|by left].
        simpl. by rewrite lookup_insert_eq.
      - apply IH. right. simpl.
        destruct (decide (v = u)) as [->|Hne];
          [by rewrite lookup_insert_eq|by rewrite lookup_insert_ne]. }
    intros. apply Hgen. by left.
Qed.

(** One vehicle tab. *)
Lemma create_vehicle_tab_spec t fd selected name v g :
  let g' := create_tab t fd selected name (Some v) g in
  general_page_vehicle_widgets g' = general_page_vehicle_widgets g
  ∧ column0_widget g' = <[v := icon_children t fd v "1"]> (column0_widget g)
  ∧ (∃ c, column01_widget g' = <[v := c]> (column01_widget g))
  ∧ console_messages g'
    = <[console_name v := new_label "" ""]> (console_messages g).
Proof. simpl. split_and!; [done|done|by eexists|done]. Qed.

Definition vehicle_tabs (l : list Z) : list (string * option Z) :=
  (λ i, (tab_name i, Some i)) <$> l.

Lemma vehicle_tabs_spec t fd selected l g :
  let g' := foldl (λ g '(name, vehicle), create_tab t fd selected name vehicle g)
              g (vehicle_tabs l) in
  general_page_vehicle_widgets g' = general_page_vehicle_widgets g
  ∧ (∀ u, u ∈ l → is_Some (column0_widget g' !! u))
  ∧ (∀ u, u ∈ l → is_Some (column01_widget g' !! u))
  ∧ (∀ name, is_Some (console_messages g' !! name)
       ↔ (∃ u, u ∈ l ∧ name = console_name u)
         ∨ is_Some (console_messages g !! name))
  ∧ (∀ u, is_Some (column0_widget g !! u) → is_Some (column0_widget g' !! u))
  ∧ (∀ u, is_Some (column01_widget g !! u) → is_Some (column01_widget g' !! u)).
Proof.
  revert g. induction l as [|v l IH]; intros g.
  { simpl. split_and!; try done; try (by intros ? ?%elem_of_nil).
    intros name. split; [by right|]. intros [(u & ?%elem_of_nil & _)|?]; done. }
  simpl. set (g1 := create_tab t fd selected (tab_name v) (Some v) g).
  destruct (create_vehicle_tab_spec t fd selected (tab_name v) v g)
    as (G & C0 & (c & C1) & CM). fold g1 in G, C0, C1, CM.
  destruct (IH g1) as (G' & C0' & C1' & CM' & K0 & K1).
  assert (∀ u, is_Some (column0_widget g !! u) ∨ u = v
               → is_Some (column0_widget g1 !! u)) as J0.
  { intros u [Hu| ->]; rewrite C0; [|by rewrite lookup_insert_eq].
    destruct (decide (v = u)) as [->|?];
      [by rewrite lookup_insert_eq|by rewrite lookup_insert_ne]. }
  assert (∀ u, is_Some (column01_widget g !! u) ∨ u = v
               → is_Some (column01_widget g1 !! u)) as J1.
  { intros u [Hu| ->]; rewrite C1; [|by rewrite lookup_insert_eq].
    destruct (decide (v = u)) as [->|?];
      [by rewrite lookup_insert_eq|by rewrite lookup_insert_ne]. }
  split_and!.
  - by rewrite G', G.
  - intros u [->|Hu]%elem_of_cons; [apply K0, J0; by right|by apply C0'].
  - intros u [->|Hu]%elem_of_cons; [apply K1, J1; by right|by apply C1'].
  - intros name. rewrite CM', CM. split.
    + intros [(u & Hu & ->)|Hn]; [left; exists u; split; [by right|done]|].
      destruct (decide (console_name v = name)) as [<-|Hne].
      * left. exists v. split; [by left|done].
      * right. by rewrite lookup_insert_ne in Hn.
    + intros [(u & [->|Hu]%elem_of_cons & ->)|Hn].
      * right. by rewrite lookup_insert_eq.
      * left. by exists u.
      * right. destruct (decide (console_name v = name)) as [<-|Hne];
          [by rewrite lookup_insert_eq|by rewrite lookup_insert_ne].
  - intros u Hu. apply K0, J0. by left.
  - intros u Hu. apply K1, J1. by left.
Qed.

(** The widgets [__init__] builds before it resolves the addresses. *)
Definition initial_widgets (vehicle_list : list Z) : Widgets :=
  let t := theme_colors "dark_mode" empty_theme in
  let fd := feedback_dict_init vehicle_list in
  foldl (λ g '(name, vehicle), create_tab t fd vehicle_list name vehicle g)
    empty_widgets (("General", None) :: vehicle_tabs vehicle_list).

Lemma create_general_tab_spec t fd selected g :
  let g' := create_tab t fd selected "General" None g in
  console_messages g' = console_messages g
  ∧ ∀ u, u ∈ selected → is_Some (general_page_vehicle_widgets g' !! u).
Proof.
  unfold create_tab.
  set (gx := with_confirm_reject_labels _ _).
  destruct (set_general_page_widgets_spec t fd selected gx) as (_ & _ & CM & G).
  split; [|exact G]. etrans; [exact CM|done].
Qed.

Lemma initial_widgets_spec vehicle_list :
  let g := initial_widgets vehicle_list in
  (∀ u, u ∈ vehicle_list → is_Some (general_page_vehicle_widgets g !! u))
  ∧ (∀ u, u ∈ vehicle_list → is_Some (column0_widget g !! u))
  ∧ (∀ u, u ∈ vehicle_list → is_Some (column01_widget g !! u))
  ∧ (∀ u, is_Some (console_messages g !! console_name u) ↔ u ∈ vehicle_list).
Proof.
  unfold initial_widgets.
  set (t := theme_colors _ _). set (fd := feedback_dict_init _).
  change (foldl ?f empty_widgets (?x :: ?l))
    with (foldl f (create_tab t fd vehicle_list "General" None empty_widgets) l).
  destruct (create_general_tab_spec t fd vehicle_list empty_widgets)
    as (CM0 & G0).
  set (g0 := create_tab t fd vehicle_list "General" None empty_widgets) in *.
  clearbody g0.
  destruct (vehicle_tabs_spec t fd vehicle_list vehicle_list g0)
    as (G' & C0' & C1' & CM' & _ & _).
  cbv zeta. split_and!; try done.
  - intros u Hu. rewrite G'. by apply G0.
  - intros u. rewrite CM', CM0. split.
    + intros [(u' & Hu' & ->%console_name_inj)|H]; [done|].
      simpl in H. rewrite lookup_empty in H. by destruct H.
    + intros Hu. left. by exists u.
Qed.

(** [labels_and_ips w w']: from [w] to [w'] nothing changed but labels and
    the two address attributes. *)
Definition labels_and_ips (w w' : MainWindow) : Prop :=
  only_labels (with_IPs (Vehicle_IP_addresses w') (ip_to_vehicle w') w) w'.

Lemma labels_and_ips_refl w : labels_and_ips w w.
Proof.
  unfold labels_and_ips.
  replace (with_IPs _ _ w) with w by (by destruct w). apply only_labels_refl.
Qed.

Lemma labels_and_ips_set ips m w w' :
  labels_and_ips w w' → labels_and_ips w (with_IPs ips m w').
Proof.
  unfold labels_and_ips. intros (H & ? & ?). split_and!; [|done..].
  simpl. rewrite H at 1. by destruct w as [? ? ? [] ? ? ? ?].
Qed.

Lemma labels_and_ips_then w w1 w2 :
  labels_and_ips w w1 → only_labels w1 w2 → labels_and_ips w w2.
Proof.
  unfold labels_and_ips. intros H1 H2.
  rewrite (only_labels_addresses H2), (only_labels_ip H2).
  by etrans.
Qed.

(** Every recorded address belongs to a selected vehicle that the
    configuration maps to that address. *)
Definition ips_from_config (vehicles : gmap string vehicle_config)
  (w : MainWindow) : Prop :=
  (∀ ip v, ip_to_vehicle w !! ip = Some v →
     v ∈ selected_vehicles w
     ∧ ∃ entry, vehicles !! pretty v = Some entry ∧ remote_host entry = ip)
  ∧ (∀ ip, ip ∈ Vehicle_IP_addresses w → is_Some (ip_to_vehicle w !! ip)).

Lemma get_IP_addresses_spec vehicles w :
  let w' := get_IP_addresses vehicles w in
  labels_and_ips w w' ∧ ips_from_config vehicles w'.
Proof.
  unfold get_IP_addresses.
  set (P := λ w', labels_and_ips w w'
                  ∧ selected_vehicles w' = selected_vehicles w
                  ∧ (∀ ip v, ip_to_vehicle w' !! ip = Some v →
                       v ∈ selected_vehicles w
                       ∧ ∃ entry, vehicles !! pretty v = Some entry
                                  ∧ remote_host entry = ip)
                  ∧ (∀ ip, ip ∈ Vehicle_IP_addresses w'
                           → is_Some (ip_to_vehicle w' !! ip))).
  cut (P (foldl (λ w num,
          match vehicles !! pretty num with
          | Some entry =>
              with_IPs (Vehicle_IP_addresses w ++ [remote_host entry])
                (<[remote_host entry := num]> (ip_to_vehicle w)) w
          | None => recieve_console_update (config_error num) num w
          end) (with_IPs [] ∅ w) (selected_vehicles w))).
  { intros (L & S & I & A). split; [done|]. split; [|done].
    intros ip v Hv. rewrite S. by apply I. }
  apply foldl_invariant.
  - intros a num Hnum (L & S & I & A). unfold P.
    destruct (vehicles !! pretty num) as [entry|] eqn:E.
    + split_and!; [by apply labels_and_ips_set|done| |].
      * intros ip v. simpl.
        destruct (decide (remote_host entry = ip)) as [<-|Hne].
        -- rewrite lookup_insert_eq. intros [= <-]. split; [done|]. by exists entry.
        -- rewrite lookup_insert_ne by done. apply I.
      * intros ip. simpl. intros [Hip| ->%list_elem_of_singleton]%elem_of_app.
        -- destruct (decide (remote_host entry = ip)) as [<-|Hne];
             [by rewrite lookup_insert_eq|rewrite lookup_insert_ne by done].
           by apply A.
        -- by rewrite lookup_insert_eq.
    + pose proof (update_console_only_labels (config_error num) num a) as Hol.
      unfold recieve_console_update.
      rewrite (only_labels_selected Hol), (only_labels_ip Hol),
        (only_labels_addresses Hol).
      split_and!; [by eapply labels_and_ips_then|done..].
  - split_and!; [apply labels_and_ips_set, labels_and_ips_refl|done| |].
    + intros ip v. simpl. by rewrite lookup_empty.
    + intros ip. simpl. by intros ?%elem_of_nil.
Qed.

(** The window before [__init__] resolves the addresses. *)
Definition window_built (vehicle_list : list Z) : MainWindow :=
  mkMainWindow (theme_colors "dark_mode" empty_theme) vehicle_list
    (feedback_dict_init vehicle_list) (initial_widgets vehicle_list) 640 [] ∅ [].

Lemma MainWindow_init_frame vehicle_list vehicles :
  labels_and_ips (window_built vehicle_list)
    (MainWindow_init vehicle_list vehicles)
  ∧ ips_from_config vehicles (MainWindow_init vehicle_list vehicles).
Proof.
  unfold MainWindow_init.
  change (mkMainWindow _ _ _ _ _ _ _ _) with (window_built vehicle_list).
  destruct (get_IP_addresses_spec vehicles (window_built vehicle_list))
    as (L & I & A).
  set (w1 := get_IP_addresses vehicles (window_built vehicle_list)) in *.
  cbv zeta. set (msg := _ +:+ _).
  pose proof (update_console_only_labels msg 0 w1) as Hol.
  unfold recieve_console_update. split; [by eapply labels_and_ips_then|].
  split.
  - intros ip v. rewrite (only_labels_ip Hol), (only_labels_selected Hol).
    apply I.
  - intros ip. rewrite (only_labels_ip Hol), (only_labels_addresses Hol).
    apply A.
Qed.

Section labels_and_ips_frames.
Context {w w' : MainWindow} (H : labels_and_ips w w').

Lemma labels_and_ips_selected : selected_vehicles w' = selected_vehicles w.
Proof. exact (only_labels_selected H). Qed.
Lemma labels_and_ips_feedback : feedback_dict w' = feedback_dict w.
Proof. exact (only_labels_feedback H). Qed.
Lemma labels_and_ips_ros : ros_node w' = ros_node w.
Proof. exact (only_labels_ros H). Qed.
Lemma labels_and_ips_general :
  general_page_vehicle_widgets (widgets w')
  = general_page_vehicle_widgets (widgets w).
Proof. exact (only_labels_general H). Qed.
Lemma labels_and_ips_column0 :
  column0_widget (widgets w') = column0_widget (widgets w).
Proof. exact (only_labels_column0 H). Qed.
Lemma labels_and_ips_column01 :
  column01_widget (widgets w') = column01_widget (widgets w).
Proof. exact (only_labels_column01 H). Qed.
Lemma labels_and_ips_console_dom :
  dom (console_messages (widgets w')) = dom (console_messages (widgets w)).
Proof. destruct H as (_ & D & _). exact D. Qed.

End labels_and_ips_frames.

(** ** The initial status store *)

Lemma dict_comprehension_lookup x (l : list Z) v :
  v ∈ l → dict_comprehension x l !! v = Some x.
Proof.
  unfold dict_comprehension.
  assert (∀ d : gmap Z value, v ∈ l ∨ d !! v = Some x →
               foldl (λ d n, <[n := x]> d) d l !! v = Some x) as Hgen.
  { induction l as [|n l IH]; intros d [Hv|Hd]; simpl.
    - by apply elem_of_nil in Hv.
    - done.
    - apply IH. apply elem_of_cons in Hv as [->|Hv]; [right|by left].
      by rewrite lookup_insert_eq.
    - apply IH. right. destruct (decide (n = v)) as [->|?];
        [by rewrite lookup_insert_eq|by rewrite lookup_insert_ne]. }
  intros Hv. apply Hgen. by left.
Qed.

Lemma feedback_dict_init_lookup selected key :
  feedback_dict_init selected !! key
  = if bool_decide (key ∈ health_keys ++ telemetry_keys)
    then Some (dict_comprehension (VInt 2) selected)
    else if bool_decide (key ∈ ["Status_messages"; "Missions"])
    then Some (dict_comprehension (VStr "") selected)
    else if bool_decide (key = "Console_messages")
    then Some (dict_comprehension (VList []) selected)
    else None.
Proof.
  unfold feedback_dict_init. cbv zeta.
  repeat (rewrite lookup_insert; case_decide;
          [subst key; by vm_compute|]).
  rewrite lookup_empty.
  rewrite bool_decide_false; [|set_solver].
  rewrite bool_decide_false; [|set_solver].
  by rewrite bool_decide_false.
Qed.

(** C2. Right after the window is built, every selected vehicle has an entry
    under every key of the status store: 2 (waiting) under the health and
    telemetry keys, the empty string under the status-message and mission
    keys, and the empty list under the console-log key; the store has no
    other key. *)
Theorem C2_initial_status_store (vehicle_list : list Z)
  (vehicles : gmap string vehicle_config) (v : Z) (key : string) :
  v ∈ vehicle_list →
  let w := MainWindow_init vehicle_list vehicles in
  (key ∈ health_keys ++ telemetry_keys → feedback_get key v w = Some (VInt 2))
  ∧ (key ∈ ["Status_messages"; "Missions"] →
       feedback_get key v w = Some (VStr ""))
  ∧ (key = "Console_messages" → feedback_get key v w = Some (VList []))
  ∧ (key ∈ metric_keys ↔ is_Some (feedback_dict w !! key)).
Proof.
  intros Hv w. unfold feedback_get.
  destruct (MainWindow_init_frame vehicle_list vehicles) as (L & _).
  fold w in L. rewrite (labels_and_ips_feedback L). simpl.
  rewrite feedback_dict_init_lookup. split_and!.
  - intros Hk. rewrite bool_decide_true by done. simpl.
    by apply dict_comprehension_lookup.
  - intros Hk. rewrite bool_decide_false, bool_decide_true by set_solver.
    simpl. by apply dict_comprehension_lookup.
  - intros ->. simpl. by apply dict_comprehension_lookup.
  - unfold metric_keys. repeat case_bool_decide; split; try done;
      try (intros _; set_solver); try (by intros [? ?]); set_solver.
Qed.

(** The instance of C2 at vehicle 2 of the selection [1; 2] and the key
    [Wifi]. *)
Lemma C2_initial_status_store_witness :
  feedback_get "Wifi" 2 (MainWindow_init [1; 2] ∅) = Some (VInt 2).
Proof.
  refine (proj1 (C2_initial_status_store [1; 2] ∅ 2 "Wifi" _) _);
    vm_compute; set_solver.
Defined.

(** ** Well-formed windows *)

(** Every selected vehicle has its columns. *)
Definition widgets_ok (w : MainWindow) : Prop :=
  ∀ u, u ∈ selected_vehicles w →
    is_Some (general_page_vehicle_widgets (widgets w) !! u)
    ∧ is_Some (column0_widget (widgets w) !! u)
    ∧ is_Some (column01_widget (widgets w) !! u).

(** Every key of the store has an entry for every selected vehicle. *)
Definition store_ok (w : MainWindow) : Prop :=
  ∀ key, key ∈ metric_keys →
    ∃ d, feedback_dict w !! key = Some d
         ∧ ∀ u, u ∈ selected_vehicles w → is_Some (d !! u).

(** The recorded addresses belong to selected vehicles, one address per
    vehicle. *)
Definition ips_ok (w : MainWindow) : Prop :=
  (∀ ip v, ip_to_vehicle w !! ip = Some v → v ∈ selected_vehicles w)
  ∧ (∀ ip1 ip2 v, ip_to_vehicle w !! ip1 = Some v →
       ip_to_vehicle w !! ip2 = Some v → ip1 = ip2).

Record wf (w : MainWindow) : Prop := mk_wf {
  wf_console : console_ok w;
  wf_widgets : widgets_ok w;
  wf_store : store_ok w;
  wf_ips : ips_ok w
}.

Lemma MainWindow_init_wf vehicle_list vehicles :
  wf (MainWindow_init vehicle_list vehicles).
Proof.
  destruct (MainWindow_init_frame vehicle_list vehicles) as (L & I & A).
  destruct (initial_widgets_spec vehicle_list) as (G & C0 & C1 & CM).
  split.
  - intros u. unfold console_text. rewrite (labels_and_ips_selected L).
    rewrite fmap_is_Some, <-elem_of_dom, (labels_and_ips_console_dom L).
    rewrite elem_of_dom. apply CM.
  - intros u. rewrite (labels_and_ips_selected L), (labels_and_ips_general L),
      (labels_and_ips_column0 L), (labels_and_ips_column01 L). simpl.
    intros Hu. split_and!; [by apply G|by apply C0|by apply C1].
  - intros key Hkey. rewrite (labels_and_ips_selected L),
      (labels_and_ips_feedback L). simpl.
    rewrite feedback_dict_init_lookup.
    unfold metric_keys in Hkey.
    repeat case_bool_decide; try (eexists; split; [done|]; intros u Hu;
      by rewrite dict_comprehension_lookup).
    exfalso. set_solver.
  - split.
    + intros ip v Hv. by destruct (I ip v Hv).
    + intros ip1 ip2 v H1 H2.
      destruct (I ip1 v H1) as (_ & e1 & E1 & R1).
      destruct (I ip2 v H2) as (_ & e2 & E2 & R2). congruence.
Qed.

(** The instance of C4 at the window built for vehicles 1 and 2, neither
    of them configured, and a broadcast message: the log of vehicle 1 is
    its two start-up lines and the message. *)
Lemma C4_console_update_routing_witness :
  let w := MainWindow_init [1; 2] ∅ in
  let line_feed := String (ascii_of_nat 10) EmptyString in
  console_text 1 (handle_console_log "surfacing" 0 w)
  = Some ("❌ Vehicle 1 not found in config, consider adding to config.json"
          +:+ line_feed
          +:+ "These are the Vehicle IP Addresses that were both selected "
          +:+ "and in the config.json: []" +:+ line_feed +:+ "surfacing").
Proof.
  intros w line_feed.
  assert (console_ok w) as Hok
    by exact (wf_console _ (MainWindow_init_wf [1; 2] ∅)).
  assert (selected_vehicles w = [1; 2]) as Hsel.
  { destruct (MainWindow_init_frame [1; 2] ∅) as [H _].
    exact (labels_and_ips_selected H). }
  assert (console_text 1 w
          = Some ("❌ Vehicle 1 not found in config, consider adding to config.json"
          +:+ line_feed
                  +:+ "These are the Vehicle IP Addresses that were both "
                  +:+ "selected and in the config.json: []")) as Hold
    by (vm_compute; reflexivity).
  clearbody w.
  destruct (C4_console_update_routing w "surfacing" 0 Hok)
    as [[Hall _] _].
  destruct (Hall eq_refl 1) as (old & k & _ & Hold' & Hnew & Hk).
  { rewrite Hsel. by left. }
  rewrite Hnew, Hk.
  - rewrite Hold in Hold'. injection Hold' as <-. vm_compute. reflexivity.
  - rewrite Hsel. apply (bool_decide_unpack _). vm_compute. exact I.
  - rewrite Hsel. apply (bool_decide_unpack _). vm_compute. exact I.
Defined.

(** ** Status icons *)

(** [icons_changed w w']: from [w] to [w'] nothing changed but labels
    inside the General-tab columns and the first columns of the vehicle
    tabs, and no column appeared or went. *)
Definition icons_changed (w w' : MainWindow) : Prop :=
  w' = with_widgets
         (with_column0_widget (column0_widget (widgets w'))
            (with_general_page_vehicle_widgets
               (general_page_vehicle_widgets (widgets w')) (widgets w))) w
  ∧ dom (general_page_vehicle_widgets (widgets w'))
    = dom (general_page_vehicle_widgets (widgets w))
  ∧ dom (column0_widget (widgets w')) = dom (column0_widget (widgets w)).

Lemma icons_changed_refl w : icons_changed w w.
Proof. by destruct w as [? ? ? [] ? ? ? ?]. Qed.

Lemma dom_insert_present `{Countable K} {A} (m : gmap K A) k x :
  is_Some (m !! k) → dom (<[k := x]> m) = dom m.
Proof.
  intros Hk. rewrite dom_insert_L. apply elem_of_dom in Hk. set_solver.
Qed.

Lemma replace_general_icon_changed v prefix w :
  icons_changed w (state_of (replace_general_page_icon_widget v prefix w)).
Proof.
  unfold replace_general_page_icon_widget.
  repeat (case_match; try apply icons_changed_refl). simpl.
  split_and!; [by destruct w as [? ? ? [] ? ? ? ?]| |done].
  simpl. by apply dom_insert_present.
Qed.

Lemma replace_specific_icon_changed v prefix w :
  icons_changed w (state_of (replace_specific_icon_widget v prefix w)).
Proof.
  unfold replace_specific_icon_widget.
  repeat (case_match; try apply icons_changed_refl). simpl.
  split_and!; [by destruct w as [? ? ? [] ? ? ? ?]|done|].
  simpl. by apply dom_insert_present.
Qed.

Section icons_changed_frames.
Context {w w' : MainWindow} (H : icons_changed w w').

Lemma icons_changed_theme : theme w' = theme w.
Proof. destruct H as [-> _]. done. Qed.
Lemma icons_changed_selected : selected_vehicles w' = selected_vehicles w.
Proof. destruct H as [-> _]. done. Qed.
Lemma icons_changed_feedback : feedback_dict w' = feedback_dict w.
Proof. destruct H as [-> _]. done. Qed.
Lemma icons_changed_ip : ip_to_vehicle w' = ip_to_vehicle w.
Proof. destruct H as [-> _]. done. Qed.
Lemma icons_changed_ros : ros_node w' = ros_node w.
Proof. destruct H as [-> _]. done. Qed.
Lemma icons_changed_column01 :
  column01_widget (widgets w') = column01_widget (widgets w).
Proof. destruct H as [-> _]. done. Qed.
Lemma icons_changed_console :
  console_messages (widgets w') = console_messages (widgets w).
Proof. destruct H as [-> _]. done. Qed.
Lemma icons_changed_general u :
  is_Some (general_page_vehicle_widgets (widgets w') !! u)
  ↔ is_Some (general_page_vehicle_widgets (widgets w) !! u).
Proof. destruct H as (_ & D & _). by rewrite <-!elem_of_dom, D. Qed.
Lemma icons_changed_column0 u :
  is_Some (column0_widget (widgets w') !! u)
  ↔ is_Some (column0_widget (widgets w) !! u).
Proof. destruct H as (_ & _ & D). by rewrite <-!elem_of_dom, D. Qed.

End icons_changed_frames.

(** When the status has an icon and the column exists, the replacement
    returns. *)
Lemma replace_general_icon_ok v prefix w status icon :
  feedback_get prefix v w = Some status → icons_dict status = Some icon →
  is_Some (general_page_vehicle_widgets (widgets w) !! v) →
  ∃ w', replace_general_page_icon_widget v prefix w = Ok w'.
Proof.
  unfold feedback_get, replace_general_page_icon_widget.
  intros Hf Hi [children Hc].
  destruct (feedback_dict w !! prefix) as [d|]; [|done]. simpl in Hf.
  rewrite Hf, Hi, Hc. case_match; by eexists.
Qed.

Lemma replace_specific_icon_ok v prefix w status icon :
  feedback_get prefix v w = Some status → icons_dict status = Some icon →
  is_Some (column0_widget (widgets w) !! v) →
  ∃ w', replace_specific_icon_widget v prefix w = Ok w'.
Proof.
  unfold feedback_get, replace_specific_icon_widget.
  intros Hf Hi [children Hc].
  destruct (feedback_dict w !! prefix) as [d|]; [|done]. simpl in Hf.
  rewrite Hc, Hf, Hi. case_match; by eexists.
Qed.

(** ** Wifi reports and modem requests *)

(** What the wifi handler depends on. *)
Definition summary (w : MainWindow)
  : list Z * gmap string Z * gmap string (gmap Z value) * list ros_call
    * gset Z * gset Z :=
  (selected_vehicles w, ip_to_vehicle w, feedback_dict w, ros_node w,
   dom (general_page_vehicle_widgets (widgets w)),
   dom (column0_widget (widgets w))).

Lemma only_labels_summary w w' : only_labels w w' → summary w' = summary w.
Proof. intros [-> _]. done. Qed.

Lemma icons_changed_summary w w' : icons_changed w w' → summary w' = summary w.
Proof.
  intros H. unfold summary.
  rewrite (icons_changed_selected H), (icons_changed_ip H),
    (icons_changed_feedback H), (icons_changed_ros H).
  destruct H as (_ & -> & ->). done.
Qed.

(** Every vehicle with a recorded address has a wifi entry and its two icon
    columns. *)
Definition wifi_ready (w : MainWindow) : Prop :=
  ∀ ip u, ip_to_vehicle w !! ip = Some u →
    is_Some (feedback_get "Wifi" u w)
    ∧ u ∈ dom (general_page_vehicle_widgets (widgets w))
    ∧ u ∈ dom (column0_widget (widgets w)).

Lemma wf_wifi_ready w : wf w → wifi_ready w.
Proof.
  intros [_ Hw Hs [Hi _]] ip u Hu. apply Hi in Hu.
  destruct (Hs "Wifi") as (d & Hd & Hdu); [set_solver|].
  destruct (Hw u Hu) as (? & ? & _).
  split_and!; [|by apply elem_of_dom..].
  unfold feedback_get. rewrite Hd. simpl. by apply Hdu.
Qed.

Lemma and_then_ok (a b : action) w w1 : a w = Ok w1 → (a >> b) w = b w1.
Proof. unfold and_then. by intros ->. Qed.

Lemma feedback_set_ok key u x w d :
  feedback_dict w !! key = Some d →
  feedback_set key u x w
  = Ok (with_feedback_dict (<[key := <[u := x]> d]> (feedback_dict w)) w).
Proof. unfold feedback_set. by intros ->. Qed.

Lemma modem_shut_off_service_spec shutoff v w :
  ∃ w1, only_labels w w1
        ∧ modem_shut_off_service shutoff v w
          = ros_send (cli3_call_async shutoff v) w1.
Proof.
  unfold modem_shut_off_service. eexists. split; [|done].
  etrans; [apply replace_confirm_only_labels|apply update_console_only_labels].
Qed.

(** One item of a report, on a window that is ready for it. *)
Lemma update_wifi_item_spec w ip reachable :
  wifi_ready w → reachable = 0 ∨ reachable = 1 →
  ∃ w', update_wifi_item (ip, reachable) w = Ok w'
    ∧ wifi_ready w'
    ∧ ip_to_vehicle w' = ip_to_vehicle w
    ∧ selected_vehicles w' = selected_vehicles w
    ∧ match ip_to_vehicle w !! ip with
      | None => feedback_dict w' = feedback_dict w ∧ ros_node w' = ros_node w
      | Some u =>
          ∃ stored, feedback_get "Wifi" u w = Some stored
            ∧ feedback_get "Wifi" u w' = Some (VInt reachable)
            ∧ (∀ v, v ≠ u → feedback_get "Wifi" v w' = feedback_get "Wifi" v w)
            ∧ ros_node w'
              = ros_node w
                ++ (if ne_int stored reachable
                    then [cli3_call_async (negb (reachable =? 0)) u] else [])
      end.
Proof.
  intros Hready Hr. unfold update_wifi_item.
  destruct (ip_to_vehicle w !! ip) as [u|] eqn:Hip; [|by exists w].
  destruct (Hready ip u Hip) as ([stored Hst] & Hg & Hc). rewrite Hst.
  destruct (ne_int stored reachable) eqn:Hne; cycle 1.
  { exists w. split_and!; try done. exists stored. rewrite Hne, app_nil_r.
    split_and!; try done. destruct stored; simpl in Hne; try done.
    apply negb_false_iff, Z.eqb_eq in Hne. by subst. }
  (* the console line *)
  pose (w1 := recieve_console_update (ping_message reachable u) u w).
  assert (summary w1 = summary w) as S1
    by apply only_labels_summary, update_console_only_labels.
  rewrite (and_then_ok _ _ w w1) by done.
  (* the store *)
  assert (∃ d, feedback_dict w !! "Wifi" = Some d) as [d Hd].
  { unfold feedback_get in Hst. destruct (feedback_dict w !! "Wifi"); by eauto. }
  set (w2 := with_feedback_dict
               (<["Wifi" := <[u := VInt reachable]> d]> (feedback_dict w1)) w1).
  assert (feedback_set "Wifi" u (VInt reachable) w1 = Ok w2) as E2.
  { apply feedback_set_ok. injection S1 as _ _ -> _ _ _. done. }
  rewrite (and_then_ok _ _ w1 w2) by done.
  assert (feedback_get "Wifi" u w2 = Some (VInt reachable)) as G2.
  { unfold feedback_get, w2, with_feedback_dict.
    cbn [feedback_dict]. rewrite lookup_insert_eq.
    cbn [mbind option_bind]. apply lookup_insert_eq. }
  assert (∃ icon, icons_dict (VInt reachable) = Some icon) as [icon Hicon].
  { destruct Hr as [-> | ->]; by eexists. }
  (* the two icons *)
  destruct (replace_general_icon_ok u "Wifi" w2 _ _ G2 Hicon) as [w3 E3].
  { apply elem_of_dom. change (widgets w2) with (widgets w1).
    injection S1 as _ _ _ _ -> _. done. }
  rewrite (and_then_ok _ _ w2 w3) by done.
  assert (icons_changed w2 w3) as I3.
  { pose proof (replace_general_icon_changed u "Wifi" w2) as H.
    by rewrite E3 in H. }
  destruct (replace_specific_icon_ok u "Wifi" w3 (VInt reachable) icon)
    as [w4 E4]; [|done| |].
  { unfold feedback_get. by rewrite (icons_changed_feedback I3). }
  { apply (icons_changed_column0 I3), elem_of_dom.
    change (widgets w2) with (widgets w1).
    injection S1 as _ _ _ _ _ ->. done. }
  rewrite (and_then_ok _ _ w3 w4) by done.
  assert (icons_changed w3 w4) as I4.
  { pose proof (replace_specific_icon_changed u "Wifi" w3) as H.
    by rewrite E4 in H. }
  (* the modem request *)
  destruct (modem_shut_off_service_spec (negb (reachable =? 0)) u w4)
    as (w5 & L5 & E5).
  unfold pure. rewrite E5. eexists. split; [done|].
  assert (summary w5
          = (selected_vehicles w, ip_to_vehicle w,
             <["Wifi" := <[u := VInt reachable]> d]> (feedback_dict w),
             ros_node w,
             dom (general_page_vehicle_widgets (widgets w)),
             dom (column0_widget (widgets w)))) as S5.
  { rewrite (only_labels_summary _ _ L5), (icons_changed_summary _ _ I4),
      (icons_changed_summary _ _ I3).
    injection S1 as Ea Eb Ec Ed Ee Ef. unfold summary. simpl.
    by rewrite Ea, Eb, Ec, Ed, Ee, Ef. }
  injection S5 as Ea Eb Ec Ed Ee Ef.
  assert (∀ v, feedback_get "Wifi" v (ros_send (cli3_call_async
                  (negb (reachable =? 0)) u) w5)
               = if decide (v = u) then Some (VInt reachable)
                 else feedback_get "Wifi" v w) as Hget.
  { intros v. unfold feedback_get. simpl. rewrite Ec, lookup_insert_eq, Hd.
    simpl. destruct (decide (v = u)) as [->|?];
      [by rewrite lookup_insert_eq|by rewrite lookup_insert_ne]. }
  split_and!.
  - intros ip' u'. simpl. rewrite Eb, Ee, Ef. intros Hu'.
    destruct (Hready ip' u' Hu') as (? & ? & ?). split_and!; try done.
    rewrite Hget. by case_decide.
  - done.
  - done.
  - exists stored. rewrite Hne. split_and!; [done| | |].
    + by rewrite Hget, decide_True.
    + intros v Hv. by rewrite Hget, decide_False.
    + simpl. by rewrite Ed.
Qed.

Lemma modem_requests_app v l1 l2 :
  modem_requests v (l1 ++ l2) = modem_requests v l1 ++ modem_requests v l2.
Proof. apply omap_app. Qed.

(** The values a report carries for [v]. *)
Definition reported_for (v : Z) (w : MainWindow) (IPs_dict : list (string * Z))
  : list Z :=
  omap (λ item, if bool_decide (ip_to_vehicle w !! item.1 = Some v)
                then Some item.2 else None) IPs_dict.

Lemma reported_for_ext v w w' IPs_dict :
  ip_to_vehicle w' = ip_to_vehicle w →
  reported_for v w' IPs_dict = reported_for v w IPs_dict.
Proof. unfold reported_for. by intros ->. Qed.

(** The whole loop of [update_wifi_widgets], on a window that is ready. *)
Lemma update_wifi_loop_spec IPs_dict w :
  wifi_ready w → Forall (λ item, item.2 = 0 ∨ item.2 = 1) IPs_dict →
  ∃ w', for_each IPs_dict update_wifi_item w = Ok w'
    ∧ wifi_ready w'
    ∧ ip_to_vehicle w' = ip_to_vehicle w
    ∧ selected_vehicles w' = selected_vehicles w
    ∧ ∀ v,
        (reported_for v w IPs_dict = [] →
           feedback_get "Wifi" v w' = feedback_get "Wifi" v w
           ∧ modem_requests v (ros_node w') = modem_requests v (ros_node w))
        ∧ (∀ r, reported_for v w IPs_dict = [r] →
             ∃ stored, feedback_get "Wifi" v w = Some stored
               ∧ feedback_get "Wifi" v w' = Some (VInt r)
               ∧ modem_requests v (ros_node w')
                 = modem_requests v (ros_node w)
                   ++ (if ne_int stored r then [negb (r =? 0)] else [])).
Proof.
  revert w. induction IPs_dict as [|[ip r] items IH]; intros w Hready Hall.
  { exists w. split_and!; done. }
  apply Forall_cons in Hall as [Hr Hall]. simpl in Hr.
  destruct (update_wifi_item_spec w ip r Hready Hr)
    as (w1 & E1 & R1 & I1 & S1 & Hitem).
  destruct (IH w1 R1 Hall) as (w' & E' & R' & I' & S' & Hrest).
  exists w'. simpl. rewrite (and_then_ok _ _ w w1 E1).
  split_and!; [done|done|congruence|congruence|].
  intros v. destruct (Hrest v) as [Hnone Hone].
  rewrite (reported_for_ext v w w1) in Hnone, Hone by done.
  unfold reported_for at 1 2. simpl. fold (reported_for v w items).
  destruct (ip_to_vehicle w !! ip) as [u|] eqn:Hip.
  - destruct Hitem as (stored & Hst & Hnew & Hother & Hros).
    destruct (decide (u = v)) as [->|Hne].
    + rewrite bool_decide_true by done. simpl. split; [done|].
      intros r' [= <- Hnil]. destruct (Hnone Hnil) as [Hf Hm].
      exists stored. rewrite Hf, Hm, Hros, modem_requests_app.
      split_and!; [done..|]. f_equal.
      destruct (ne_int stored r); simpl; [|done].
      by rewrite bool_decide_true.
    + rewrite bool_decide_false by congruence. simpl.
      assert (modem_requests v (ros_node w1) = modem_requests v (ros_node w))
        as Hm1.
      { rewrite Hros, modem_requests_app.
        destruct (ne_int stored r); simpl; [|by rewrite app_nil_r].
        rewrite bool_decide_false by done. by rewrite app_nil_r. }
      rewrite <-(Hother v) by done. rewrite <-Hm1. done.
  - destruct Hitem as [Hf Hr1]. rewrite bool_decide_false by done. simpl.
    unfold feedback_get in *. rewrite <-Hf, <-Hr1. done.
Qed.

(** With one address per vehicle and one item per address, a report says
    one thing about a vehicle it mentions. *)
Lemma reported_for_unique w IPs_dict ip reachable v :
  ips_ok w → NoDup IPs_dict.*1 →
  (ip, reachable) ∈ IPs_dict → ip_to_vehicle w !! ip = Some v →
  reported_for v w IPs_dict = [reachable].
Proof.
  intros [_ Hinj] Hnd Hin Hip.
  assert (∀ items, ip ∉ items.*1 → reported_for v w items = []) as Hnone.
  { induction items as [|[ip' r'] items IH]; intros Hni; [done|].
    apply not_elem_of_cons in Hni as [Hne Hni]. unfold reported_for. simpl.
    rewrite bool_decide_false; [by apply IH|].
    intros Hip'. apply Hne. simpl. by eapply Hinj. }
  induction IPs_dict as [|[ip' r'] items IH]; [by apply elem_of_nil in Hin|].
  apply NoDup_cons in Hnd as [Hni Hnd]. unfold reported_for. simpl.
  apply elem_of_cons in Hin as [[= <- <-]|Hin].
  - rewrite bool_decide_true by done. simpl. f_equal. by apply Hnone.
  - rewrite bool_decide_false; [by apply IH|].
    intros Hip'. assert (ip' = ip) as -> by (by eapply Hinj).
    apply Hni. apply list_elem_of_fmap. by exists (ip, reachable).
Qed.

Lemma reported_for_none w IPs_dict v :
  (∀ ip reachable, (ip, reachable) ∈ IPs_dict → ip_to_vehicle w !! ip ≠ Some v) →
  reported_for v w IPs_dict = [].
Proof.
  induction IPs_dict as [|[ip r] items IH]; intros H; [done|].
  unfold reported_for. simpl. rewrite bool_decide_false.
  - apply IH. intros ip' r' Hin. apply (H ip' r'). by right.
  - apply (H ip r). by left.
Qed.

(** C1. When a wifi report reaches a window whose vehicles with an address
    have their wifi entry and icon columns, for every vehicle V: a report
    that turns the stored wifi status of V from 0 (unreachable) to 1
    (reachable) issues exactly one modem request for V, a shut-off; one that
    turns it from 1 to 0 issues exactly one, a power-on; one that reports
    the stored value issues none; and so does a report that does not
    mention V. *)
Theorem C1_wifi_transition_modem_requests (w : MainWindow)
  (IPs_dict : list (string * Z)) (v : Z) :
  wifi_ready w → ips_ok w → NoDup IPs_dict.*1 →
  Forall (λ item, item.2 = 0 ∨ item.2 = 1) IPs_dict →
  let w' := update_wifi_widgets IPs_dict w in
  let before := modem_requests v (ros_node w) in
  let after := modem_requests v (ros_node w') in
  (∀ ip reachable,
     (ip, reachable) ∈ IPs_dict → ip_to_vehicle w !! ip = Some v →
     feedback_get "Wifi" v w' = Some (VInt reachable)
     ∧ (feedback_get "Wifi" v w = Some (VInt 0) → reachable = 1 →
          after = before ++ [true])
     ∧ (feedback_get "Wifi" v w = Some (VInt 1) → reachable = 0 →
          after = before ++ [false])
     ∧ (feedback_get "Wifi" v w = Some (VInt reachable) → after = before))
  ∧ ((∀ ip reachable,
        (ip, reachable) ∈ IPs_dict → ip_to_vehicle w !! ip ≠ Some v) →
     feedback_get "Wifi" v w' = feedback_get "Wifi" v w ∧ after = before).
Proof.
  intros Hready Hips Hnd Hall w' before after.
  destruct (update_wifi_loop_spec IPs_dict w Hready Hall)
    as (w1 & E & _ & _ & _ & Hv).
  assert (w' = w1) as -> by (unfold w', update_wifi_widgets, try_except;
                             by rewrite E).
  destruct (Hv v) as [Hnone Hone]. subst before after. split.
  - intros ip reachable Hin Hip.
    destruct (Hone reachable (reported_for_unique w IPs_dict ip reachable v
                                Hips Hnd Hin Hip))
      as (stored & Hst & Hnew & Hreq).
    rewrite Hreq, Hst. split_and!; [done|..].
    + by intros [= ->] ->.
    + by intros [= ->] ->.
    + intros [= ->]. simpl. by rewrite Z.eqb_refl, app_nil_r.
  - intros Hnot. by apply Hnone, reported_for_none.
Qed.

(** The wifi handler keeps a ready window ready. *)
Lemma update_wifi_widgets_ready w IPs_dict :
  wifi_ready w → ips_ok w →
  Forall (λ item, item.2 = 0 ∨ item.2 = 1) IPs_dict →
  wifi_ready (update_wifi_widgets IPs_dict w)
  ∧ ips_ok (update_wifi_widgets IPs_dict w).
Proof.
  intros Hready Hips Hall.
  destruct (update_wifi_loop_spec IPs_dict w Hready Hall)
    as (w1 & E & R & I & S & _).
  unfold update_wifi_widgets, try_except. rewrite E. split; [done|].
  unfold ips_ok. by rewrite I, S.
Qed.

(** A configuration that knows vehicle 1 only. *)
Definition example_config : gmap string vehicle_config :=
  {["1" := mk_vehicle_config "192.168.0.101" "frostlab" "~/config" "params.yaml"]}.

(** The window for vehicles 1 and 2 after a first report found vehicle 1
    unreachable. *)
Definition example_window : MainWindow :=
  update_wifi_widgets [("192.168.0.101", 0)]
    (MainWindow_init [1; 2] example_config).

Lemma example_window_ready : wifi_ready example_window ∧ ips_ok example_window.
Proof.
  apply update_wifi_widgets_ready.
  - apply wf_wifi_ready, MainWindow_init_wf.
  - apply MainWindow_init_wf.
  - repeat constructor.
Qed.

(** The instance of C1 at that window and a report that finds vehicle 1
    reachable: one shut-off request. *)
Lemma C1_wifi_transition_modem_requests_witness :
  modem_requests 1
    (ros_node (update_wifi_widgets [("192.168.0.101", 1)] example_window))
  = modem_requests 1 (ros_node example_window) ++ [true].
Proof.
  refine (proj1 (proj2 (proj1
    (C1_wifi_transition_modem_requests example_window
       [("192.168.0.101", 1)] 1 (proj1 example_window_ready)
       (proj2 example_window_ready) _ _) "192.168.0.101" 1 _ _)) _ _).
  - apply NoDup_singleton.
  - apply Forall_singleton. by right.
  - by left.
  - by vm_compute.
  - by vm_compute.
  - done.
Defined.


(** ** What a handler may touch *)

(** The calls of mission loading: publications for the map and the
    deployment. *)
Definition is_background (c : ros_call) : bool :=
  match c with
  | publish_origin _ | publish_path _ _ | deploy_main _ _ => true
  | _ => false
  end.

(** [touches keys w w']: from [w] to [w'] the selection and the addresses
    are the same, nothing was sent but calls of mission loading, and the
    store changed under the keys of [keys] at most. *)
Definition touches (keys : list string) (w w' : MainWindow) : Prop :=
  selected_vehicles w' = selected_vehicles w
  ∧ ip_to_vehicle w' = ip_to_vehicle w
  ∧ Vehicle_IP_addresses w' = Vehicle_IP_addresses w
  ∧ (∃ calls, ros_node w' = ros_node w ++ calls ∧ Forall is_background calls)
  ∧ (∀ key, key ∉ keys → feedback_dict w' !! key = feedback_dict w !! key).

Lemma touches_same_trace keys w w' :
  selected_vehicles w' = selected_vehicles w →
  ip_to_vehicle w' = ip_to_vehicle w →
  Vehicle_IP_addresses w' = Vehicle_IP_addresses w →
  ros_node w' = ros_node w →
  (∀ key, key ∉ keys → feedback_dict w' !! key = feedback_dict w !! key) →
  touches keys w w'.
Proof.
  intros S I A R F. split_and!; try done. exists []. by rewrite app_nil_r.
Qed.

#[local] Instance touches_preorder keys : PreOrder (touches keys).
Proof.
  split.
  - intros w. by apply touches_same_trace.
  - intros w1 w2 w3 (S1 & I1 & A1 & (c1 & M1 & B1) & F1)
      (S2 & I2 & A2 & (c2 & M2 & B2) & F2).
    split_and!; [congruence|congruence|congruence| |].
    + exists (c1 ++ c2). rewrite M2, M1, <-app_assoc. split; [done|].
      by apply Forall_app.
    + intros key Hk. by rewrite F2, F1.
Qed.

Lemma touches_modem_requests keys w w' v :
  touches keys w w' →
  modem_requests v (ros_node w') = modem_requests v (ros_node w).
Proof.
  intros (_ & _ & _ & (calls & -> & B) & _). rewrite modem_requests_app.
  assert (modem_requests v calls = []) as ->; [|by rewrite app_nil_r].
  induction B as [|c calls Hc B IH]; [done|]. by destruct c.
Qed.

Lemma only_labels_touches keys w w' : only_labels w w' → touches keys w w'.
Proof. intros [-> _]. by apply touches_same_trace. Qed.

Lemma icons_changed_touches keys w w' : icons_changed w w' → touches keys w w'.
Proof. intros [-> _]. by apply touches_same_trace. Qed.

Lemma with_widgets_touches keys g w : touches keys w (with_widgets g w).
Proof. by apply touches_same_trace. Qed.

Lemma with_theme_touches keys t w : touches keys w (with_theme t w).
Proof. by apply touches_same_trace. Qed.

Lemma feedback_set_touches keys key v x w :
  key ∈ keys → touches keys w (state_of (feedback_set key v x w)).
Proof.
  intros Hk. unfold feedback_set. case_match; [|reflexivity]. simpl.
  apply touches_same_trace; try done. intros key' Hk'. simpl.
  apply lookup_insert_ne. by intros ->.
Qed.

Lemma ros_send_touches keys c w :
  is_background c → touches keys w (ros_send c w).
Proof.
  intros Hc. split_and!; try done. exists [c]. split; [done|].
  by apply Forall_singleton.
Qed.

(** Sequencing, for any reflexive and transitive frame. *)
Lemma and_then_frame (R : relation MainWindow) `{!PreOrder R} (a b : action) w :
  R w (state_of (a w)) →
  (∀ w1, a w = Ok w1 → R w1 (state_of (b w1))) →
  R w (state_of ((a >> b) w)).
Proof.
  intros Ha Hb. unfold and_then. destruct (a w) as [w1|e w1] eqn:E; [|done].
  etrans; [exact Ha|]. by apply Hb.
Qed.

Lemma for_each_frame {A} (R : relation MainWindow) `{!PreOrder R}
  (body : A → action) (l : list A) w :
  (∀ x w, R w (state_of (body x w))) → R w (state_of (for_each l body w)).
Proof.
  intros Hbody. revert w. induction l as [|x l IH]; intros w; simpl; [done|].
  apply and_then_frame; [done..|]. intros. apply IH.
Qed.

Lemma try_except_frame (R : relation MainWindow) `{!PreOrder R} (a : action)
  handler w :
  R w (state_of (a w)) → (∀ e w, R w (handler e w)) →
  R w (try_except a handler w).
Proof.
  intros Ha Hh. unfold try_except. destruct (a w) as [w1|e w1]; [done|].
  etrans; [exact Ha|apply Hh].
Qed.

Lemma foldl_frame {A} (R : relation MainWindow) `{!PreOrder R}
  (f : MainWindow → A → MainWindow) (l : list A) w :
  (∀ w x, R w (f w x)) → R w (foldl f w l).
Proof.
  intros Hf. revert w. induction l as [|x l IH]; intros w; simpl; [done|].
  by etrans; [apply Hf|apply IH].
Qed.

Lemma replace_general_icon_touches keys v prefix w :
  touches keys w (state_of (replace_general_page_icon_widget v prefix w)).
Proof. apply icons_changed_touches, replace_general_icon_changed. Qed.

Lemma replace_specific_icon_touches keys v prefix w :
  touches keys w (state_of (replace_specific_icon_widget v prefix w)).
Proof. apply icons_changed_touches, replace_specific_icon_changed. Qed.

Lemma replace_specific_status_touches float_str keys v prefix w :
  touches keys w
    (state_of (replace_specific_status_widget float_str v prefix w)).
Proof.
  unfold replace_specific_status_widget.
  repeat (case_match; try done); apply with_widgets_touches.
Qed.


(** ** Service responses *)

(** The message [handle_service_response] reports for a completion. *)
Definition service_message (future : future_result) (action : string) : string :=
  match future with
  | Response true => success_message action
  | Response false => failure_message action
  | Raised e => exception_message action e
  end.

Lemma append_cancel_prefix (a s t : string) : a +:+ s = a +:+ t → s = t.
Proof. induction a as [|c a IH]; simpl; [done|]. intros [=]. by apply IH. Qed.

Lemma replace_confirm_console u msg w :
  console_text u (replace_confirm_reject_label msg w) = console_text u w.
Proof. done. Qed.

Lemma console_routed_from message v w0 w w' :
  selected_vehicles w = selected_vehicles w0 →
  (∀ u, console_text u w = console_text u w0) →
  console_routed message v w w' → console_routed message v w0 w'.
Proof.
  intros Hs Ht (R1 & R2 & R3 & R4). unfold console_routed.
  rewrite <-Hs. split_and!.
  - intros Hv u Hu. destruct (R1 Hv u Hu) as (old & k & ? & ? & ? & ?).
    exists old, k. by rewrite <-Ht.
  - intros Hv Hin. destruct (R2 Hv Hin) as (old & ? & ?).
    exists old. by rewrite <-Ht.
  - intros Hv u Hu. rewrite <-Ht. by apply R3.
  - intros Hv Hin u. rewrite <-Ht. by apply R4.
Qed.

Lemma console_ok_from w0 w :
  selected_vehicles w = selected_vehicles w0 →
  (∀ u, console_text u w = console_text u w0) →
  console_ok w0 → console_ok w.
Proof. intros Hs Ht H u. by rewrite Ht, Hs. Qed.

(** Every completion of a service call sets the confirmation label of every
    tab to the message of the outcome, and the three messages of one action
    are pairwise different, so the label tells the outcomes apart. *)
Theorem service_response_sets_every_label (future : future_result)
  (action : string) (vehicle_number : Z) (w : MainWindow) :
  (∀ tab,
     text <$> confirm_reject_labels
                (widgets (handle_service_response future action
                            vehicle_number w)) !! tab
     = (λ _, service_message future action)
       <$> confirm_reject_labels (widgets w) !! tab)
  ∧ (∀ e, service_message (Response true) action
          ≠ service_message (Response false) action
          ∧ service_message (Response true) action
            ≠ service_message (Raised e) action
          ∧ service_message (Response false) action
            ≠ service_message (Raised e) action).
Proof.
  split.
  - intros tab.
    assert (∀ msg w1,
      confirm_reject_labels (widgets w1)
      = confirm_reject_labels (widgets (replace_confirm_reject_label msg w)) →
      text <$> confirm_reject_labels (widgets w1) !! tab
      = (λ _, msg) <$> confirm_reject_labels (widgets w) !! tab) as Hlabel.
    { intros msg w1 ->. cbn. rewrite lookup_fmap.
      by destruct (confirm_reject_labels (widgets w) !! tab). }
    assert (∀ msg l w1,
      confirm_reject_labels (widgets (foldl (λ w i, console_write msg i w) w1 l))
      = confirm_reject_labels (widgets w1)) as Hfold.
    { intros msg l. induction l as [|i l IHl]; intros w1; [done|].
      cbn [foldl]. by rewrite IHl. }
    assert (∀ msg i w1,
      confirm_reject_labels (widgets (recieve_console_update msg i w1))
      = confirm_reject_labels (widgets w1)) as Hupd.
    { intros. apply Hfold. }
    assert (∀ msg w1,
      confirm_reject_labels (widgets (console_update_all msg w1))
      = confirm_reject_labels (widgets w1)) as Hcast.
    { intros msg w1. unfold console_update_all.
      generalize (selected_vehicles w1). intros l. revert w1.
      induction l as [|i l IHl]; intros w1; [done|].
      cbn [foldl]. by rewrite IHl, Hupd. }
    unfold handle_service_response, service_message.
    destruct future as [[]|e]; cbv zeta; repeat case_bool_decide;
      apply Hlabel; first [ reflexivity | apply Hcast | apply Hupd ].
  - intros e. unfold service_message, success_message, failure_message,
      exception_message.
    split_and!; intros H%append_cancel_prefix; cbn in H; discriminate H.
Qed.


(** Which console logs a completion reaches. A response, successful or not,
    is routed like a console update: to every selected vehicle for the id 0
    and to the one vehicle otherwise. A raised exception is routed by
    membership of the id in the selection only: for an id that is not
    selected, and so for the id 0 of a call that addressed every vehicle
    when no vehicle is numbered 0, no console log changes. *)
Theorem service_response_console_routing (w : MainWindow) (action : string)
  (vehicle_number : Z) :
  console_ok w →
  (∀ success,
     console_routed (service_message (Response success) action) vehicle_number
       w (handle_service_response (Response success) action vehicle_number w))
  ∧ (∀ e, vehicle_number ≠ 0 ∨ vehicle_number ∈ selected_vehicles w →
       console_routed (service_message (Raised e) action) vehicle_number w
         (handle_service_response (Raised e) action vehicle_number w))
  ∧ (∀ e, vehicle_number ∉ selected_vehicles w →
       ∀ u, console_text u
              (handle_service_response (Raised e) action vehicle_number w)
            = console_text u w).
Proof.
  intros Hok. split_and!.
  - intros success.
    set (msg := service_message (Response success) action).
    assert (handle_service_response (Response success) action vehicle_number w
            = handle_console_log msg vehicle_number
                (replace_confirm_reject_label msg w)) as ->.
    { unfold msg. by destruct success. }
    apply (console_routed_from _ _ _ (replace_confirm_reject_label msg w));
      [done|done|].
    apply handle_console_log_routed.
    by apply (console_ok_from w).
  - intros e Hv.
    set (msg := service_message (Raised e) action).
    set (w1 := replace_confirm_reject_label msg w).
    assert (console_ok w1) as Hok1 by by apply (console_ok_from w).
    apply (console_routed_from _ _ _ w1); [done|done|].
    change (handle_service_response (Raised e) action vehicle_number w)
      with (if bool_decide (vehicle_number ∈ selected_vehicles w1)
            then recieve_console_update msg vehicle_number w1 else w1).
    case_bool_decide as Hin; [by apply update_console_routed|].
    destruct Hv as [Hv|Hv]; [|done].
    unfold console_routed. split_and!; [by intros ?|by intros _ ?|done|done].
  - intros e H0 u. unfold handle_service_response.
    by rewrite bool_decide_eq_false_2.
Qed.

Lemma MainWindow_init_selected vehicle_list vehicles :
  selected_vehicles (MainWindow_init vehicle_list vehicles) = vehicle_list.
Proof.
  destruct (MainWindow_init_frame vehicle_list vehicles) as [H _].
  by rewrite (labels_and_ips_selected H).
Qed.

Lemma service_response_console_routing_witness :
  let w := MainWindow_init [1; 2] ∅ in
  let line_feed := String (ascii_of_nat 10) EmptyString in
  (∀ u, console_text u
          (handle_service_response (Raised (Exception "timed out"))
             "Emergency Shutdown" 0 w)
        = console_text u w)
  ∧ console_text 1
      (handle_service_response (Response false) "Emergency Shutdown" 0 w)
    = Some ("❌ Vehicle 1 not found in config, consider adding to config.json"
            +:+ line_feed
            +:+ "These are the Vehicle IP Addresses that were both selected "
            +:+ "and in the config.json: []" +:+ line_feed
            +:+ "Emergency Shutdown Service Initialization Failed").
Proof.
  intros w line_feed.
  assert (console_ok w) as Hok by apply MainWindow_init_wf.
  assert (selected_vehicles w = [1; 2]) as Hsel
    by apply MainWindow_init_selected.
  assert (console_text 1 w
          = Some ("❌ Vehicle 1 not found in config, consider adding to "
                  +:+ "config.json" +:+ line_feed
                  +:+ "These are the Vehicle IP Addresses that were both "
                  +:+ "selected and in the config.json: []")) as Hold
    by (vm_compute; reflexivity).
  clearbody w.
  destruct (service_response_console_routing w "Emergency Shutdown" 0 Hok)
    as (Hresp & _ & Hraise).
  split.
  - apply Hraise. rewrite Hsel. apply (bool_decide_unpack _). by vm_compute.
  - destruct (Hresp false) as [Hall _].
    destruct (Hall eq_refl 1) as (old & k & _ & Hold' & Hnew & Hk).
    { rewrite Hsel. by left. }
    rewrite Hnew, Hk.
    + rewrite Hold in Hold'. injection Hold' as <-. vm_compute. reflexivity.
    + rewrite Hsel. apply (bool_decide_unpack _). vm_compute. exact I.
    + rewrite Hsel. apply (bool_decide_unpack _). vm_compute. exact I.
Defined.


(** ** Telemetry into the store *)

Ltac elem_of_literal := apply (bool_decide_unpack _); vm_compute; exact I.

Lemma feedback_set_spec key v x w :
  is_Some (feedback_dict w !! key) →
  ∃ w', feedback_set key v x w = Ok w'
    ∧ feedback_get key v w' = Some x
    ∧ (∀ key' v', key' ≠ key ∨ v' ≠ v →
         feedback_get key' v' w' = feedback_get key' v' w)
    ∧ (∀ key', is_Some (feedback_dict w' !! key')
               ↔ is_Some (feedback_dict w !! key'))
    ∧ widgets w' = widgets w.
Proof.
  intros [d Hd]. rewrite (feedback_set_ok _ _ _ _ _ Hd).
  eexists. split; [done|].
  unfold feedback_get, with_feedback_dict. cbn [feedback_dict widgets].
  split_and!; [| | |done].
  - rewrite lookup_insert_eq. cbn. apply lookup_insert_eq.
  - intros key' v' Hne. destruct (decide (key' = key)) as [->|Hk].
    + rewrite lookup_insert_eq, Hd. cbn. destruct Hne as [|Hv]; [done|].
      by rewrite lookup_insert_ne.
    + by rewrite lookup_insert_ne.
  - intros key'. destruct (decide (key' = key)) as [->|Hk].
    + rewrite lookup_insert_eq, Hd. split; by eexists.
    + by rewrite lookup_insert_ne.
Qed.

Lemma touches_feedback_get keys key v w w' :
  touches keys w w' → key ∉ keys → feedback_get key v w' = feedback_get key v w.
Proof. intros (_ & _ & _ & _ & F) Hk. unfold feedback_get. by rewrite F. Qed.

Lemma touches_weaken keys keys' w w' :
  keys ⊆ keys' → touches keys w w' → touches keys' w w'.
Proof.
  intros Hsub (S & I & A & M & F). split_and!; try done.
  intros key Hk. apply F. intros Hin. by apply Hk, Hsub.
Qed.

Ltac touches_step :=
  lazymatch goal with
  | |- touches _ _ (state_of ((_ >> _) _)) =>
      apply and_then_frame; [apply _| |intros ? _]
  | |- touches _ _ (state_of (feedback_set _ _ _ _)) =>
      apply feedback_set_touches; elem_of_literal
  | |- touches _ _ (state_of (replace_general_page_icon_widget _ _ _)) =>
      apply replace_general_icon_touches
  | |- touches _ _ (state_of (replace_specific_icon_widget _ _ _)) =>
      apply replace_specific_icon_touches
  | |- touches _ _ (state_of (replace_specific_status_widget _ _ _ _)) =>
      apply replace_specific_status_touches
  | |- touches _ _ (state_of (pure _ _)) => unfold pure; cbn [state_of]
  | |- touches _ ?w (state_of (Ok ?w)) => reflexivity
  | |- touches _ ?w (state_of (Raise _ ?w)) => reflexivity
  end.

(** The last stage of [_update_safety_status_information]: the emergency
    status and its label. *)
Lemma safety_status_tail_touches keys v (msg : SafetyStatus) w :
  "Status_messages" ∈ keys →
  touches keys w
    (state_of
       (match feedback_get "Status_messages" v w with
        | None => Raise (KeyError (pretty v)) w
        | Some stored =>
            if ne_int stored (emergency_status msg) then
              (feedback_set "Status_messages" v
                 (VInt (emergency_status msg))
               >> λ w,
                  match general_page_vehicle_widgets (widgets w) !! v with
                  | None => Raise (AttributeError "findChild") w
                  | Some children =>
                      let name := "Status_messages" +:+ pretty v in
                      match children !! name with
                      | Some existing_label =>
                          Ok (with_widgets
                                (with_general_page_vehicle_widgets
                                   (<[v :=
                                        <[name :=
                                            setText
                                              (get_status_label
                                                 (emergency_status msg))
                                              existing_label]> children]>
                                      (general_page_vehicle_widgets (widgets w)))
                                   (widgets w)) w)
                      | None => Ok w
                      end
                  end) w
            else Ok w
        end)).
Proof.
  intros Hk. destruct (feedback_get _ _ _); [|reflexivity].
  destruct (ne_int _ _); [|reflexivity].
  apply and_then_frame; [apply _| |intros w1 _].
  - by apply feedback_set_touches.
  - cbv zeta. repeat case_match; try reflexivity. apply with_widgets_touches.
Qed.

Lemma safety_status_touches v msg w :
  touches ["GPS"; "DVL"; "IMU"; "Status_messages"] w
    (state_of (_update_safety_status_information v msg w)).
Proof.
  unfold _update_safety_status_information.
  do 9 touches_step; try touches_step.
  apply safety_status_tail_touches. elem_of_literal.
Qed.

(** What a safety-status message leaves in the store: the GPS and the DVL
    flags are stored inverted (a raised flag as 0, a lowered one as 1), the
    IMU flag is stored as it is (raised as 1), and this is so whether or not
    a later step of the handler raises. *)
Theorem safety_status_flags_stored (vehicle_number : Z)
  (safety_message : SafetyStatus) (w : MainWindow) :
  (∀ key, key ∈ ["GPS"; "DVL"; "IMU"] → is_Some (feedback_dict w !! key)) →
  let w' := state_of (_update_safety_status_information vehicle_number
                        safety_message w) in
  feedback_get "GPS" vehicle_number w'
  = Some (VInt (if gps_status safety_message then 0 else 1))
  ∧ feedback_get "DVL" vehicle_number w'
    = Some (VInt (if dvl_status safety_message then 0 else 1))
  ∧ feedback_get "IMU" vehicle_number w'
    = Some (VInt (if imu_published safety_message then 1 else 0)).
Proof.
  intros Hkeys w'.
  destruct (feedback_set_spec "GPS" vehicle_number
              (VInt (if gps_status safety_message then 0 else 1)) w)
    as (w1 & E1 & G1 & O1 & K1 & _); [apply Hkeys; elem_of_literal|].
  destruct (feedback_set_spec "DVL" vehicle_number
              (VInt (if dvl_status safety_message then 0 else 1)) w1)
    as (w2 & E2 & G2 & O2 & K2 & _); [apply K1, Hkeys; elem_of_literal|].
  destruct (feedback_set_spec "IMU" vehicle_number
              (VInt (if imu_published safety_message then 1 else 0)) w2)
    as (w3 & E3 & G3 & O3 & K3 & _); [apply K2, K1, Hkeys; elem_of_literal|].
  assert (touches ["Status_messages"] w3 w') as Ht.
  { unfold w', _update_safety_status_information.
    rewrite (and_then_ok _ _ _ _ E1), (and_then_ok _ _ _ _ E2),
      (and_then_ok _ _ _ _ E3).
    do 6 touches_step; try touches_step.
    apply safety_status_tail_touches. elem_of_literal. }
  rewrite !(touches_feedback_get _ _ _ _ _ Ht) by (by intros ?%list_elem_of_singleton).
  split_and!.
  - rewrite O3, O2 by (by left). done.
  - rewrite O3 by (by left). done.
  - done.
Qed.

Lemma safety_status_flags_stored_witness :
  feedback_get "GPS" 1
    (state_of (_update_safety_status_information 1
                 (mkSafetyStatus true false true 0) (MainWindow_init [1; 2] ∅)))
  = Some (VInt 0).
Proof.
  refine (proj1 (safety_status_flags_stored 1 (mkSafetyStatus true false true 0)
                   (MainWindow_init [1; 2] ∅) _)).
  intros key Hkey.
  destruct (wf_store _ (MainWindow_init_wf [1; 2] ∅) key) as (d & -> & _);
    [|by eexists].
  revert key Hkey. apply Forall_forall. elem_of_literal.
Defined.

Lemma smoothed_output_touches float_str quat2euler degrees_mod_360 float_pow
  v msg w :
  touches ["XPos"; "YPos"; "DVL_vel"; "Angular_vel"; "Heading"] w
    (state_of (_update_gui_smoothed_output float_str quat2euler
                 degrees_mod_360 float_pow v msg w)).
Proof.
  unfold _update_gui_smoothed_output. cbv zeta.
  destruct (euclidean_norm float_pow (linear msg)) as [e|total_linear_vel];
    [reflexivity|].
  destruct (euclidean_norm float_pow (angular msg)) as [e|total_angular_vel];
    [reflexivity|].
  do 9 touches_step; touches_step.
Qed.

Lemma euclidean_norm_squares (float_pow : float → Z → exn + float)
  (v : Vector3.t) (x2 y2 z2 : float) :
  float_pow (Vector3.x v) 2 = inr x2 →
  float_pow (Vector3.y v) 2 = inr y2 →
  float_pow (Vector3.z v) 2 = inr z2 →
  PrimFloat.ltb (PrimFloat.add (PrimFloat.add x2 y2) z2) 0 = false →
  euclidean_norm float_pow v
  = inr (PrimFloat.sqrt (PrimFloat.add (PrimFloat.add x2 y2) z2)).
Proof.
  intros Hx Hy Hz Hs. unfold euclidean_norm, math_sqrt.
  by rewrite Hx, Hy, Hz, Hs.
Qed.

Lemma euclidean_norm_raises (float_pow : float → Z → exn + float)
  (v : Vector3.t) (c : float) (e : exn) :
  c ∈ [Vector3.x v; Vector3.y v; Vector3.z v] → float_pow c 2 = inl e →
  ∃ e', euclidean_norm float_pow v = inl e'.
Proof.
  intros Hc He. unfold euclidean_norm.
  destruct (float_pow (Vector3.x v) 2) as [ex|x2] eqn:Ex; [by eexists|].
  destruct (float_pow (Vector3.y v) 2) as [ey|y2] eqn:Ey; [by eexists|].
  destruct (float_pow (Vector3.z v) 2) as [ez|z2] eqn:Ez; [by eexists|].
  repeat (apply elem_of_cons in Hc as [->|Hc]; [congruence|]).
  by apply elem_of_nil in Hc.
Qed.

(** What a smoothed-output message leaves in the store. When the six
    squares of the twist are computed and neither sum is below zero, the
    position is stored to two decimals, and for each velocity the square
    root of the sum of the three squares, x, y and z, to two decimals,
    whether or not a label update raises afterwards. When a square raises
    (the OverflowError of an out-of-range power), the handler raises before
    anything is stored and leaves the window as it was; the exception of the
    first square is the one raised. *)
Theorem smoothed_output_stored (float_str : float → string)
  (quat2euler : float * float * float * float → float * float * float)
  (degrees_mod_360 : float → float) (float_pow : float → Z → exn + float)
  (vehicle_number : Z) (msg : Odometry) (w : MainWindow) :
  (∀ key, key ∈ ["XPos"; "YPos"; "DVL_vel"; "Angular_vel"; "Heading"] →
     is_Some (feedback_dict w !! key)) →
  let o := _update_gui_smoothed_output float_str quat2euler degrees_mod_360
             float_pow vehicle_number msg w in
  (∀ lx ly lz ax ay az,
     float_pow (Vector3.x (linear msg)) 2 = inr lx →
     float_pow (Vector3.y (linear msg)) 2 = inr ly →
     float_pow (Vector3.z (linear msg)) 2 = inr lz →
     float_pow (Vector3.x (angular msg)) 2 = inr ax →
     float_pow (Vector3.y (angular msg)) 2 = inr ay →
     float_pow (Vector3.z (angular msg)) 2 = inr az →
     PrimFloat.ltb (PrimFloat.add (PrimFloat.add lx ly) lz) 0 = false →
     PrimFloat.ltb (PrimFloat.add (PrimFloat.add ax ay) az) 0 = false →
     feedback_get "XPos" vehicle_number (state_of o)
     = Some (VFloat (Py.round (Vector3.x (position msg)) 2))
     ∧ feedback_get "YPos" vehicle_number (state_of o)
       = Some (VFloat (Py.round (Vector3.y (position msg)) 2))
     ∧ feedback_get "DVL_vel" vehicle_number (state_of o)
       = Some (VFloat
                 (Py.round
                    (PrimFloat.sqrt
                       (PrimFloat.add (PrimFloat.add lx ly) lz)) 2))
     ∧ feedback_get "Angular_vel" vehicle_number (state_of o)
       = Some (VFloat
                 (Py.round
                    (PrimFloat.sqrt
                       (PrimFloat.add (PrimFloat.add ax ay) az)) 2)))
  ∧ (∀ c e,
       c ∈ [Vector3.x (linear msg); Vector3.y (linear msg);
            Vector3.z (linear msg); Vector3.x (angular msg);
            Vector3.y (angular msg); Vector3.z (angular msg)] →
       float_pow c 2 = inl e → ∃ e', o = Raise e' w)
  ∧ (∀ e, float_pow (Vector3.x (linear msg)) 2 = inl e → o = Raise e w).
Proof.
  intros Hkeys o. split_and!.
  - intros lx ly lz ax ay az Hlx Hly Hlz Hax Hay Haz Hl Ha.
    pose proof (euclidean_norm_squares float_pow _ _ _ _ Hlx Hly Hlz Hl) as Nl.
    pose proof (euclidean_norm_squares float_pow _ _ _ _ Hax Hay Haz Ha) as Na.
    set (nl := PrimFloat.sqrt (PrimFloat.add (PrimFloat.add lx ly) lz)) in *.
    set (na := PrimFloat.sqrt (PrimFloat.add (PrimFloat.add ax ay) az)) in *.
    destruct (feedback_set_spec "XPos" vehicle_number
                (VFloat (Py.round (Vector3.x (position msg)) 2)) w)
      as (w1 & E1 & G1 & O1 & K1 & _); [apply Hkeys; elem_of_literal|].
    destruct (feedback_set_spec "YPos" vehicle_number
                (VFloat (Py.round (Vector3.y (position msg)) 2)) w1)
      as (w2 & E2 & G2 & O2 & K2 & _); [apply K1, Hkeys; elem_of_literal|].
    destruct (feedback_set_spec "DVL_vel" vehicle_number
                (VFloat (Py.round nl 2)) w2)
      as (w3 & E3 & G3 & O3 & K3 & _);
      [apply K2, K1, Hkeys; elem_of_literal|].
    destruct (feedback_set_spec "Angular_vel" vehicle_number
                (VFloat (Py.round na 2)) w3)
      as (w4 & E4 & G4 & O4 & K4 & _);
      [apply K3, K2, K1, Hkeys; elem_of_literal|].
    destruct (feedback_set_spec "Heading" vehicle_number
                (VFloat (Py.round
                   (degrees_mod_360
                      (quat2euler
                         (Quaternion.w (orientation msg),
                          Quaternion.x (orientation msg),
                          Quaternion.y (orientation msg),
                          Quaternion.z (orientation msg))).2) 2)) w4)
      as (w5 & E5 & G5 & O5 & K5 & _);
      [apply K4, K3, K2, K1, Hkeys; elem_of_literal|].
    assert (touches [] w5 (state_of o)) as Ht.
    { unfold o, _update_gui_smoothed_output. cbv zeta. rewrite Nl, Na.
      rewrite (and_then_ok _ _ _ _ E1), (and_then_ok _ _ _ _ E2),
        (and_then_ok _ _ _ _ E3), (and_then_ok _ _ _ _ E4),
        (and_then_ok _ _ _ _ E5).
      do 4 touches_step; touches_step. }
    rewrite !(touches_feedback_get _ _ _ _ _ Ht) by apply not_elem_of_nil.
    split_and!.
    + rewrite O5, O4, O3, O2 by (by left). done.
    + rewrite O5, O4, O3 by (by left). done.
    + rewrite O5, O4 by (by left). done.
    + rewrite O5 by (by left). done.
  - intros c e Hc He. unfold o, _update_gui_smoothed_output. cbv zeta.
    destruct (euclidean_norm float_pow (linear msg)) as [el|nl] eqn:El;
      [by eexists|].
    destruct (euclidean_norm float_pow (angular msg)) as [ea|na] eqn:Ea;
      [by eexists|].
    exfalso.
    change [Vector3.x (linear msg); Vector3.y (linear msg);
            Vector3.z (linear msg); Vector3.x (angular msg);
            Vector3.y (angular msg); Vector3.z (angular msg)]
      with ([Vector3.x (linear msg); Vector3.y (linear msg);
             Vector3.z (linear msg)]
            ++ [Vector3.x (angular msg); Vector3.y (angular msg);
                Vector3.z (angular msg)]) in Hc.
    apply elem_of_app in Hc as [Hc|Hc].
    + destruct (euclidean_norm_raises float_pow _ _ _ Hc He). congruence.
    + destruct (euclidean_norm_raises float_pow _ _ _ Hc He). congruence.
  - intros e He. unfold o, _update_gui_smoothed_output, euclidean_norm.
    cbv zeta. by rewrite He.
Qed.

(** With squares computed exactly, a linear velocity (1, 2, 2) is stored as
    its norm 3, which a norm that left z out would not give, and an angular
    velocity (1, 1, 0) as 1.41 (the float 0x1.68f5c28f5c28fp+0). *)
Lemma smoothed_output_stored_witness :
  let w' :=
    state_of (_update_gui_smoothed_output (λ _, "") (λ _, (0, 0, 0)%float) id
                (λ x _, inr (PrimFloat.mul x x)) 1
                (mkOdometry (Vector3.mk 0 0 0) (Quaternion.mk 0 0 0 1)
                   (Vector3.mk 1 2 2) (Vector3.mk 1 1 0))
                (MainWindow_init [1; 2] ∅)) in
  feedback_get "DVL_vel" 1 w' = Some (VFloat 3)
  ∧ feedback_get "Angular_vel" 1 w'
    = Some (VFloat 0x1.68f5c28f5c28fp+0%float).
Proof.
  intros w'.
  assert (∀ key, key ∈ ["XPos"; "YPos"; "DVL_vel"; "Angular_vel"; "Heading"] →
            is_Some (feedback_dict (MainWindow_init [1; 2] ∅) !! key))
    as Hkeys.
  { intros key Hkey.
    destruct (wf_store _ (MainWindow_init_wf [1; 2] ∅) key) as (d & -> & _);
      [|by eexists].
    revert key Hkey. apply Forall_forall. elem_of_literal. }
  destruct (proj1 (smoothed_output_stored (λ _, "") (λ _, (0, 0, 0)%float) id
                     (λ x _, inr (PrimFloat.mul x x)) 1
                     (mkOdometry (Vector3.mk 0 0 0) (Quaternion.mk 0 0 0 1)
                        (Vector3.mk 1 2 2) (Vector3.mk 1 1 0))
                     (MainWindow_init [1; 2] ∅) Hkeys)
              1%float 4%float 4%float 1%float 1%float 0%float
              eq_refl eq_refl eq_refl eq_refl eq_refl eq_refl
              eq_refl eq_refl)
    as (_ & _ & Hl & Ha).
  split; [exact Hl|exact Ha].
Defined.


(** The label of a telemetry value on the vehicle tab. *)
Definition status_label (prefix : string) (vehicle_number : Z) (w : MainWindow)
  : option QLabel :=
  column01_widget (widgets w) !! vehicle_number
  ≫= λ children, children !! (prefix +:+ pretty vehicle_number).

(** A value stored and then shown: [feedback_set] followed by
    [replace_specific_status_widget] under the same key. *)
Lemma store_then_show float_str key caption v (r : float) w :
  is_Some (feedback_dict w !! key) →
  Py.dict_get key key_to_text_dict = Some caption →
  let o := (feedback_set key v (VFloat r)
            >> replace_specific_status_widget float_str v key) w in
  feedback_get key v (state_of o) = Some (VFloat r)
  ∧ (∀ old, status_label key v w = Some old →
       ∃ w', o = Ok w'
         ∧ status_label key v w' = Some (setText (caption +:+ float_str r) old))
  ∧ (column01_widget (widgets w) !! v = None →
       ∃ w', o = Raise (AttributeError ("vehicle" +:+ pretty v
                                         +:+ "_column01_layout")) w').
Proof.
  intros Hkey Hcap o.
  destruct (feedback_set_spec key v (VFloat r) w Hkey)
    as (w1 & E1 & G1 & O1 & K1 & W1).
  assert (o = replace_specific_status_widget float_str v key w1) as ->.
  { unfold o. by rewrite (and_then_ok _ _ _ _ E1). }
  split_and!.
  - rewrite (touches_feedback_get [] _ _ w1); [done| |apply not_elem_of_nil].
    apply replace_specific_status_touches.
  - unfold status_label. rewrite <-W1. intros old Hold.
    unfold replace_specific_status_widget. rewrite Hcap.
    destruct (column01_widget (widgets w1) !! v) as [children|] eqn:Ec;
      [|done].
    cbn in Hold. rewrite Hold.
    unfold feedback_get in G1.
    destruct (feedback_dict w1 !! key) as [d|]; [|done]. cbn in G1.
    rewrite G1. eexists. split; [done|].
    cbn. rewrite lookup_insert_eq. cbn. by rewrite lookup_insert_eq.
  - rewrite <-W1. intros Hnone. unfold replace_specific_status_widget.
    rewrite Hnone. by eexists.
Qed.

(** Depth and pressure are stored to two decimals and the battery voltage
    to one. When the vehicle tab has the label of the value, the handler
    returns and the label shows the caption followed by the stored value.
    For a vehicle without a tab the value is stored all the same and the
    handler raises AttributeError. *)
Theorem scalar_telemetry_stored_and_shown (float_str : float → string)
  (vehicle_number : Z) (x : float) (w : MainWindow) :
  (∀ key, key ∈ ["Depth"; "Pressure"; "Battery"] →
     is_Some (feedback_dict w !! key)) →
  let depth := update_depth_data float_str vehicle_number x w in
  let pressure := update_pressure_data float_str vehicle_number x w in
  let battery := update_battery_data float_str vehicle_number x w in
  (feedback_get "Depth" vehicle_number (state_of depth)
   = Some (VFloat (Py.round x 2))
   ∧ feedback_get "Pressure" vehicle_number (state_of pressure)
     = Some (VFloat (Py.round x 2))
   ∧ feedback_get "Battery" vehicle_number (state_of battery)
     = Some (VFloat (Py.round x 1)))
  ∧ (∀ old, status_label "Depth" vehicle_number w = Some old →
       ∃ w', depth = Ok w'
         ∧ status_label "Depth" vehicle_number w'
           = Some (setText ("Depth (m): " +:+ float_str (Py.round x 2)) old))
  ∧ (∀ old, status_label "Pressure" vehicle_number w = Some old →
       ∃ w', pressure = Ok w'
         ∧ status_label "Pressure" vehicle_number w'
           = Some (setText ("Pressure (Pa): " +:+ float_str (Py.round x 2))
                     old))
  ∧ (∀ old, status_label "Battery" vehicle_number w = Some old →
       ∃ w', battery = Ok w'
         ∧ status_label "Battery" vehicle_number w'
           = Some (setText ("Battery (V): " +:+ float_str (Py.round x 1)) old))
  ∧ (column01_widget (widgets w) !! vehicle_number = None →
       ∃ e, (∃ w', depth = Raise e w') ∧ (∃ w', pressure = Raise e w')
            ∧ (∃ w', battery = Raise e w')
            ∧ e = AttributeError ("vehicle" +:+ pretty vehicle_number
                                  +:+ "_column01_layout")).
Proof.
  intros Hkeys depth pressure battery.
  destruct (store_then_show float_str "Depth" "Depth (m): " vehicle_number
              (Py.round x 2) w) as (D1 & D2 & D3);
    [apply Hkeys; elem_of_literal|done|].
  destruct (store_then_show float_str "Pressure" "Pressure (Pa): "
              vehicle_number (Py.round x 2) w) as (P1 & P2 & P3);
    [apply Hkeys; elem_of_literal|done|].
  destruct (store_then_show float_str "Battery" "Battery (V): " vehicle_number
              (Py.round x 1) w) as (B1 & B2 & B3);
    [apply Hkeys; elem_of_literal|done|].
  split_and!; try done.
  intros Hnone. eexists. split_and!; [by apply D3|by apply P3|by apply B3|done].
Qed.

Lemma scalar_telemetry_stored_and_shown_witness :
  feedback_get "Battery" 2
    (state_of (update_battery_data (λ _, "") 2 15.5 (MainWindow_init [1; 2] ∅)))
  = Some (VFloat (Py.round 15.5 1)).
Proof.
  refine (proj2 (proj2 (proj1
    (scalar_telemetry_stored_and_shown (λ _, "") 2 15.5
       (MainWindow_init [1; 2] ∅) _)))).
  intros key Hkey.
  destruct (wf_store _ (MainWindow_init_wf [1; 2] ∅) key) as (d & -> & _);
    [|by eexists].
  revert key Hkey. apply Forall_forall. elem_of_literal.
Defined.


(** ** Colour themes *)

(** What a label shows, apart from its colours. *)
Definition label_content (l : QLabel) : string * option StandardPixmap :=
  (text l, _icon_type l).

Definition children_content (c : gmap string QLabel)
  : gmap string (string * option StandardPixmap) :=
  label_content <$> c.

(** Everything the window holds apart from colours and stylesheets: the
    selection, the store, the addresses, the trace of ROS calls, the width,
    and for every label its text and the icon it shows, for every button
    its text, and the number of lines. *)
Definition content (w : MainWindow) :=
  (selected_vehicles w, feedback_dict w, ip_to_vehicle w,
   Vehicle_IP_addresses w, ros_node w, width w,
   (label_content <$> confirm_reject_labels (widgets w),
    label_content <$> console_messages (widgets w),
    children_content <$> general_page_vehicle_widgets (widgets w),
    children_content <$> column0_widget (widgets w),
    children_content <$> column01_widget (widgets w),
    children_content <$> buttons_column_widget (widgets w),
    button_text <$> buttons (widgets w),
    text <$> anonymous_labels (widgets w),
    length (lines (widgets w)))).

Lemma fmap_content_setStyleSheet `{Countable K} s (m : gmap K QLabel) :
  label_content <$> (setStyleSheet s <$> m) = label_content <$> m.
Proof.
  apply map_eq. intros i. rewrite !lookup_fmap. by destruct (m !! i).
Qed.

Lemma restyle_label_content t name l :
  label_content (restyle_label t name l) = label_content l.
Proof.
  unfold restyle_label, repaint_icon, label_content.
  destruct (String.prefix _ _); [|done].
  cbn. destruct (_icon_type l) eqn:E; cbn; by rewrite ?E.
Qed.

Lemma fmap_content_restyle_children `{Countable K} t
  (m : gmap K (gmap string QLabel)) :
  children_content <$> (restyle_children t <$> m) = children_content <$> m.
Proof.
  apply map_eq. intros i. rewrite !lookup_fmap.
  destruct (m !! i) as [c|]; [|done]. cbn. f_equal.
  apply map_eq. intros name. unfold children_content, restyle_children.
  rewrite !lookup_fmap, map_lookup_imap.
  destruct (c !! name) as [l|]; [|done]. cbn.
  by rewrite restyle_label_content.
Qed.

Lemma set_console_log_colors_content fg bg w :
  content (set_console_log_colors fg bg w) = content w.
Proof.
  unfold set_console_log_colors. generalize (selected_vehicles w) at 1.
  intros l. revert w. induction l as [|v l IH]; intros w; [done|].
  cbn [foldl]. rewrite IH.
  destruct (console_scroll_area (widgets w) !! v); [|done].
  cbn [console_messages with_console_scroll_area].
  destruct (console_messages (widgets w) !! console_name v) as [label|] eqn:E;
    [|done].
  unfold content. cbn.
  rewrite fmap_insert.
  rewrite (insert_id (label_content <$> console_messages (widgets w))); [done|].
  by rewrite lookup_fmap, E.
Qed.

Lemma apply_theme_to_tab_content name w :
  content (apply_theme_to_tab name w) = content w.
Proof.
  unfold apply_theme_to_tab. cbv zeta.
  match goal with
  | |- content (with_widgets _ (set_console_log_colors ?fg ?bg ?w1)) = _ =>
      pose proof (set_console_log_colors_content fg bg w1) as Hc;
      generalize dependent (set_console_log_colors fg bg w1)
  end.
  intros w2 Hc.
  transitivity (content w2); [|by rewrite Hc].
  unfold content. cbn.
  rewrite !fmap_content_setStyleSheet, !fmap_content_restyle_children.
  by rewrite <-!list_fmap_compose, length_fmap.
Qed.

Lemma apply_theme_to_widgets_content w :
  content (apply_theme_to_widgets w) = content w.
Proof.
  unfold apply_theme_to_widgets. cbv zeta.
  apply (foldl_invariant (λ w', content w' = content w)); [|done].
  intros w' name _ Hw'. by rewrite apply_theme_to_tab_content.
Qed.



Lemma set_color_theme_content color_theme first_time w :
  content (set_color_theme color_theme first_time w) = content w.
Proof.
  unfold set_color_theme. cbv zeta. destruct first_time; [done|].
  by rewrite apply_theme_to_widgets_content.
Qed.

(** Switching the colour theme changes colours and stylesheets and nothing
    else: the store, the selection, the addresses, the trace of ROS calls,
    the text and icon of every label and the text of every button are the
    same afterwards, for every theme name, known or not, at start-up or
    later. The theme becomes the table of the name. *)
Theorem theme_switch_keeps_content (color_theme : string) (first_time : bool)
  (w : MainWindow) :
  let w' := set_color_theme color_theme first_time w in
  content w' = content w
  ∧ feedback_dict w' = feedback_dict w
  ∧ (∀ u, console_text u w' = console_text u w)
  ∧ theme w' = theme_colors color_theme (theme w).
Proof.
  intros w'.
  assert (content w' = content w) as Hc
    by apply set_color_theme_content.
  assert (theme w' = theme_colors color_theme (theme w)) as Ht.
  { unfold w', set_color_theme. cbv zeta. destruct first_time; [done|].
    unfold apply_theme_to_widgets. cbv zeta.
    apply (foldl_invariant
             (λ w', theme w' = theme_colors color_theme (theme w))); [|done].
    intros w1 name _ Hw1. unfold apply_theme_to_tab. cbv zeta. cbn [theme with_widgets].
    rewrite <-Hw1. unfold set_console_log_colors.
    apply (foldl_invariant (λ w', theme w' = _)); [|done].
    intros w2 v _ Hw2. by repeat case_match. }
  split_and!; [done| | |done].
  - by injection Hc.
  - intros u. unfold console_text.
    assert (label_content <$> console_messages (widgets w')
            = label_content <$> console_messages (widgets w)) as Hm
      by by injection Hc.
    apply (f_equal (λ m, m !! console_name u)) in Hm.
    rewrite !lookup_fmap in Hm.
    destruct (console_messages (widgets w') !! console_name u),
      (console_messages (widgets w) !! console_name u);
      cbn in *; unfold label_content in Hm; congruence.
Qed.



(** ** Insertion-ordered dictionaries *)

Section dict_facts.
Context {K V : Type} `{EqDecision K}.
Implicit Types (k : K) (v : V) (d : list (K * V)).

Lemma dict_get_set k k' v d :
  Py.dict_get k (Py.dict_set k' v d)
  = if decide (k = k') then Some v else Py.dict_get k d.
Proof.
  induction d as [|[k1 v1] d IH]; cbn.
  - repeat case_decide; congruence.
  - repeat (case_decide; cbn); try congruence.
Qed.

Lemma dict_set_keys k v d :
  (Py.dict_set k v d).*1 = if decide (k ∈ d.*1) then d.*1 else d.*1 ++ [k].
Proof.
  induction d as [|[k1 v1] d IH]; cbn; [by rewrite decide_False by set_solver|].
  destruct (decide (k1 = k)) as [->|Hne]; cbn.
  - by rewrite decide_True by set_solver.
  - rewrite IH. destruct (decide (k ∈ d.*1)).
    + by rewrite decide_True by set_solver.
    + by rewrite decide_False by set_solver.
Qed.

Lemma dict_set_fresh k v d : k ∉ d.*1 → Py.dict_set k v d = d ++ [(k, v)].
Proof.
  induction d as [|[k1 v1] d IH]; cbn; [done|]. intros Hk.
  rewrite decide_False by set_solver. f_equal. apply IH. set_solver.
Qed.

Lemma dict_set_NoDup k v d : NoDup d.*1 → NoDup (Py.dict_set k v d).*1.
Proof.
  intros Hd. rewrite dict_set_keys. case_decide; [done|].
  apply NoDup_app. split_and!; [done|set_solver|apply NoDup_singleton].
Qed.

Lemma dict_get_Some k v d : Py.dict_get k d = Some v → (k, v) ∈ d.
Proof.
  induction d as [|[k1 v1] d IH]; cbn; [done|].
  case_decide; [intros [= ->]; subst; left|right; by apply IH].
Qed.

Lemma dict_get_NoDup k v d : NoDup d.*1 → (k, v) ∈ d → Py.dict_get k d = Some v.
Proof.
  induction d as [|[k1 v1] d IH]; cbn; [by intros _ ?%elem_of_nil|].
  intros [Hk1 Hd]%NoDup_cons [[= -> ->]|Hin]%elem_of_cons.
  - by rewrite decide_True.
  - rewrite decide_False; [by apply IH|].
    intros ->. apply Hk1. apply list_elem_of_fmap. by exists (k, v).
Qed.

Lemma dict_set_elem k v k' v' d :
  (k, v) ∈ Py.dict_set k' v' d → (k, v) = (k', v') ∨ (k, v) ∈ d.
Proof.
  induction d as [|[k1 v1] d IH]; cbn.
  - intros ?%list_elem_of_singleton. by left.
  - case_decide as E.
    + intros [?|?]%elem_of_cons; [by left|]. right. by right.
    + intros [->|Hin]%elem_of_cons; [right; by left|].
      destruct (IH Hin) as [?|?]; [by left|]. right. by right.
Qed.

End dict_facts.


(** ** Fin calibration dialog *)

Lemma last_char_append a s :
  Py.last_char s ≠ None → Py.last_char (a +:+ s) = Py.last_char s.
Proof.
  intros Hs. induction a as [|c a IH]; [done|].
  change (String c a +:+ s) with (String c (a +:+ s)). rewrite <-IH.
  destruct (a +:+ s); [|done]. cbn in IH. congruence.
Qed.

Lemma pretty_N_go_last x c s :
  Py.last_char (pretty_N_go x (String c s)) = Py.last_char (String c s).
Proof.
  revert c s. induction (N.lt_wf_0 x) as [x _ IH]; intros c s.
  destruct (decide (x = 0)%N) as [->|Hx]; [done|].
  rewrite pretty_N_go_step by lia.
  rewrite IH by (apply N.div_lt; lia). done.
Qed.

Lemma pretty_N_last (x : N) :
  Py.last_char (pretty x) = Some (pretty_N_char (x `mod` 10)).
Proof.
  unfold pretty, pretty_N. case_decide as Hx; [by subst|].
  rewrite pretty_N_go_step by lia. by rewrite pretty_N_go_last.
Qed.

Lemma pretty_Z_last (n : Z) :
  Py.last_char (pretty n)
  = Some (pretty_N_char (Z.to_N (Z.abs n) `mod` 10)).
Proof.
  destruct n as [|p|p]; [done|apply (pretty_N_last (N.pos p))|].
  change (pretty (Z.neg p)) with ("-" +:+ pretty (N.pos p)).
  rewrite last_char_append; [apply (pretty_N_last (N.pos p))|].
  by rewrite pretty_N_last.
Qed.

Lemma pretty_digit (d : Z) :
  0 ≤ d < 10 → pretty d = String (pretty_N_char (Z.to_N d)) EmptyString.
Proof.
  intros Hd.
  assert (d = 0 ∨ d = 1 ∨ d = 2 ∨ d = 3 ∨ d = 4 ∨ d = 5 ∨ d = 6 ∨ d = 7
          ∨ d = 8 ∨ d = 9) as Hcases by lia.
  repeat (destruct Hcases as [->|Hcases]; [done|]). by subst.
Qed.

Lemma last_character_tab_name (n : Z) :
  last_character (tab_name n) = pretty (Z.abs n `mod` 10).
Proof.
  unfold last_character, tab_name.
  rewrite last_char_append by by rewrite pretty_Z_last.
  rewrite pretty_Z_last, pretty_digit by (apply Z.mod_pos_bound; lia).
  by rewrite Z2N.inj_mod by lia.
Qed.

Lemma int_of_key_digit (d : Z) : 0 ≤ d < 10 → int_of_key (pretty d) = Some d.
Proof.
  intros Hd.
  assert (d = 0 ∨ d = 1 ∨ d = 2 ∨ d = 3 ∨ d = 4 ∨ d = 5 ∨ d = 6 ∨ d = 7
          ∨ d = 8 ∨ d = 9) as Hcases by lia.
  repeat (destruct Hcases as [->|Hcases]; [done|]). by subst.
Qed.

Lemma same_last_character (n m : Z) :
  last_character (tab_name m) = last_character (tab_name n)
  ↔ Z.abs m `mod` 10 = Z.abs n `mod` 10.
Proof.
  rewrite !last_character_tab_name. split; [|by intros ->].
  apply pretty_Z_inj.
Qed.

Lemma tab_name_inj (n m : Z) : tab_name n = tab_name m → n = m.
Proof. intros H%append_cancel_prefix. by apply (inj pretty). Qed.

Lemma fin_sliders_init_NoDup (l : list Z) (slider_values : Z → list Z) :
  NoDup l →
  fin_sliders_init l slider_values = (λ i, (tab_name i, slider_values i)) <$> l.
Proof.
  unfold fin_sliders_init. induction l as [|i l IH] using rev_ind; [done|].
  intros [Hl [Hi _]]%NoDup_app. rewrite foldl_app, fmap_app, IH by done. cbn.
  apply dict_set_fresh. rewrite <-list_fmap_compose.
  intros (j & Hj%tab_name_inj & Hin)%list_elem_of_fmap. cbn in Hj. subst j.
  apply (Hi i); [done|]. by apply list_elem_of_singleton.
Qed.

Lemma get_states_lookup (k : string) (g : Z → string * list Z) (l : list Z) :
  Py.dict_get k (get_states (g <$> l))
  = (λ m, (g m).2) <$> last (filter (λ m, last_character (g m).1 = k) l).
Proof.
  unfold get_states. induction l as [|i l IH] using rev_ind; [done|].
  rewrite fmap_app, foldl_app, filter_app. cbn [fmap list_fmap foldl].
  destruct (g i) as [tab sliders] eqn:Eg. rewrite dict_get_set.
  rewrite filter_cons, filter_nil, Eg. cbn [fst].
  destruct (decide (k = last_character tab)) as [->|Hk].
  - rewrite decide_True by done. rewrite last_snoc. cbn. by rewrite Eg.
  - rewrite decide_False by done. by rewrite app_nil_r.
Qed.

Lemma get_states_by_digit (selected_vehicles : list Z)
  (slider_values : Z → list Z) (n : Z) :
  NoDup selected_vehicles →
  Py.dict_get (pretty (Z.abs n `mod` 10))
    (get_states (fin_sliders_init selected_vehicles slider_values))
  = slider_values
    <$> last (filter (λ m, Z.abs m `mod` 10 = Z.abs n `mod` 10)
                selected_vehicles).
Proof.
  intros Hl. rewrite fin_sliders_init_NoDup by done.
  rewrite <-last_character_tab_name, get_states_lookup. cbn.
  f_equal. f_equal. apply list_filter_iff. intros m. apply same_last_character.
Qed.

(** The states of the fin dialog are keyed by the last character of the tab
    name, which is the last decimal digit of the vehicle number. The entry
    under the digit of a vehicle holds the sliders of the last selected
    vehicle whose number ends in that digit, so of two selected vehicles
    that end in the same digit only the later one is kept. *)
Theorem fin_states_keyed_by_last_digit (selected_vehicles : list Z)
  (slider_values : Z → list Z) (n : Z) :
  NoDup selected_vehicles →
  last_character (tab_name n) = pretty (Z.abs n `mod` 10)
  ∧ Py.dict_get (pretty (Z.abs n `mod` 10))
      (get_states (fin_sliders_init selected_vehicles slider_values))
    = slider_values
      <$> last (filter (λ m, Z.abs m `mod` 10 = Z.abs n `mod` 10)
                  selected_vehicles)
  ∧ NoDup (get_states (fin_sliders_init selected_vehicles slider_values)).*1.
Proof.
  intros Hl.
  split_and!; [apply last_character_tab_name|by apply get_states_by_digit|].
  unfold get_states.
  apply (foldl_invariant (λ d : list (string * list Z), NoDup d.*1));
    [|apply NoDup_nil_2].
  intros d [tab sliders] _ Hd. by apply dict_set_NoDup.
Qed.

Lemma fin_states_keyed_by_last_digit_witness :
  Py.dict_get "2" (get_states (fin_sliders_init [2; 12] (λ i, [i; i; i])))
  = Some [12; 12; 12].
Proof.
  refine (proj1 (proj2
    (fin_states_keyed_by_last_digit [2; 12] (λ i, [i; i; i]) 2 _))).
  apply (bool_decide_unpack _). by vm_compute.
Defined.

Lemma foldl_dict_set_head (g : Z → string * list Z) (rest : list Z)
  (key : string) (states : list Z) (more : list (string * list Z)) :
  ∃ states' more',
    foldl (λ states '(tab_name, sliders),
             Py.dict_set (last_character tab_name) sliders states)
      ((key, states) :: more) (g <$> rest)
    = (key, states') :: more'.
Proof.
  revert states more.
  induction rest as [|m rest IH]; intros states more; [by eexists _, _|].
  cbn [fmap list_fmap foldl]. destruct (g m) as [tab sliders].
  cbn [Py.dict_set]. case_decide as Hkey; [rewrite <-Hkey|]; apply IH.
Qed.

Lemma get_states_items (selected_vehicles : list Z)
  (slider_values : Z → list Z) :
  NoDup selected_vehicles →
  let fin_states :=
    get_states (fin_sliders_init selected_vehicles slider_values) in
  NoDup fin_states.*1
  ∧ (∀ key states, (key, states) ∈ fin_states →
       ∃ n, n ∈ selected_vehicles ∧ key = pretty (Z.abs n `mod` 10)
            ∧ states = slider_values n)
  ∧ (∀ n rest, selected_vehicles = n :: rest →
       ∃ states more,
         fin_states = (pretty (Z.abs n `mod` 10), states) :: more).
Proof.
  intros Hl fin_states. unfold fin_states.
  rewrite fin_sliders_init_NoDup by done. unfold get_states. split_and!.
  - apply (foldl_invariant (λ d : list (string * list Z), NoDup d.*1));
      [|apply NoDup_nil_2].
    intros d [tab sliders] _ Hd. by apply dict_set_NoDup.
  - apply (foldl_invariant
      (λ d : list (string * list Z), ∀ key states, (key, states) ∈ d →
         ∃ n, n ∈ selected_vehicles ∧ key = pretty (Z.abs n `mod` 10)
              ∧ states = slider_values n)).
    + intros d [tab sliders]
        (n & [= -> ->] & Hn)%list_elem_of_fmap Hd key states
        [[= -> ->]|Hin]%dict_set_elem; [|by eapply Hd].
      exists n. split_and!; [done|apply last_character_tab_name|done].
    + by intros key states ?%elem_of_nil.
  - intros n rest ->. cbn [fmap list_fmap foldl Py.dict_set].
    rewrite last_character_tab_name. apply foldl_dict_set_head.
Qed.

Lemma after_worker_item_actions
  (save_param_file_raises : string → list Z → option exn)
  (key : string) (states : list Z) (a : fin_action) :
  a ∈ (after_worker_item save_param_file_raises key states).1 →
  save_param_file_raises key states = None
  ∧ match a with
    | save_param_file key' states' => key' = key ∧ states' = states
    | set_single_parameter _ _ key' => key' = key
    | console_told _ vehicle => int_of_key key = Some vehicle
    end.
Proof.
  unfold after_worker_item.
  destruct (save_param_file_raises key states) as [e|];
    [by intros ?%elem_of_nil|].
  intros Ha. split; [done|]. revert Ha.
  repeat case_match; cbn; intros Ha;
    repeat (apply elem_of_cons in Ha as [Heq|Ha];
            [simplify_eq; by repeat split|]);
    by apply elem_of_nil in Ha.
Qed.

Lemma after_worker_actions
  (save_param_file_raises : string → list Z → option exn)
  (fin_states : list (string * list Z)) (a : fin_action) :
  a ∈ (after_worker_accepted save_param_file_raises fin_states).1 →
  ∃ key states, (key, states) ∈ fin_states
    ∧ a ∈ (after_worker_item save_param_file_raises key states).1.
Proof.
  induction fin_states as [|[key states] rest IH];
    cbn [after_worker_accepted fst]; [by intros ?%elem_of_nil|].
  destruct (after_worker_item save_param_file_raises key states)
    as [actions [e|]] eqn:E.
  - intros Ha. exists key, states. split; [by left|]. by rewrite E.
  - destruct (after_worker_accepted save_param_file_raises rest)
      as [more raised].
    intros [Ha|Ha]%elem_of_app.
    + exists key, states. split; [by left|]. by rewrite E.
    + destruct (IH Ha) as (key' & states' & ? & ?).
      exists key', states'. split; [by right|done].
Qed.

Lemma after_worker_complete
  (save_param_file_raises : string → list Z → option exn)
  (fin_states : list (string * list Z)) :
  (∀ key states, (key, states) ∈ fin_states →
     save_param_file_raises key states = None ∧ length states = 3%nat
     ∧ is_Some (int_of_key key)) →
  (after_worker_accepted save_param_file_raises fin_states).2 = None
  ∧ ∀ key states vehicle,
      (key, states) ∈ fin_states → int_of_key key = Some vehicle →
      save_param_file key states
      ∈ (after_worker_accepted save_param_file_raises fin_states).1
      ∧ console_told "Fin Calibration Saved to Params" vehicle
        ∈ (after_worker_accepted save_param_file_raises fin_states).1.
Proof.
  induction fin_states as [|[key states] rest IH]; intros Hok.
  { split; [done|]. by intros ? ? ? ?%elem_of_nil. }
  destruct (Hok key states) as (Hsave & Hlen & [vehicle Hint]); [by left|].
  destruct states as [|top_fin [|right_fin [|left_fin [|]]]]; try done.
  destruct IH as [Hnone Hall]; [intros; apply Hok; by right|].
  cbn [after_worker_accepted]. unfold after_worker_item.
  rewrite Hsave, Hint. cbn [lookup list_lookup].
  destruct (after_worker_accepted save_param_file_raises rest)
    as [more raised].
  cbn [fst snd] in *. split; [done|].
  intros key' states' vehicle' [[= -> ->]|Hin]%elem_of_cons Hint'.
  - assert (vehicle' = vehicle) as -> by congruence.
    split; apply elem_of_app; left; cbn; [by left|do 5 right; by left].
  - destruct (Hall key' states' vehicle' Hin Hint').
    split; apply elem_of_app; by right.
Qed.

Lemma after_worker_raised
  (save_param_file_raises : string → list Z → option exn)
  (fin_states : list (string * list Z)) (key : string) (states : list Z)
  (e : exn) :
  (key, states) ∈ fin_states → save_param_file_raises key states = Some e →
  (after_worker_accepted save_param_file_raises fin_states).2 ≠ None.
Proof.
  intros Hin He.
  induction fin_states as [|[key' states'] rest IH];
    [by apply elem_of_nil in Hin|].
  cbn [after_worker_accepted].
  destruct (after_worker_item save_param_file_raises key' states')
    as [actions [e'|]] eqn:E; [done|].
  apply elem_of_cons in Hin as [[= <- <-]|Hin].
  { unfold after_worker_item in E. by rewrite He in E. }
  destruct (after_worker_accepted save_param_file_raises rest)
    as [more raised]. cbn [snd] in *. by apply IH.
Qed.

(** After the fin dialog is accepted, the parameter file saved and the
    vehicle told about it are addressed by the last digit of a selected
    vehicle, never by the vehicle number itself when that has two digits or
    more. When every file of a digit can be saved, every selected vehicle
    has its digit addressed and the slot returns. When the file of a digit
    cannot be opened, the exception escapes the slot and the vehicle of
    that digit is not told about a saved calibration; when this is the
    digit of the first selected vehicle, nothing at all is done. *)
Theorem fin_calibration_addresses_last_digit
  (save_param_file_raises : string → list Z → option exn)
  (selected_vehicles : list Z) (slider_values : Z → list Z) :
  NoDup selected_vehicles →
  (∀ i, length (slider_values i) = 3%nat) →
  let result :=
    after_worker_accepted save_param_file_raises
      (get_states (fin_sliders_init selected_vehicles slider_values)) in
  (∀ message vehicle, console_told message vehicle ∈ result.1 →
     ∃ n, n ∈ selected_vehicles ∧ vehicle = Z.abs n `mod` 10)
  ∧ (∀ key states, save_param_file key states ∈ result.1 →
       save_param_file_raises key states = None
       ∧ ∃ n, n ∈ selected_vehicles ∧ key = pretty (Z.abs n `mod` 10)
              ∧ states = slider_values n)
  ∧ ((∀ n states, n ∈ selected_vehicles →
        save_param_file_raises (pretty (Z.abs n `mod` 10)) states = None) →
       result.2 = None
       ∧ ∀ n, n ∈ selected_vehicles →
           console_told "Fin Calibration Saved to Params" (Z.abs n `mod` 10)
           ∈ result.1
           ∧ ∃ m, m ∈ selected_vehicles
               ∧ Z.abs m `mod` 10 = Z.abs n `mod` 10
               ∧ save_param_file (pretty (Z.abs n `mod` 10)) (slider_values m)
                 ∈ result.1)
  ∧ (∀ n e, n ∈ selected_vehicles →
       (∀ states,
          save_param_file_raises (pretty (Z.abs n `mod` 10)) states = Some e) →
       result.2 ≠ None
       ∧ ∀ message, console_told message (Z.abs n `mod` 10) ∉ result.1)
  ∧ (∀ n rest e, selected_vehicles = n :: rest →
       (∀ states,
          save_param_file_raises (pretty (Z.abs n `mod` 10)) states = Some e) →
       result = ([], Some e)).
Proof.
  intros Hl Hlen result.
  destruct (get_states_items selected_vehicles slider_values Hl)
    as (Hnd & Hkeys & Hfirst).
  assert (∀ n, 0 ≤ Z.abs n `mod` 10 < 10) as Hdigit
    by (intros n; apply Z.mod_pos_bound; lia).
  assert (∀ n, n ∈ selected_vehicles →
            ∃ m, m ∈ selected_vehicles
              ∧ Z.abs m `mod` 10 = Z.abs n `mod` 10
              ∧ (pretty (Z.abs n `mod` 10), slider_values m)
                ∈ get_states
                    (fin_sliders_init selected_vehicles slider_values))
    as Hitem.
  { intros n Hn.
    pose proof (get_states_by_digit selected_vehicles slider_values n Hl)
      as Hget.
    destruct (last (filter (λ m, Z.abs m `mod` 10 = Z.abs n `mod` 10)
                      selected_vehicles)) as [m|] eqn:Hm.
    - apply dict_get_Some in Hget.
      apply last_Some in Hm as [l' Hm].
      assert (m ∈ filter (λ m, Z.abs m `mod` 10 = Z.abs n `mod` 10)
                    selected_vehicles) as Hin
        by (rewrite Hm; apply elem_of_app; right; by left).
      apply list_elem_of_filter in Hin as [? ?]. by exists m.
    - apply last_None in Hm.
      assert (n ∈ filter (λ m, Z.abs m `mod` 10 = Z.abs n `mod` 10)
                    selected_vehicles) as Hin
        by by apply list_elem_of_filter.
      rewrite Hm in Hin. by apply elem_of_nil in Hin. }
  split_and!.
  - intros message vehicle
      (key & states & Hin & [_ Hint]%after_worker_item_actions)
        %after_worker_actions.
    destruct (Hkeys key states Hin) as (n & Hn & -> & _).
    exists n. split; [done|]. rewrite int_of_key_digit in Hint by done.
    congruence.
  - intros key' states'
      (key & states & Hin & [Hsave [-> ->]]%after_worker_item_actions)
        %after_worker_actions.
    split; [done|]. by apply Hkeys.
  - intros Hsave.
    destruct (after_worker_complete save_param_file_raises
                (get_states
                   (fin_sliders_init selected_vehicles slider_values)))
      as [Hnone Hall].
    { intros key states Hin.
      destruct (Hkeys key states Hin) as (n & Hn & -> & ->).
      split_and!; [by apply Hsave|apply Hlen|].
      rewrite int_of_key_digit by done. by eexists. }
    split; [done|]. intros n Hn.
    destruct (Hitem n Hn) as (m & Hm & Heq & Hin).
    destruct (Hall _ _ (Z.abs n `mod` 10) Hin) as [? ?];
      [by apply int_of_key_digit|].
    split; [done|]. by exists m.
  - intros n e Hn Hraise.
    destruct (Hitem n Hn) as (m & Hm & Heq & Hin).
    split; [by eapply after_worker_raised|].
    intros message
      (key & states & Hin' & [Hsave Hint]%after_worker_item_actions)
        %after_worker_actions.
    destruct (Hkeys key states Hin') as (n' & Hn' & -> & ->).
    rewrite int_of_key_digit in Hint by done.
    injection Hint as Hint. rewrite Hint in Hsave.
    rewrite Hraise in Hsave. done.
  - intros n rest e Hsel Hraise.
    destruct (Hfirst n rest Hsel) as (states & more & Hstates).
    unfold result. rewrite Hstates.
    cbn [after_worker_accepted]. unfold after_worker_item.
    by rewrite Hraise.
Qed.

(** Vehicle 12 alone is selected and the file of vehicle 2 does not exist:
    the slot raises and nothing is saved or told. *)
Lemma fin_calibration_addresses_last_digit_witness :
  after_worker_accepted
    (λ key _, if String.eqb key "2" then Some (OSError "coug2_params.yaml")
              else None)
    (get_states (fin_sliders_init [12] (λ i, [i; i; i])))
  = ([], Some (OSError "coug2_params.yaml")).
Proof.
  refine (proj2 (proj2 (proj2 (proj2
    (fin_calibration_addresses_last_digit
       (λ key _, if String.eqb key "2"
                 then Some (OSError "coug2_params.yaml") else None)
       [12] (λ i, [i; i; i]) _ _)))) 12 [] (OSError "coug2_params.yaml")
    eq_refl _).
  - apply NoDup_singleton.
  - done.
  - done.
Defined.


(** ** What each handler may touch *)

Lemma touches_only_labels_then keys w w1 w2 :
  only_labels w w1 → touches keys w1 w2 → touches keys w w2.
Proof. intros H1 H2. etrans; [by apply only_labels_touches|done]. Qed.

Lemma scalar_telemetry_touches float_str v x w :
  touches ["Depth"] w (state_of (update_depth_data float_str v x w))
  ∧ touches ["Pressure"] w (state_of (update_pressure_data float_str v x w))
  ∧ touches ["Battery"] w (state_of (update_battery_data float_str v x w)).
Proof.
  unfold update_depth_data, update_pressure_data, update_battery_data.
  split_and!; touches_step; touches_step.
Qed.

Definition connection_keys : list string :=
  ["Radio"; "Modem"; "Radio_seconds"; "Modem_seconds"].

Lemma update_connection_status_touches conn_message conn_type item w :
  touches connection_keys w
    (state_of (update_connection_status conn_message
                 (if conn_type : bool then "Radio" else "Modem") item w)).
Proof.
  destruct item as [i v]. unfold update_connection_status.
  destruct (feedback_dict w !! _); [|reflexivity].
  case_bool_decide; [reflexivity|].
  destruct (connections conn_message !! i); [|reflexivity].
  apply and_then_frame; [apply _| |intros w1 _].
  { apply feedback_set_touches. destruct conn_type; elem_of_literal. }
  apply and_then_frame; [apply _| |intros w2 _].
  - case_bool_decide; [apply replace_general_icon_touches|reflexivity].
  - case_bool_decide; [apply replace_specific_icon_touches|reflexivity].
Qed.

Lemma update_connection_seconds_touches conn_message conn_type item w :
  touches connection_keys w
    (state_of (update_connection_seconds conn_message
                 (if conn_type : bool then "Radio_seconds" else "Modem_seconds")
                 conn_type item w)).
Proof.
  destruct item as [i v]. unfold update_connection_seconds.
  case_bool_decide; [|reflexivity].
  destruct (last_ping conn_message !! i); [|reflexivity].
  apply and_then_frame; [apply _| |intros w1 _].
  { apply feedback_set_touches. destruct conn_type; elem_of_literal. }
  unfold pure. cbn [state_of].
  repeat case_match; try reflexivity; apply with_widgets_touches.
Qed.

Lemma foldl_frame_from {A} (R : relation MainWindow) `{!PreOrder R}
  (f : MainWindow → A → MainWindow) (l : list A) w w0 :
  R w w0 → (∀ w x, R w (f w x)) → R w (foldl f w0 l).
Proof. intros H0 Hf. etrans; [exact H0|by apply foldl_frame]. Qed.

Lemma update_connections_touches conn_message w :
  touches connection_keys w (_update_connections_gui conn_message w).
Proof.
  unfold _update_connections_gui. cbv zeta.
  apply foldl_frame_from; [apply _|apply foldl_frame; [apply _|]|];
    intros w1 item; (apply try_except_frame; [apply _| |reflexivity]).
  - apply update_connection_status_touches.
  - apply update_connection_seconds_touches.
Qed.

Lemma emergency_buttons_trace v confirmed w :
  (∃ w1, only_labels w w1
     ∧ emergency_shutdown_button v confirmed w
       = if confirmed then ros_send (cli_call_async v) w1 else w1)
  ∧ (∃ w1, only_labels w w1
       ∧ emergency_surface_button v confirmed w
         = if confirmed then ros_send (cli2_call_async v) w1 else w1).
Proof.
  unfold emergency_shutdown_button, emergency_surface_button.
  split; destruct confirmed; cbv zeta; eexists; (split; [|reflexivity]);
    (etrans; [apply replace_confirm_only_labels
             |apply update_console_only_labels]).
Qed.

Lemma set_color_theme_touches color_theme first_time w :
  touches [] w (set_color_theme color_theme first_time w).
Proof.
  pose proof (set_color_theme_content color_theme first_time w) as Hc.
  unfold content in Hc. injection Hc; intros.
  apply touches_same_trace; try done. intros. congruence.
Qed.

Lemma resizeEvent_touches new_width w : touches [] w (resizeEvent new_width w).
Proof. by apply touches_same_trace. Qed.

Section deploy_frames.
Variable yaml_load : string → option mission_data.
Variable deploy_raises : option exn.

Lemma load_mission_files_only_labels selected_files items loc w :
  match load_mission_files yaml_load selected_files items loc w with
  | Loaded _ w' => only_labels w w'
  | Failed _ w' => only_labels w w'
  end.
Proof.
  revert loc w. induction items as [|[idx v] items IH]; intros loc w;
    [cbn; reflexivity|].
  cbn [load_mission_files].
  assert (match load_mission_file yaml_load selected_files idx v loc w with
          | Loaded _ w' => only_labels w w'
          | Failed _ w' => only_labels w w'
          end) as Hone.
  { unfold load_mission_file.
    repeat (case_match; simplify_eq; try reflexivity);
      repeat (first [ reflexivity | apply warn_only_labels
                    | etrans; [apply warn_only_labels|] ]). }
  destruct (load_mission_file _ _ _ _ _ _) as [loc1 w1|e w1]; [|done].
  specialize (IH loc1 w1).
  destruct (load_mission_files _ _ _ _ _); by etrans.
Qed.

Lemma publish_paths_step_touches loc w :
  touches [] w (publish_paths_step loc w).
Proof.
  unfold publish_paths_step.
  destruct (spec_paths_dict loc) as [|p paths];
    [apply only_labels_touches, warn_all_only_labels|].
  apply foldl_frame; [apply _|]. intros w1 [num path_msg].
  by apply ros_send_touches.
Qed.

Lemma deploy_in_thread_touches selected_files w :
  touches [] w (deploy_in_thread yaml_load deploy_raises selected_files w).
Proof.
  unfold deploy_in_thread. cbv zeta.
  pose proof (load_mission_files_only_labels selected_files
    (zip (seq 0 (length (selected_vehicles w))) (selected_vehicles w))
    (mk_mission_locals [] [] None) w) as Hload.
  assert (∀ e w1, touches [] w1
            (console_update_all ("Mission loading failed: " +:+ exn_str e)
               (replace_confirm_reject_label
                  ("Mission loading failed: " +:+ exn_str e) w1))) as Hfail.
  { intros e w1.
    eapply touches_only_labels_then; [apply replace_confirm_only_labels|].
    apply only_labels_touches, console_update_all_only_labels. }
  destruct (load_mission_files _ _ _ _ _) as [loc w1|e w1];
    (eapply touches_only_labels_then; [exact Hload|]); [|apply Hfail].
  apply try_except_frame; [apply _| |apply Hfail].
  apply and_then_frame; [apply _| |intros w2 _].
  { unfold publish_origin_step. destruct (origins loc); [reflexivity|].
    destruct (forallb _ _).
    - destruct (origin_vars loc); [|reflexivity].
      cbn [state_of]. by apply ros_send_touches.
    - apply only_labels_touches, warn_all_only_labels. }
  apply and_then_frame; [apply _| |intros w3 _].
  { apply publish_paths_step_touches. }
  unfold deploy_step.
  destruct deploy_raises; cbn [state_of].
  - by apply ros_send_touches.
  - trans (ros_send (deploy_main (selected_vehicles w3) selected_files) w3);
      [by apply ros_send_touches|].
    apply only_labels_touches, replace_confirm_only_labels.
Qed.

Lemma load_missions_button_touches dialog w :
  touches [] w (load_missions_button yaml_load deploy_raises dialog w).
Proof.
  unfold load_missions_button. cbv zeta.
  eapply touches_only_labels_then; [apply replace_confirm_only_labels|].
  eapply touches_only_labels_then; [apply console_update_all_only_labels|].
  destruct dialog; [apply deploy_in_thread_touches|].
  apply only_labels_touches, warn_all_only_labels.
Qed.

End deploy_frames.


(** ** A vehicle the configuration does not know *)

(** No recorded address stands for [v]. *)
Definition unprobed (v : Z) (w : MainWindow) : Prop :=
  ∀ ip, ip_to_vehicle w !! ip ≠ Some v.

Definition wifi_of (v : Z) (w : MainWindow)
  : gmap string Z * option value * list bool :=
  (ip_to_vehicle w, feedback_get "Wifi" v w, modem_requests v (ros_node w)).

(** [spares v w w']: when no address stands for [v] in [w], the addresses,
    the Wifi entry of [v] and the modem requests sent for [v] are the same
    in [w']. *)
Definition spares (v : Z) (w w' : MainWindow) : Prop :=
  unprobed v w → wifi_of v w' = wifi_of v w.

#[local] Instance spares_preorder v : PreOrder (spares v).
Proof.
  split; [by intros w _|].
  intros w1 w2 w3 H12 H23 Hun. specialize (H12 Hun).
  rewrite <-H12. apply H23. intros ip.
  assert (ip_to_vehicle w2 = ip_to_vehicle w1) as -> by by injection H12.
  apply Hun.
Qed.

Lemma touches_spares keys v w w' :
  "Wifi" ∉ keys → touches keys w w' → spares v w w'.
Proof.
  intros Hk Ht _. pose proof (touches_modem_requests _ _ _ v Ht) as M.
  destruct Ht as (_ & I & _ & _ & F). unfold wifi_of, feedback_get.
  by rewrite I, M, F.
Qed.

Lemma update_wifi_item_spares v item w :
  spares v w (state_of (update_wifi_item item w)).
Proof.
  intros Hun. destruct item as [ip reachable]. unfold update_wifi_item.
  destruct (ip_to_vehicle w !! ip) as [u|] eqn:Eu; [|done].
  assert (u ≠ v) as Hu by (intros ->; by apply (Hun ip)).
  destruct (feedback_get "Wifi" u w); [|done].
  destruct (ne_int _ _); [|done].
  set (R := λ w w' : MainWindow, wifi_of v w' = wifi_of v w).
  assert (PreOrder R) as HR.
  { split; [done|]. intros w1 w2 w3 H12 H23. unfold R in *. congruence. }
  assert (∀ keys w w', "Wifi" ∉ keys → touches keys w w' → R w w') as Ht.
  { intros keys w1 w2 Hk Ht'.
    pose proof (touches_modem_requests _ _ _ v Ht') as M.
    destruct Ht' as (_ & I & _ & _ & F). unfold R, wifi_of, feedback_get.
    by rewrite I, M, F. }
  change (R w (state_of ((pure (recieve_console_update
                                  (ping_message reachable u) u)
     >> feedback_set "Wifi" u (VInt reachable)
     >> replace_general_page_icon_widget u "Wifi"
     >> replace_specific_icon_widget u "Wifi"
     >> pure (modem_shut_off_service (negb (reachable =? 0)) u)) w))).
  apply and_then_frame; [done| |intros w1 _].
  { apply (Ht []); [apply not_elem_of_nil|].
    apply only_labels_touches, update_console_only_labels. }
  apply and_then_frame; [done| |intros w2 _].
  { unfold feedback_set. destruct (feedback_dict w1 !! "Wifi") as [d|] eqn:Ed;
      [|done].
    unfold R, wifi_of, feedback_get. cbn. rewrite lookup_insert_eq, Ed. cbn.
    by rewrite lookup_insert_ne. }
  apply and_then_frame; [done| |intros w3 _].
  { apply (Ht []); [apply not_elem_of_nil|apply replace_general_icon_touches]. }
  apply and_then_frame; [done| |intros w4 _].
  { apply (Ht []); [apply not_elem_of_nil|apply replace_specific_icon_touches]. }
  unfold pure. cbn [state_of].
  destruct (modem_shut_off_service_spec (negb (reachable =? 0)) u w4)
    as (w5 & H5 & ->).
  trans w5.
  { apply (Ht []); [apply not_elem_of_nil|by apply only_labels_touches]. }
  assert (modem_requests v [cli3_call_async (negb (reachable =? 0)) u] = [])
    as Hnone by (cbn; by rewrite bool_decide_eq_false_2).
  unfold R, wifi_of, feedback_get, ros_send.
  cbn [ros_node ip_to_vehicle feedback_dict].
  by rewrite modem_requests_app, Hnone, app_nil_r.
Qed.

Lemma ping_vehicles_via_wifi_spares v ping w :
  spares v w (ping_vehicles_via_wifi ping w).
Proof.
  unfold ping_vehicles_via_wifi, update_wifi_widgets.
  apply try_except_frame; [apply _| |reflexivity].
  apply for_each_frame; [apply _|]. intros item w1.
  apply update_wifi_item_spares.
Qed.

Ltac not_elem_of_literal := apply (bool_decide_unpack _); vm_compute; exact I.

Lemma step_spares float_str quat2euler degrees_mod_360 float_pow v ev w :
  spares v w
    (state_of (step float_str quat2euler degrees_mod_360 float_pow ev w)).
Proof.
  destruct ev; cbn [step]; unfold pure; cbn [state_of].
  - apply ping_vehicles_via_wifi_spares.
  - apply (touches_spares []); [apply not_elem_of_nil|].
    apply only_labels_touches, handle_console_log_only_labels.
  - eapply touches_spares; [|apply safety_status_touches].
    not_elem_of_literal.
  - eapply touches_spares; [|apply smoothed_output_touches].
    not_elem_of_literal.
  - eapply touches_spares;
      [|apply (proj1 (scalar_telemetry_touches _ _ _ _))].
    not_elem_of_literal.
  - eapply touches_spares;
      [|apply (proj1 (proj2 (scalar_telemetry_touches _ _ _ _)))].
    not_elem_of_literal.
  - eapply touches_spares;
      [|apply (proj2 (proj2 (scalar_telemetry_touches _ _ _ _)))].
    not_elem_of_literal.
  - eapply touches_spares; [|apply update_connections_touches].
    not_elem_of_literal.
  - apply (touches_spares []); [apply not_elem_of_nil|].
    apply only_labels_touches, console_update_all_only_labels.
  - apply (touches_spares []); [apply not_elem_of_nil|].
    apply only_labels_touches, console_update_all_only_labels.
  - apply (touches_spares []); [apply not_elem_of_nil|].
    apply only_labels_touches, handle_service_response_only_labels.
  - apply (touches_spares []); [apply not_elem_of_nil|].
    apply set_color_theme_touches.
  - apply (touches_spares []); [apply not_elem_of_nil|].
    apply resizeEvent_touches.
  - destruct (proj1 (emergency_buttons_trace vehicle_number confirmed w))
      as (w1 & Hl & ->).
    etrans; [apply (touches_spares []);
             [apply not_elem_of_nil|by apply only_labels_touches]|].
    destruct confirmed; [|reflexivity]. intros _.
    unfold wifi_of, feedback_get, ros_send.
    cbn [ros_node ip_to_vehicle feedback_dict].
    by rewrite modem_requests_app, app_nil_r.
  - destruct (proj2 (emergency_buttons_trace vehicle_number confirmed w))
      as (w1 & Hl & ->).
    etrans; [apply (touches_spares []);
             [apply not_elem_of_nil|by apply only_labels_touches]|].
    destruct confirmed; [|reflexivity]. intros _.
    unfold wifi_of, feedback_get, ros_send.
    cbn [ros_node ip_to_vehicle feedback_dict].
    by rewrite modem_requests_app, app_nil_r.
  - apply (touches_spares []); [apply not_elem_of_nil|].
    apply load_missions_button_touches.
Qed.

(** A selected vehicle that the configuration file does not list gets no
    address at start-up. Whatever the session then brings (timer ticks with
    any ping results, telemetry, service completions, operator actions), its
    Wifi entry stays at the initial 2, no modem request is ever sent for it,
    and no address ever stands for it. *)
Theorem unconfigured_vehicle_is_never_probed (float_str : float → string)
  (quat2euler : float * float * float * float → float * float * float)
  (degrees_mod_360 : float → float) (float_pow : float → Z → exn + float)
  (vehicle_list : list Z) (vehicles : gmap string vehicle_config) (v : Z)
  (events : list event) :
  v ∈ vehicle_list → vehicles !! pretty v = None →
  let w0 := MainWindow_init vehicle_list vehicles in
  let w' := state_of (run float_str quat2euler degrees_mod_360 float_pow
                        events w0) in
  unprobed v w0
  ∧ unprobed v w'
  ∧ feedback_get "Wifi" v w' = Some (VInt 2)
  ∧ modem_requests v (ros_node w') = [].
Proof.
  intros Hv Hnone w0 w'.
  destruct (MainWindow_init_frame vehicle_list vehicles) as [Hframe Hips].
  fold w0 in Hframe, Hips.
  assert (unprobed v w0) as Hun.
  { intros ip Hip. destruct Hips as [Hips _].
    destruct (Hips ip v Hip) as (_ & entry & Hentry & _). congruence. }
  assert (feedback_get "Wifi" v w0 = Some (VInt 2)) as Hwifi.
  { unfold feedback_get. rewrite (labels_and_ips_feedback Hframe). cbn.
    rewrite feedback_dict_init_lookup.
    rewrite bool_decide_eq_true_2 by elem_of_literal. cbn.
    by apply dict_comprehension_lookup. }
  assert (ros_node w0 = []) as Hros
    by by rewrite (labels_and_ips_ros Hframe).
  assert (spares v w0 w') as Hsp.
  { unfold w', run. apply for_each_frame; [apply _|]. intros ev w.
    apply step_spares. }
  specialize (Hsp Hun). injection Hsp as Hip' Hwifi' Hros'.
  split_and!; [done| | |].
  - intros ip. rewrite Hip'. apply Hun.
  - by rewrite Hwifi'.
  - by rewrite Hros', Hros.
Qed.

Lemma unconfigured_vehicle_is_never_probed_witness :
  let w' := state_of (run (λ _, "") (λ _, (0, 0, 0)%float) id
                        (λ x _, inr (PrimFloat.mul x x))
                        [ping_timer_timeout (λ _, true);
                         connections_update (mkConnections true [2] [true] [0]);
                         ping_timer_timeout (λ _, false)]
                        (MainWindow_init [1; 2] example_config)) in
  feedback_get "Wifi" 2 w' = Some (VInt 2)
  ∧ modem_requests 2 (ros_node w') = [].
Proof.
  refine (proj2 (proj2
    (unconfigured_vehicle_is_never_probed (λ _, "") (λ _, (0, 0, 0)%float) id
       (λ x _, inr (PrimFloat.mul x x))
       [1; 2] example_config 2
       [ping_timer_timeout (λ _, true);
        connections_update (mkConnections true [2] [true] [0]);
        ping_timer_timeout (λ _, false)] _ _))).
  - apply (bool_decide_unpack _). by vm_compute.
  - by vm_compute.
Defined.


(** ** Addresses and console at start-up *)

(** The address the configuration gives a vehicle. *)
Definition configured_host (vehicles : gmap string vehicle_config) (num : Z)
  : option string :=
  remote_host <$> vehicles !! pretty num.

Lemma get_IP_addresses_fold vehicles (l : list Z) w :
  let w' := foldl (λ w num,
              match vehicles !! pretty num with
              | Some entry =>
                  with_IPs (Vehicle_IP_addresses w ++ [remote_host entry])
                    (<[remote_host entry := num]> (ip_to_vehicle w)) w
              | None => recieve_console_update (config_error num) num w
              end) w l in
  Vehicle_IP_addresses w'
  = Vehicle_IP_addresses w ++ omap (configured_host vehicles) l
  ∧ ∀ ip, ip_to_vehicle w' !! ip
          = match last (filter (λ num, configured_host vehicles num = Some ip) l)
            with
            | Some num => Some num
            | None => ip_to_vehicle w !! ip
            end.
Proof.
  induction l as [|num l IH] using rev_ind; [by rewrite app_nil_r|].
  cbv zeta in *. rewrite foldl_app. cbn [foldl].
  destruct IH as [IHa IHm]. rewrite omap_app.
  set (wl := foldl _ w l) in *.
  destruct (vehicles !! pretty num) as [entry|] eqn:E.
  - assert (configured_host vehicles num = Some (remote_host entry)) as Hc
      by (unfold configured_host; by rewrite E).
    cbn [Vehicle_IP_addresses ip_to_vehicle with_IPs]. split.
    + rewrite IHa, <-app_assoc. cbn. by rewrite Hc.
    + intros ip. rewrite filter_app, filter_cons, filter_nil, Hc.
      destruct (decide (remote_host entry = ip)) as [<-|Hne].
      * rewrite lookup_insert_eq, decide_True by done. by rewrite last_snoc.
      * rewrite lookup_insert_ne, decide_False by congruence.
        rewrite app_nil_r. apply IHm.
  - assert (configured_host vehicles num = None) as Hc
      by (unfold configured_host; by rewrite E).
    assert (only_labels wl (recieve_console_update (config_error num) num wl))
      as Hol by apply update_console_only_labels.
    rewrite (only_labels_addresses Hol). split.
    + rewrite IHa. cbn. by rewrite Hc, app_nil_r.
    + intros ip. rewrite (only_labels_ip Hol), filter_app, filter_cons,
        filter_nil, Hc.
      rewrite decide_False by done. rewrite app_nil_r. apply IHm.
Qed.

(** The addresses recorded at start-up are those the configuration gives
    the selected vehicles, in the order of the selection, and an address
    stands for the last selected vehicle that is configured with it: of two
    vehicles configured with one host only the later one is probed. Nothing
    else of the window changes but console logs. *)
Theorem get_IP_addresses_records (vehicles : gmap string vehicle_config)
  (w : MainWindow) :
  let w' := get_IP_addresses vehicles w in
  Vehicle_IP_addresses w'
  = omap (configured_host vehicles) (selected_vehicles w)
  ∧ (∀ ip, ip_to_vehicle w' !! ip
           = last (filter (λ num, configured_host vehicles num = Some ip)
                     (selected_vehicles w)))
  ∧ selected_vehicles w' = selected_vehicles w
  ∧ feedback_dict w' = feedback_dict w
  ∧ ros_node w' = ros_node w.
Proof.
  intros w'.
  destruct (get_IP_addresses_fold vehicles (selected_vehicles w)
              (with_IPs [] ∅ w)) as [Ha Hm].
  destruct (get_IP_addresses_spec vehicles w) as [Hl _].
  split_and!.
  - exact Ha.
  - intros ip. unfold w', get_IP_addresses. rewrite (Hm ip).
    by destruct (last _).
  - exact (labels_and_ips_selected Hl).
  - exact (labels_and_ips_feedback Hl).
  - exact (labels_and_ips_ros Hl).
Qed.


(** The line [__init__] ends the start-up with. *)
Definition ip_summary (ips : list string) : string :=
  "These are the Vehicle IP Addresses that were both selected and in the "
  +:+ "config.json: " +:+ Py.repr_list ips.

Lemma initial_console_blank (vehicle_list : list Z) (u : Z) :
  u ∈ vehicle_list → console_text u (window_built vehicle_list) = Some "".
Proof.
  intros Hu.
  destruct (initial_widgets_spec vehicle_list) as (_ & _ & _ & CM).
  apply CM in Hu as [lab Hlab].
  unfold console_text.
  change (widgets (window_built vehicle_list))
    with (initial_widgets vehicle_list).
  rewrite Hlab. cbn. f_equal.
  cut (lab = new_label "" ""); [by intros ->|].
  revert Hlab. generalize (console_name u). revert lab.
  unfold initial_widgets. cbv zeta.
  apply (foldl_invariant
    (λ g, ∀ lab name, console_messages g !! name = Some lab →
            lab = new_label "" "")); [|done].
  intros g [name vehicle] Hin Hg lab name'.
  apply elem_of_cons in Hin as [[= -> ->]|Hin].
  - destruct (create_general_tab_spec
                (theme_colors "dark_mode" empty_theme)
                (feedback_dict_init vehicle_list) vehicle_list g) as [-> _].
    apply Hg.
  - apply list_elem_of_fmap in Hin as (i & [= -> ->] & _).
    destruct (create_vehicle_tab_spec
                (theme_colors "dark_mode" empty_theme)
                (feedback_dict_init vehicle_list) vehicle_list (tab_name i) i g)
      as (_ & _ & _ & ->).
    intros [[_ <-]|[_ Hold]]%lookup_insert_Some; [done|by eapply Hg].
Qed.

Lemma get_IP_addresses_console vehicles (l : list Z) w u :
  NoDup l → 0 ∉ l →
  console_text u
    (foldl (λ w num,
              match vehicles !! pretty num with
              | Some entry =>
                  with_IPs (Vehicle_IP_addresses w ++ [remote_host entry])
                    (<[remote_host entry := num]> (ip_to_vehicle w)) w
              | None => recieve_console_update (config_error num) num w
              end) w l)
  = if bool_decide (u ∈ l ∧ configured_host vehicles u = None)
    then with_line (config_error u) <$> console_text u w
    else console_text u w.
Proof.
  revert w. induction l as [|a l IH]; intros w Hl H0.
  { cbn. rewrite bool_decide_eq_false_2; [done|]. by intros [?%elem_of_nil _]. }
  apply NoDup_cons in Hl as [Ha Hl].
  apply not_elem_of_cons in H0 as [Ha0 H0].
  cbn [foldl]. rewrite IH by done.
  destruct (vehicles !! pretty a) as [entry|] eqn:E.
  - change (console_text u (with_IPs _ _ w)) with (console_text u w).
    assert (configured_host vehicles a = Some (remote_host entry)) as Hc
      by (unfold configured_host; by rewrite E).
    rewrite (bool_decide_ext (u ∈ l ∧ configured_host vehicles u = None)
               (u ∈ a :: l ∧ configured_host vehicles u = None)); [done|].
    split; intros [Hin Hnone]; (split; [|done]).
    + by right.
    + apply elem_of_cons in Hin as [->|?]; [congruence|done].
  - assert (configured_host vehicles a = None) as Hc
      by (unfold configured_host; by rewrite E).
    assert (recieve_console_update (config_error a) a w
            = console_write (config_error a) a w) as ->.
    { unfold recieve_console_update, _update_console_gui.
      by rewrite bool_decide_eq_false_2 by done. }
    rewrite console_write_text.
    destruct (decide (u = a)) as [->|Hne].
    + rewrite bool_decide_eq_false_2 by (by intros [? _]).
      rewrite bool_decide_eq_true_2; [done|]. split; [by left|done].
    + rewrite (bool_decide_ext (u ∈ l ∧ configured_host vehicles u = None)
                 (u ∈ a :: l ∧ configured_host vehicles u = None)); [done|].
      split; intros [Hin Hnone]; (split; [|done]).
      * by right.
      * by apply elem_of_cons in Hin as [->|?].
Qed.

(** What a console log shows when the window opens, for a selection without
    repetition and without a vehicle numbered 0: the log of a vehicle the
    configuration lists holds the summary of the recorded addresses, and
    the log of a vehicle it does not list holds the error line of that
    vehicle followed by the summary. The summary prints the list of
    addresses as Python does, each address quoted and escaped by [repr]. *)
Theorem init_console_reports_configuration (vehicle_list : list Z)
  (vehicles : gmap string vehicle_config) (u : Z) :
  NoDup vehicle_list → 0 ∉ vehicle_list → u ∈ vehicle_list →
  let summary := ip_summary (omap (configured_host vehicles) vehicle_list) in
  console_text u (MainWindow_init vehicle_list vehicles)
  = Some (match configured_host vehicles u with
          | Some _ => summary
          | None => config_error u +:+ Py.newline +:+ summary
          end).
Proof.
  intros Hl H0 Hu summary.
  unfold MainWindow_init.
  change (mkMainWindow _ _ _ _ _ _ _ _) with (window_built vehicle_list).
  cbv zeta.
  destruct (get_IP_addresses_spec vehicles (window_built vehicle_list))
    as [Hframe _].
  destruct (get_IP_addresses_fold vehicles vehicle_list
              (with_IPs [] ∅ (window_built vehicle_list))) as [Haddr _].
  pose proof (get_IP_addresses_console vehicles vehicle_list
                (with_IPs [] ∅ (window_built vehicle_list)) u Hl H0) as Hcon.
  change (foldl _ (with_IPs [] ∅ (window_built vehicle_list)) vehicle_list)
    with (get_IP_addresses vehicles (window_built vehicle_list))
    in Haddr, Hcon.
  change (console_text u (with_IPs [] ∅ (window_built vehicle_list)))
    with (console_text u (window_built vehicle_list)) in Hcon.
  rewrite initial_console_blank in Hcon by done.
  set (w1 := get_IP_addresses vehicles (window_built vehicle_list)) in *.
  assert (selected_vehicles w1 = vehicle_list) as Hsel
    by exact (labels_and_ips_selected Hframe).
  rewrite Haddr. cbn [app]. fold (ip_summary (omap (configured_host vehicles)
                                                vehicle_list)).
  fold summary.
  unfold recieve_console_update, _update_console_gui.
  rewrite bool_decide_eq_true_2 by done.
  rewrite fold_console_write_text, Hsel, count_occ_NoDup_1 by done.
  rewrite Hcon.
  destruct (configured_host vehicles u) as [host|] eqn:Ec.
  - rewrite bool_decide_eq_false_2 by (by intros [_ ?]). done.
  - rewrite bool_decide_eq_true_2 by done. cbn. by f_equal.
Qed.

(** A configuration whose hosts need quoting: an apostrophe makes [repr]
    use double quotes, and a backslash is doubled. *)
Definition quoted_config : gmap string vehicle_config :=
  {["1" := mk_vehicle_config "host's" "frostlab" "~/config" "params.yaml";
    "2" := mk_vehicle_config "a\b" "frostlab" "~/config" "params.yaml"]}.

Lemma init_console_reports_configuration_witness :
  let double_quote := String (ascii_of_nat 34) EmptyString in
  console_text 1 (MainWindow_init [1; 2] quoted_config)
  = Some ("These are the Vehicle IP Addresses that were both selected and "
          +:+ "in the config.json: [" +:+ double_quote +:+ "host's"
          +:+ double_quote +:+ ", 'a\\b']").
Proof.
  intros double_quote.
  etrans.
  - refine (init_console_reports_configuration [1; 2] quoted_config 1 _ _ _);
      apply (bool_decide_unpack _); by vm_compute.
  - vm_compute. reflexivity.
Defined.


(** ** Mission loading *)

Section deploy_facts.
Variable yaml_load : string → option mission_data.
Variable deploy_raises : option exn.
Variable selected_files : list string.

(** The mission file of the vehicle at position [idx] of the selection. *)
Definition mission_at (idx : nat) : option mission_data :=
  (selected_files !! idx : option string) ≫= yaml_load.

(** The file at [idx] can be read and each of its way-points has a
    position. *)
Definition loads (idx : nat) : Prop :=
  ∃ mission, mission_at idx = Some mission
             ∧ is_Some (extract_path (waypoints mission)).

Lemma load_mission_file_spec idx v loc w mission path :
  mission_at idx = Some mission →
  extract_path (waypoints mission) = Some path →
  ∃ loc' w',
    load_mission_file yaml_load selected_files idx v loc w = Loaded loc' w'
    ∧ only_labels w w'
    ∧ origins loc'
      = origins loc ++ match origin_lla mission with
                       | Some (Some lat, Some long) => [(lat, long)]
                       | _ => []
                       end
    ∧ spec_paths_dict loc'
      = match waypoints mission with
        | [] => spec_paths_dict loc
        | _ => Py.dict_set v path (spec_paths_dict loc)
        end
    ∧ origin_vars loc'
      = match origin_lla mission with
        | Some origin => Some origin
        | None => origin_vars loc
        end.
Proof.
  unfold mission_at, load_mission_file. intros Hm Hp.
  destruct (selected_files !! idx) as [file|]; [|done]. cbn in Hm.
  rewrite Hm.
  destruct (origin_lla mission) as [[[lat|] [long|]]|];
    destruct (waypoints mission) as [|wp wps] eqn:Ew;
    rewrite ?Hp; eexists _, _; (split; [done|]);
    cbn [origins spec_paths_dict origin_vars];
    rewrite ?app_nil_r; (split; [|done]);
    repeat (first [ reflexivity | apply warn_only_labels
                  | etrans; [apply warn_only_labels|] ]).
Qed.

Lemma load_mission_files_spec (items : list (nat * Z)) loc w :
  NoDup items.*2 → (∀ idx v, (idx, v) ∈ items → loads idx) →
  ∃ loc' w',
    load_mission_files yaml_load selected_files items loc w = Loaded loc' w'
    ∧ only_labels w w'
    ∧ (∀ o, o ∈ origins loc → o ∈ origins loc')
    ∧ (origins loc = [] ∨ is_Some (origin_vars loc) →
       origins loc' = [] ∨ is_Some (origin_vars loc'))
    ∧ (∀ o, o ∈ origins loc' →
         o ∈ origins loc
         ∨ ∃ idx v mission, (idx, v) ∈ items ∧ mission_at idx = Some mission
             ∧ origin_lla mission = Some (Some o.1, Some o.2))
    ∧ origin_vars loc'
      = match last (omap (λ item, mission_at item.1 ≫= origin_lla) items) with
        | Some origin => Some origin
        | None => origin_vars loc
        end
    ∧ (∀ idx v mission lat long, (idx, v) ∈ items →
         mission_at idx = Some mission →
         origin_lla mission = Some (Some lat, Some long) →
         (lat, long) ∈ origins loc')
    ∧ (∀ idx v mission path, (idx, v) ∈ items →
         mission_at idx = Some mission → waypoints mission ≠ [] →
         extract_path (waypoints mission) = Some path →
         Py.dict_get v (spec_paths_dict loc') = Some path)
    ∧ (∀ v, v ∉ items.*2 →
         Py.dict_get v (spec_paths_dict loc')
         = Py.dict_get v (spec_paths_dict loc)).
Proof.
  revert loc w. induction items as [|[idx v] items IH]; intros loc w Hnd Hall.
  { exists loc, w. split_and!; try done.
    - intros o Ho. by left.
    - by intros ????? ?%elem_of_nil.
    - by intros ???? ?%elem_of_nil. }
  cbn in Hnd. apply NoDup_cons in Hnd as [Hv Hnd].
  destruct (Hall idx v) as (mission & Hm & path & Hp); [by left|].
  destruct (load_mission_file_spec idx v loc w mission path Hm Hp)
    as (loc1 & w1 & E1 & L1 & O1 & P1 & V1).
  destruct (IH loc1 w1 Hnd)
    as (loc' & w' & E & L & Osub & Ovar & Ofrom & Olast & Oin & Pin & Pout).
  { intros idx' v' Hin. apply (Hall idx' v'). by right. }
  exists loc', w'. cbn [load_mission_files]. rewrite E1.
  split_and!; [done|by etrans| | | | | | |].
  - intros o Ho. apply Osub. rewrite O1. apply elem_of_app. by left.
  - intros Hloc. apply Ovar. rewrite O1, V1.
    destruct (origin_lla mission) as [[[lat|] [long|]]|];
      rewrite ?app_nil_r; try (right; by eexists); done.
  - intros o Ho. destruct (Ofrom o Ho) as [Ho1|(idx' & v' & m' & Hin & Hm' & Ho')].
    + rewrite O1 in Ho1. apply elem_of_app in Ho1 as [?|Ho1]; [by left|].
      right. exists idx, v, mission. split_and!; [by left|done|].
      destruct (origin_lla mission) as [[[lat|] [long|]]|];
        try (by apply elem_of_nil in Ho1).
      by apply list_elem_of_singleton in Ho1 as ->.
    + right. exists idx', v', m'. split_and!; [by right|done..].
  - rewrite Olast, V1. cbn [omap list_omap fst]. rewrite Hm. cbn.
    destruct (origin_lla mission) as [origin|]; [|done].
    rewrite last_cons. by destruct (last _).
  - intros idx' v' mission' lat long [[= -> ->]|Hin]%elem_of_cons Hm' Ho.
    + apply Osub. rewrite O1. apply elem_of_app. right.
      assert (mission' = mission) as -> by congruence.
      rewrite Ho. by left.
    + by eapply Oin.
  - intros idx' v' mission' path' [[= -> ->]|Hin]%elem_of_cons Hm' Hw Hp'.
    + assert (mission' = mission) as -> by congruence.
      rewrite Pout by done. rewrite P1.
      destruct (waypoints mission); [done|].
      rewrite dict_get_set, decide_True by done. congruence.
    + by eapply Pin.
  - intros v' Hv'. cbn in Hv'. apply not_elem_of_cons in Hv' as [Hne Hv'].
    rewrite Pout by done. rewrite P1.
    destruct (waypoints mission); [done|].
    by rewrite dict_get_set, decide_False.
Qed.

Lemma try_except_and_then (a b : action) handler w :
  try_except (a >> b) handler w
  = match a w with
    | Ok w1 => try_except b handler w1
    | Raise e w1 => handler e w1
    end.
Proof. unfold try_except, and_then. by destruct (a w). Qed.

Definition path_call (p : Z * list (Qc * Qc)) : ros_call :=
  publish_path p.2 p.1.

Lemma publish_paths_step_trace loc w :
  ros_node (publish_paths_step loc w)
  = ros_node w ++ (path_call <$> spec_paths_dict loc)
  ∧ selected_vehicles (publish_paths_step loc w) = selected_vehicles w.
Proof.
  unfold publish_paths_step.
  destruct (spec_paths_dict loc) as [|p paths] eqn:Ep.
  { rewrite (only_labels_ros (warn_all_only_labels _ w)),
      (only_labels_selected (warn_all_only_labels _ w)).
    by rewrite app_nil_r. }
  generalize (p :: paths). clear. intros l. revert w.
  induction l as [|[num path_msg] l IH]; intros w;
    [by rewrite app_nil_r|].
  cbn [foldl]. destruct (IH (ros_send (publish_path path_msg num) w))
    as [-> ->].
  cbn. by rewrite <-app_assoc.
Qed.

Lemma filter_publish_origin_paths (d : list (Z * list (Qc * Qc))) :
  filter is_publish_origin (path_call <$> d) = [].
Proof. induction d as [|p d IH]; [done|]. by rewrite fmap_cons, filter_cons. Qed.

(** The origin messages a successful load sends. *)
Definition origin_calls (loc : mission_locals) : list ros_call :=
  match origins loc with
  | [] => []
  | first_origin :: _ =>
      if forallb (λ origin, bool_decide (origin = first_origin)) (origins loc)
      then match origin_vars loc with
           | Some origin => [publish_origin origin]
           | None => []
           end
      else []
  end.

Definition items_of (w : MainWindow) : list (nat * Z) :=
  zip (seq 0 (length (selected_vehicles w))) (selected_vehicles w).

Lemma items_of_spec w :
  (∀ idx v, (idx, v) ∈ items_of w ↔ selected_vehicles w !! idx = Some v)
  ∧ (items_of w).*2 = selected_vehicles w
  ∧ (items_of w).*1 = seq 0 (length (selected_vehicles w)).
Proof.
  unfold items_of. split_and!.
  - intros idx v. split.
    + intros (i & Hi)%list_elem_of_lookup_1.
      apply lookup_zip_with_Some in Hi as (x & y & [= -> ->] & Hx & Hy).
      apply lookup_seq in Hx as [-> _]. done.
    + intros Hv. apply (list_elem_of_lookup_2 _ idx).
      apply lookup_zip_with_Some. exists idx, v. split_and!; [done| |done].
      apply lookup_seq. split; [done|]. by eapply lookup_lt_Some.
  - apply snd_zip. by rewrite length_seq.
  - apply fst_zip. by rewrite length_seq.
Qed.

(** The trace of [deploy_in_thread] when every file can be read. *)
Lemma deploy_in_thread_trace (w : MainWindow) :
  NoDup (selected_vehicles w) →
  (∀ idx v, selected_vehicles w !! idx = Some v → loads idx) →
  ∃ loc w1,
    load_mission_files yaml_load selected_files (items_of w)
      (mk_mission_locals [] [] None) w = Loaded loc w1
    ∧ ros_node (deploy_in_thread yaml_load deploy_raises selected_files w)
      = ros_node w ++ origin_calls loc
        ++ (path_call <$> spec_paths_dict loc)
        ++ [deploy_main (selected_vehicles w) selected_files].
Proof.
  intros Hnd Hall.
  destruct (items_of_spec w) as (Hitems & Hsnd & _).
  destruct (load_mission_files_spec (items_of w)
              (mk_mission_locals [] [] None) w)
    as (loc & w1 & E & L & _ & Ovar & _).
  { by rewrite Hsnd. }
  { intros idx v Hin. apply (Hall idx v). by apply Hitems. }
  exists loc, w1. split; [done|].
  set (failed := λ e w, console_update_all
                          ("Mission loading failed: " +:+ exn_str e)
                          (replace_confirm_reject_label
                             ("Mission loading failed: " +:+ exn_str e) w)).
  assert (deploy_in_thread yaml_load deploy_raises selected_files w
          = try_except
              (publish_origin_step loc >> pure (publish_paths_step loc)
               >> deploy_step deploy_raises selected_files) failed w1)
    as ->.
  { unfold deploy_in_thread. cbv zeta. fold (items_of w). by rewrite E. }
  assert (∀ e w2, ros_node (failed e w2) = ros_node w2) as Hfail.
  { intros e w2. unfold failed.
    rewrite (only_labels_ros (console_update_all_only_labels _ _)).
    by rewrite (only_labels_ros (replace_confirm_only_labels _ _)). }
  assert (∀ w2, selected_vehicles w2 = selected_vehicles w →
    ros_node (try_except (pure (publish_paths_step loc)
                          >> deploy_step deploy_raises selected_files)
                failed w2)
    = ros_node w2 ++ (path_call <$> spec_paths_dict loc)
      ++ [deploy_main (selected_vehicles w) selected_files]) as Htail.
  { intros w2 Hsel.
    destruct (publish_paths_step_trace loc w2) as [T1 T2].
    unfold try_except, and_then, pure, deploy_step. rewrite T2, Hsel.
    destruct deploy_raises; [rewrite Hfail|
      rewrite (only_labels_ros (replace_confirm_only_labels _ _))];
      cbn; by rewrite T1, <-app_assoc. }
  assert (selected_vehicles w1 = selected_vehicles w) as Hsel1
    by exact (only_labels_selected L).
  assert (ros_node w1 = ros_node w) as Hros1 by exact (only_labels_ros L).
  rewrite try_except_and_then. unfold publish_origin_step, origin_calls.
  destruct (origins loc) as [|first_origin rest] eqn:Eo.
  { rewrite <-Hros1. by apply Htail. }
  destruct (forallb _ _) eqn:Eall.
  - destruct (origin_vars loc) as [origin|].
    + rewrite (Htail (ros_send (publish_origin origin) w1)) by done.
      cbn. by rewrite Hros1, <-app_assoc.
    + destruct Ovar as [?|[? ?]]; [by left|done..].
  - rewrite (Htail (warn_all origin_warning w1)).
    + by rewrite (only_labels_ros (warn_all_only_labels _ _)), Hros1.
    + by rewrite (only_labels_selected (warn_all_only_labels _ _)).
Qed.

Lemma forallb_same_false (l : list (Qc * Qc)) first o1 o2 :
  o1 ∈ l → o2 ∈ l → o1 ≠ o2 →
  forallb (λ origin, bool_decide (origin = first)) l = false.
Proof.
  intros H1 H2 Hne. destruct (forallb _ l) eqn:Eall; [|done].
  rewrite forallb_forall in Eall.
  apply list_elem_of_In, Eall, bool_decide_eq_true in H1.
  apply list_elem_of_In, Eall, bool_decide_eq_true in H2. congruence.
Qed.

Lemma extract_path_positions (path : list (Qc * Qc)) :
  extract_path (Some <$> path) = Some path.
Proof.
  induction path as [|xy path IH]; [done|].
  cbn [fmap list_fmap extract_path]. by rewrite IH.
Qed.

(** Mission loading when every file can be read. When the way-points of a
    file all have a position, the list of these positions, in the order of
    the file, is published as the path of the vehicle at the position of
    the file, and the deployment is called, whatever the origins are. When
    two files have complete origins that differ, no origin is published. *)
Theorem differing_origins_publish_paths_only (w : MainWindow) :
  NoDup (selected_vehicles w) →
  (∀ idx v, selected_vehicles w !! idx = Some v → loads idx) →
  let w' := deploy_in_thread yaml_load deploy_raises selected_files w in
  (∀ idx v mission path,
     selected_vehicles w !! idx = Some v → mission_at idx = Some mission →
     path ≠ [] → waypoints mission = Some <$> path →
     publish_path path v ∈ ros_node w')
  ∧ deploy_main (selected_vehicles w) selected_files ∈ ros_node w'
  ∧ (∀ idx1 idx2 m1 m2 lat1 long1 lat2 long2,
       (idx1 < length (selected_vehicles w))%nat →
       (idx2 < length (selected_vehicles w))%nat →
       mission_at idx1 = Some m1 → mission_at idx2 = Some m2 →
       origin_lla m1 = Some (Some lat1, Some long1) →
       origin_lla m2 = Some (Some lat2, Some long2) →
       (lat1, long1) ≠ (lat2, long2) →
       filter is_publish_origin (ros_node w')
       = filter is_publish_origin (ros_node w)).
Proof.
  intros Hnd Hall w'.
  destruct (items_of_spec w) as (Hitems & Hsnd & _).
  destruct (deploy_in_thread_trace w Hnd Hall) as (loc & w1 & E & Htrace).
  destruct (load_mission_files_spec (items_of w)
              (mk_mission_locals [] [] None) w)
    as (loc' & w1' & E' & _ & _ & _ & _ & _ & Oin & Pin & _).
  { by rewrite Hsnd. }
  { intros idx v Hin. apply (Hall idx v). by apply Hitems. }
  rewrite E in E'. injection E' as <- <-.
  fold w' in Htrace. split_and!.
  - intros idx v mission path Hv Hm Hpath Hw.
    rewrite Htrace. apply elem_of_app. right. apply elem_of_app. right.
    apply elem_of_app. left.
    apply list_elem_of_fmap. exists (v, path). split; [done|].
    apply dict_get_Some. apply (Pin idx v mission); [by apply Hitems|done| |].
    + rewrite Hw. by destruct path.
    + rewrite Hw. apply extract_path_positions.
  - rewrite Htrace. apply elem_of_app. right. apply elem_of_app. right.
    apply elem_of_app. right. by left.
  - intros idx1 idx2 m1 m2 lat1 long1 lat2 long2 H1 H2 Hm1 Hm2 Ho1 Ho2 Hne.
    apply lookup_lt_is_Some in H1 as [v1 Hv1].
    apply lookup_lt_is_Some in H2 as [v2 Hv2].
    assert (origin_calls loc = []) as Hnone.
    { unfold origin_calls. destruct (origins loc) as [|first rest] eqn:Eo;
        [done|].
      rewrite (forallb_same_false _ first (lat1, long1) (lat2, long2));
        [done| | |done].
      - apply (Oin idx1 v1 m1); [by apply Hitems|done..].
      - apply (Oin idx2 v2 m2); [by apply Hitems|done..]. }
    rewrite Htrace, Hnone.
    rewrite !filter_app, filter_publish_origin_paths. cbn.
    by rewrite !app_nil_r.
Qed.

(** Mission loading when every file can be read and the complete origins
    of the files are all the same, one at least being complete: exactly one
    origin message is sent, and it carries the [origin_lla] section of the
    last file that has one, be it complete or not. *)
Theorem equal_origins_publish_last_section (w : MainWindow) :
  NoDup (selected_vehicles w) →
  (∀ idx v, selected_vehicles w !! idx = Some v → loads idx) →
  (∀ idx1 idx2 m1 m2 lat1 long1 lat2 long2,
     mission_at idx1 = Some m1 → mission_at idx2 = Some m2 →
     origin_lla m1 = Some (Some lat1, Some long1) →
     origin_lla m2 = Some (Some lat2, Some long2) →
     (lat1, long1) = (lat2, long2)) →
  (∃ idx m lat long, (idx < length (selected_vehicles w))%nat
     ∧ mission_at idx = Some m ∧ origin_lla m = Some (Some lat, Some long)) →
  let w' := deploy_in_thread yaml_load deploy_raises selected_files w in
  ∃ origin,
    last (omap (λ idx, mission_at idx ≫= origin_lla)
            (seq 0 (length (selected_vehicles w)))) = Some origin
    ∧ filter is_publish_origin (ros_node w')
      = filter is_publish_origin (ros_node w) ++ [publish_origin origin].
Proof.
  intros Hnd Hall Hsame (idx0 & m0 & lat0 & long0 & Hidx0 & Hm0 & Ho0) w'.
  destruct (items_of_spec w) as (Hitems & Hsnd & Hfst).
  destruct (deploy_in_thread_trace w Hnd Hall) as (loc & w1 & E & Htrace).
  destruct (load_mission_files_spec (items_of w)
              (mk_mission_locals [] [] None) w)
    as (loc' & w1' & E' & _ & _ & _ & Ofrom & Olast & Oin & _).
  { by rewrite Hsnd. }
  { intros idx v Hin. apply (Hall idx v). by apply Hitems. }
  rewrite E in E'. injection E' as <- <-.
  fold w' in Htrace.
  apply lookup_lt_is_Some in Hidx0 as [v0 Hv0].
  assert ((lat0, long0) ∈ origins loc) as Hin0
    by (apply (Oin idx0 v0 m0); [by apply Hitems|done..]).
  assert (omap (λ item : nat * Z, mission_at item.1 ≫= origin_lla) (items_of w)
          = omap (λ idx, mission_at idx ≫= origin_lla)
              (seq 0 (length (selected_vehicles w)))) as Hmap.
  { rewrite <-Hfst. generalize (items_of w). intros l.
    induction l as [|[i v] l IH]; [done|]. cbn. by rewrite IH. }
  rewrite Hmap in Olast. cbn [origin_vars] in Olast.
  assert (is_Some (last (omap (λ idx, mission_at idx ≫= origin_lla)
                           (seq 0 (length (selected_vehicles w))))))
    as [origin Horigin].
  { apply lookup_lt_Some in Hv0 as Hlt.
    destruct (last _) eqn:El; [by eexists|]. apply last_None in El.
    assert ((Some lat0, Some long0)
            ∈ omap (λ idx, mission_at idx ≫= origin_lla)
                (seq 0 (length (selected_vehicles w)))) as Hin.
    { apply list_elem_of_omap. exists idx0. split.
      - apply list_elem_of_lookup. exists idx0. by apply lookup_seq.
      - rewrite Hm0. done. }
    rewrite El in Hin. by apply elem_of_nil in Hin. }
  exists origin. split; [done|].
  rewrite Horigin in Olast.
  assert (origin_calls loc = [publish_origin origin]) as Hcalls.
  { unfold origin_calls. rewrite Olast.
    destruct (origins loc) as [|first rest] eqn:Eo;
      [by apply elem_of_nil in Hin0|].
    assert (forallb (λ o, bool_decide (o = first)) (first :: rest) = true)
      as ->; [|done].
    apply forallb_forall. intros o Ho%list_elem_of_In.
    apply bool_decide_eq_true.
    assert (∀ o, o ∈ first :: rest → o = (lat0, long0)) as Hall0.
    { intros [lat long] Ho'.
      destruct (Ofrom _ Ho') as [?%elem_of_nil|(idx & v & m & _ & Hm & Hom)];
        [done|].
      by apply (Hsame idx idx0 m m0 lat long lat0 long0). }
    rewrite (Hall0 o Ho). symmetry. apply Hall0. by left. }
  rewrite Htrace, Hcalls.
  rewrite !filter_app, filter_publish_origin_paths. cbn.
  by rewrite !app_nil_r.
Qed.

End deploy_facts.


(** Two mission files with origins that differ, the first with two
    way-points and the second with one. *)
Definition example_missions (file : string) : option mission_data :=
  if String.eqb file "a.yaml"
  then Some (mk_mission_data (Some (Some 0%Qc, Some 0%Qc))
               [Some (1%Qc, 1%Qc); Some (0%Qc, 1%Qc)])
  else if String.eqb file "b.yaml"
  then Some (mk_mission_data (Some (Some 1%Qc, Some 0%Qc)) [Some (0%Qc, 1%Qc)])
  else None.

Lemma differing_origins_publish_paths_only_witness :
  let w := MainWindow_init [1; 2] ∅ in
  let w' := deploy_in_thread example_missions None ["a.yaml"; "b.yaml"] w in
  publish_path [(1%Qc, 1%Qc); (0%Qc, 1%Qc)] 1 ∈ ros_node w'
  ∧ publish_path [(0%Qc, 1%Qc)] 2 ∈ ros_node w'
  ∧ filter is_publish_origin (ros_node w')
    = filter is_publish_origin (ros_node w).
Proof.
  intros w w'.
  assert (selected_vehicles w = [1; 2]) as Hsel
    by apply MainWindow_init_selected.
  destruct (differing_origins_publish_paths_only example_missions None
              ["a.yaml"; "b.yaml"] w) as (Hpath & _ & Horigin).
  - rewrite Hsel. apply (bool_decide_unpack _). by vm_compute.
  - rewrite Hsel. intros [|[|idx]] v Hv; [| |done];
      (eexists; split; [by vm_compute|by eexists]).
  - split_and!.
    + apply (Hpath 0%nat 1
               (mk_mission_data (Some (Some 0%Qc, Some 0%Qc))
                  [Some (1%Qc, 1%Qc); Some (0%Qc, 1%Qc)]));
        [by rewrite Hsel|by vm_compute|done|done].
    + apply (Hpath 1%nat 2
               (mk_mission_data (Some (Some 1%Qc, Some 0%Qc))
                  [Some (0%Qc, 1%Qc)]));
        [by rewrite Hsel|by vm_compute|done|done].
    + apply (Horigin 0%nat 1%nat
               (mk_mission_data (Some (Some 0%Qc, Some 0%Qc))
                  [Some (1%Qc, 1%Qc); Some (0%Qc, 1%Qc)])
               (mk_mission_data (Some (Some 1%Qc, Some 0%Qc))
                  [Some (0%Qc, 1%Qc)])
               0%Qc 0%Qc 1%Qc 0%Qc).
      * rewrite Hsel. cbn. lia.
      * rewrite Hsel. cbn. lia.
      * by vm_compute.
      * by vm_compute.
      * done.
      * done.
      * intros H. by inversion H.
Defined.

(** Two mission files of which the second has an origin without a
    latitude. *)
Definition example_missions_incomplete (file : string) : option mission_data :=
  if String.eqb file "a.yaml"
  then Some (mk_mission_data (Some (Some 0%Qc, Some 0%Qc)) [Some (1%Qc, 1%Qc)])
  else if String.eqb file "b.yaml"
  then Some (mk_mission_data (Some (None, Some 1%Qc)) [Some (0%Qc, 1%Qc)])
  else None.

Lemma equal_origins_publish_last_section_witness :
  let w := MainWindow_init [1; 2] ∅ in
  let w' := deploy_in_thread example_missions_incomplete None
              ["a.yaml"; "b.yaml"] w in
  filter is_publish_origin (ros_node w')
  = filter is_publish_origin (ros_node w)
    ++ [publish_origin (None, Some 1%Qc)].
Proof.
  intros w w'.
  assert (selected_vehicles w = [1; 2]) as Hsel
    by apply MainWindow_init_selected.
  destruct (equal_origins_publish_last_section example_missions_incomplete
              None ["a.yaml"; "b.yaml"] w) as (origin & Horigin & Htrace).
  - rewrite Hsel. apply (bool_decide_unpack _). by vm_compute.
  - rewrite Hsel. intros [|[|idx]] v Hv; [| |done];
      (eexists; split; [by vm_compute|by eexists]).
  - intros [|[|i1]] [|[|i2]] m1 m2 lat1 long1 lat2 long2;
      vm_compute; intros; by simplify_eq.
  - exists 0%nat, (mk_mission_data (Some (Some 0%Qc, Some 0%Qc))
                     [Some (1%Qc, 1%Qc)]), 0%Qc, 0%Qc.
    rewrite Hsel. split_and!; [cbn; lia|by vm_compute|done].
  - rewrite Hsel in Horigin. vm_compute in Horigin.
    injection Horigin as <-. exact Htrace.
Defined.


(** ** The timer tick of the wifi prober *)

Lemma do_ping_spec ping w :
  NoDup (do_ping ping w).*1
  ∧ Forall (λ item, item.2 = 0 ∨ item.2 = 1) (do_ping ping w)
  ∧ (∀ ip, ip ∈ Vehicle_IP_addresses w →
       (ip, if ping ip then 1 else 0) ∈ do_ping ping w).
Proof.
  unfold do_ping. generalize (Vehicle_IP_addresses w). intros l.
  induction l as [|ip l IH] using rev_ind.
  { split_and!; [apply NoDup_nil_2|done|by intros ? ?%elem_of_nil]. }
  rewrite foldl_app. cbn [foldl]. destruct IH as (ND & F & IN).
  set (d := foldl _ [] l) in *.
  split_and!.
  - by apply dict_set_NoDup.
  - apply Forall_forall. intros [ip' r'] Hin.
    apply dict_set_elem in Hin as [[= -> ->]|Hin].
    + destruct (ping ip); [by right|by left].
    + by apply (proj1 (Forall_forall _ _) F (ip', r')).
  - intros ip' Hip'.
    apply dict_get_Some. rewrite dict_get_set.
    destruct (decide (ip' = ip)) as [->|Hne]; [done|].
    apply dict_get_NoDup; [done|]. apply IN.
    apply elem_of_app in Hip' as [?|?%list_elem_of_singleton]; done.
Qed.

(** One tick of the prober on a window that is ready. The vehicle an
    address stands for gets the result of its ping as Wifi status, and a
    modem request is sent for it when that differs from what was stored:
    a shut-off when the vehicle answers and a power-on when it does not.
    A first result, stored over the initial 2, always differs. The window is
    ready for the next tick. *)
Theorem timer_tick_updates_wifi (ping : string → bool) (w : MainWindow)
  (ip : string) (v : Z) :
  wifi_ready w → ips_ok w →
  ip ∈ Vehicle_IP_addresses w → ip_to_vehicle w !! ip = Some v →
  let w' := ping_vehicles_via_wifi ping w in
  let reachable := if ping ip then 1 else 0 in
  (∃ stored, feedback_get "Wifi" v w = Some stored
     ∧ modem_requests v (ros_node w')
       = modem_requests v (ros_node w)
         ++ (if ne_int stored reachable then [ping ip] else []))
  ∧ feedback_get "Wifi" v w' = Some (VInt reachable)
  ∧ ne_int (VInt 2) reachable = true
  ∧ wifi_ready w' ∧ ips_ok w'.
Proof.
  intros Hready Hips Hip Hv w' reachable.
  destruct (do_ping_spec ping w) as (ND & F & IN).
  destruct (update_wifi_loop_spec (do_ping ping w) w Hready F)
    as (w1 & E & _ & _ & _ & Hone).
  assert (w' = w1) as Hw'.
  { unfold w', ping_vehicles_via_wifi, update_wifi_widgets, try_except.
    by rewrite E. }
  destruct (proj2 (Hone v) reachable) as (stored & Hst & Hnew & Hreq).
  { apply (reported_for_unique w _ ip); [done..|by apply IN|done]. }
  split_and!.
  - exists stored. split; [done|]. rewrite Hw', Hreq.
    destruct (ne_int stored reachable); [|done].
    unfold reachable. by destruct (ping ip).
  - by rewrite Hw'.
  - unfold reachable. by destruct (ping ip).
  - by apply update_wifi_widgets_ready.
  - by apply update_wifi_widgets_ready.
Qed.

Lemma timer_tick_updates_wifi_witness :
  let w := MainWindow_init [1; 2] example_config in
  feedback_get "Wifi" 1 (ping_vehicles_via_wifi (λ _, true) w)
  = Some (VInt 1).
Proof.
  intros w.
  refine (proj1 (proj2
    (timer_tick_updates_wifi (λ _, true) w "192.168.0.101" 1 _ _ _ _))).
  - apply wf_wifi_ready, MainWindow_init_wf.
  - apply MainWindow_init_wf.
  - apply (bool_decide_unpack _). by vm_compute.
  - by vm_compute.
Defined.


(** ** Emergency requests over a session *)

Definition is_emergency (c : ros_call) : bool :=
  match c with
  | cli_call_async _ | cli2_call_async _ => true
  | _ => false
  end.

(** The request a click sends: a shutdown or surface click that was
    confirmed sends the request of its button for its vehicle. *)
Definition emergency_click (ev : event) : list ros_call :=
  match ev with
  | shutdown_clicked vehicle_number true => [cli_call_async vehicle_number]
  | surface_clicked vehicle_number true => [cli2_call_async vehicle_number]
  | _ => []
  end.

Definition same_emergency (w w' : MainWindow) : Prop :=
  filter is_emergency (ros_node w') = filter is_emergency (ros_node w).

#[local] Instance same_emergency_preorder : PreOrder same_emergency.
Proof.
  split; [done|]. intros w1 w2 w3 H12 H23. unfold same_emergency in *.
  congruence.
Qed.

Lemma touches_same_emergency keys w w' :
  touches keys w w' → same_emergency w w'.
Proof.
  unfold same_emergency. intros (_ & _ & _ & (calls & -> & B) & _).
  rewrite filter_app.
  assert (filter is_emergency calls = []) as ->; [|by rewrite app_nil_r].
  induction B as [|c calls Hc B IH]; [done|].
  rewrite filter_cons, IH. by destruct c.
Qed.

Lemma update_wifi_item_same_emergency item w :
  same_emergency w (state_of (update_wifi_item item w)).
Proof.
  destruct item as [ip reachable]. unfold update_wifi_item.
  destruct (ip_to_vehicle w !! ip) as [u|]; [|done].
  destruct (feedback_get "Wifi" u w); [|done].
  destruct (ne_int _ _); [|done].
  change (same_emergency w (state_of ((pure (recieve_console_update
                                  (ping_message reachable u) u)
     >> feedback_set "Wifi" u (VInt reachable)
     >> replace_general_page_icon_widget u "Wifi"
     >> replace_specific_icon_widget u "Wifi"
     >> pure (modem_shut_off_service (negb (reachable =? 0)) u)) w))).
  apply and_then_frame; [apply _| |intros w1 _].
  { apply (touches_same_emergency []).
    apply only_labels_touches, update_console_only_labels. }
  apply and_then_frame; [apply _| |intros w2 _].
  { apply (touches_same_emergency ["Wifi"]).
    apply feedback_set_touches. by left. }
  apply and_then_frame; [apply _| |intros w3 _].
  { apply (touches_same_emergency []), replace_general_icon_touches. }
  apply and_then_frame; [apply _| |intros w4 _].
  { apply (touches_same_emergency []), replace_specific_icon_touches. }
  unfold pure. cbn [state_of].
  destruct (modem_shut_off_service_spec (negb (reachable =? 0)) u w4)
    as (w5 & H5 & ->).
  trans w5.
  { apply (touches_same_emergency []). by apply only_labels_touches. }
  unfold same_emergency, ros_send. cbn [ros_node].
  by rewrite filter_app, app_nil_r.
Qed.

Lemma step_emergency float_str quat2euler degrees_mod_360 float_pow ev w :
  filter is_emergency
    (ros_node
       (state_of (step float_str quat2euler degrees_mod_360 float_pow ev w)))
  = filter is_emergency (ros_node w) ++ emergency_click ev.
Proof.
  assert (∀ keys w', touches keys w w' →
            filter is_emergency (ros_node w')
            = filter is_emergency (ros_node w) ++ []) as Ht.
  { intros keys w' H. rewrite app_nil_r. by eapply touches_same_emergency. }
  destruct ev; cbn [step emergency_click]; unfold pure; cbn [state_of].
  - rewrite app_nil_r. unfold ping_vehicles_via_wifi, update_wifi_widgets.
    apply (try_except_frame same_emergency); [|reflexivity].
    apply for_each_frame; [apply _|]. intros item w1.
    apply update_wifi_item_same_emergency.
  - apply (Ht []), only_labels_touches, handle_console_log_only_labels.
  - eapply Ht, safety_status_touches.
  - eapply Ht, smoothed_output_touches.
  - eapply Ht, (proj1 (scalar_telemetry_touches _ _ _ _)).
  - eapply Ht, (proj1 (proj2 (scalar_telemetry_touches _ _ _ _))).
  - eapply Ht, (proj2 (proj2 (scalar_telemetry_touches _ _ _ _))).
  - eapply Ht, update_connections_touches.
  - apply (Ht []), only_labels_touches, console_update_all_only_labels.
  - apply (Ht []), only_labels_touches, console_update_all_only_labels.
  - apply (Ht []), only_labels_touches, handle_service_response_only_labels.
  - eapply Ht, set_color_theme_touches.
  - eapply Ht, resizeEvent_touches.
  - destruct (proj1 (emergency_buttons_trace vehicle_number confirmed w))
      as (w1 & Hl & ->).
    destruct confirmed; cbn [ros_node ros_send];
      rewrite ?filter_app, (only_labels_ros Hl); [done|by rewrite app_nil_r].
  - destruct (proj2 (emergency_buttons_trace vehicle_number confirmed w))
      as (w1 & Hl & ->).
    destruct confirmed; cbn [ros_node ros_send];
      rewrite ?filter_app, (only_labels_ros Hl); [done|by rewrite app_nil_r].
  - eapply Ht, load_missions_button_touches.
Qed.

(** Over a session the shutdown and surface requests sent are exactly those
    of the confirmed clicks, in their order and each for the vehicle of its
    click: no message, timer tick, service completion, theme switch or
    mission load sends one, and a declined click sends none. The events
    handled are all the events unless a handler raised, which ends the
    session. *)
Theorem emergency_requests_come_from_confirmed_clicks
  (float_str : float → string)
  (quat2euler : float * float * float * float → float * float * float)
  (degrees_mod_360 : float → float) (float_pow : float → Z → exn + float)
  (events : list event) (w : MainWindow) :
  let o := run float_str quat2euler degrees_mod_360 float_pow events w in
  ∃ handled,
    handled `prefix_of` events
    ∧ (∀ w', o = Ok w' → handled = events)
    ∧ filter is_emergency (ros_node (state_of o))
      = filter is_emergency (ros_node w) ++ (handled ≫= emergency_click).
Proof.
  cbv zeta. unfold run. revert w.
  induction events as [|ev events IH]; intros w.
  { exists []. split_and!; [done|done|by rewrite app_nil_r]. }
  cbn [for_each]. unfold and_then.
  pose proof (step_emergency float_str quat2euler degrees_mod_360 float_pow
                ev w)
    as Hstep.
  destruct (step float_str quat2euler degrees_mod_360 float_pow ev w)
    as [w1|e w1].
  - destruct (IH w1) as (handled & Hpre & Hall & Htrace).
    exists (ev :: handled). split_and!.
    + by apply prefix_cons.
    + intros w' Ho. f_equal. by eapply Hall.
    + rewrite Htrace. cbn [state_of] in Hstep. rewrite Hstep.
      cbn [mbind list_bind]. by rewrite <-app_assoc.
  - exists [ev]. split_and!.
    + by exists events.
    + done.
    + cbn [state_of] in *. rewrite Hstep. cbn. by rewrite app_nil_r.
Qed.


(** ** Button classes *)

(** A button carries the style of its class under the theme [t]: the
    danger style when its text mentions a recall, an emergency or the
    clearing of a console, the normal style otherwise. *)
Definition styled_by_class (t : ColorTheme) (b : QPushButton) : Prop :=
  button_styleSheet b
  = if is_danger_button b then danger_button_style_sheet t
    else normal_button_style_sheet t.

Lemma dict_set_not_nil {K V} `{EqDecision K} (k : K) (v : V) d :
  Py.dict_set k v d ≠ [].
Proof. destruct d as [|[k' v'] d]; cbn; [done|]. by case_decide. Qed.

Lemma add_button_styled t text style g :
  styled_by_class t (mkQPushButton text style) →
  Forall (styled_by_class t) (buttons g) →
  Forall (styled_by_class t) (buttons (add_button text style g)).
Proof. intros Hb Hg. cbn. apply Forall_app. split; [done|]. by apply Forall_singleton. Qed.

Lemma create_tab_styled t fd selected name vehicle g :
  Forall (styled_by_class t) (buttons g) →
  Forall (styled_by_class t) (buttons (create_tab t fd selected name vehicle g))
  ∧ tab_dict (create_tab t fd selected name vehicle g) ≠ [].
Proof.
  intros Hg. split; [|apply dict_set_not_nil].
  unfold create_tab. cbv zeta. cbn [buttons with_tab_dict].
  destruct vehicle as [vehicle_number|].
  - cbn. rewrite !Forall_app. split_and!; try done;
      by apply Forall_singleton.
  - unfold set_general_page_widgets. cbv zeta.
    apply (foldl_invariant (λ g, Forall (styled_by_class t) (buttons g))).
    { intros g1 v _ Hg1. unfold set_general_page_C1_widgets. by cbn. }
    unfold set_general_page_C0_widgets. cbv zeta.
    apply add_button_styled; [done|].
    apply (foldl_invariant (λ g, Forall (styled_by_class t) (buttons g))).
    { intros g1 text Htext Hg1. apply add_button_styled; [|done].
      revert text Htext. apply Forall_forall.
      repeat (apply Forall_cons; split; [done|]). apply Forall_nil_2. }
    cbn [buttons add_label with_anonymous_labels].
    apply (foldl_invariant (λ g, Forall (styled_by_class t) (buttons g)));
      [|done].
    intros g1 v _ Hg1. by cbn.
Qed.

Lemma apply_theme_to_tab_styled name w :
  theme (apply_theme_to_tab name w) = theme w
  ∧ Forall (styled_by_class (theme w))
      (buttons (widgets (apply_theme_to_tab name w)))
  ∧ tab_dict (widgets (apply_theme_to_tab name w)) ≠ [].
Proof.
  unfold apply_theme_to_tab. cbv zeta.
  set (w1 := with_widgets _ w).
  assert (theme (set_console_log_colors (text_color (theme w))
                   (background_color (theme w)) w1) = theme w
          ∧ tab_dict (widgets (set_console_log_colors (text_color (theme w))
                                 (background_color (theme w)) w1)) ≠ [])
    as [Ht Hd].
  { unfold set_console_log_colors.
    apply (foldl_invariant (λ w', theme w' = theme w
                                  ∧ tab_dict (widgets w') ≠ [])).
    - intros w2 v _ [Hw2 Hd2]. by repeat case_match.
    - split; [done|]. apply dict_set_not_nil. }
  cbn [theme widgets with_widgets buttons tab_dict].
  split_and!; [done| |done].
  apply Forall_fmap, Forall_true. intros b. by unfold styled_by_class.
Qed.

Lemma set_color_theme_styled color_theme w :
  tab_dict (widgets w) ≠ [] →
  let w' := set_color_theme color_theme false w in
  Forall (styled_by_class (theme w')) (buttons (widgets w'))
  ∧ tab_dict (widgets w') ≠ [].
Proof.
  intros Hd. unfold set_color_theme, apply_theme_to_widgets. cbv zeta.
  set (w1 := repaintTabs _ _).
  assert (tab_dict (widgets w1) = tab_dict (widgets w)) as Hd1 by done.
  destruct (tab_dict (widgets w1)).*1 as [|name names] eqn:En.
  { destruct (tab_dict (widgets w1)); [by rewrite <-Hd1 in Hd|done]. }
  cbn [foldl].
  cut (theme (foldl (λ w name, apply_theme_to_tab name w)
                (apply_theme_to_tab name w1) names) = theme w1
       ∧ Forall (styled_by_class (theme w1))
           (buttons (widgets (foldl (λ w name, apply_theme_to_tab name w)
                                (apply_theme_to_tab name w1) names)))
       ∧ tab_dict (widgets (foldl (λ w name, apply_theme_to_tab name w)
                              (apply_theme_to_tab name w1) names)) ≠ []).
  { intros (-> & ? & ?). done. }
  apply (foldl_invariant
           (λ w', theme w' = theme w1
                  ∧ Forall (styled_by_class (theme w1)) (buttons (widgets w'))
                  ∧ tab_dict (widgets w') ≠ [])).
  - intros w2 name2 _ (T2 & _ & _).
    destruct (apply_theme_to_tab_styled name2 w2) as (T3 & B3 & D3).
    rewrite T3, <-T2. done.
  - apply apply_theme_to_tab_styled.
Qed.

(** The buttons of the window carry the style of their class under the
    current theme, as the window is constructed and after any sequence of
    theme switches: the style a button was created with is the one its text
    gives it. *)
Theorem buttons_styled_by_class (vehicle_list : list Z)
  (vehicles : gmap string vehicle_config) (themes : list string) :
  let w := foldl (λ w color_theme, set_color_theme color_theme false w)
             (MainWindow_init vehicle_list vehicles) themes in
  Forall (styled_by_class (theme w)) (buttons (widgets w))
  ∧ button_text <$> buttons (widgets w)
    = button_text
      <$> buttons (widgets (MainWindow_init vehicle_list vehicles)).
Proof.
  cbv zeta.
  destruct (MainWindow_init_frame vehicle_list vehicles) as [Hframe _].
  assert (theme (MainWindow_init vehicle_list vehicles)
          = theme_colors "dark_mode" empty_theme
          ∧ buttons (widgets (MainWindow_init vehicle_list vehicles))
            = buttons (initial_widgets vehicle_list)
          ∧ tab_dict (widgets (MainWindow_init vehicle_list vehicles))
            = tab_dict (initial_widgets vehicle_list)) as (Ht0 & Hb0 & Hd0).
  { destruct Hframe as [-> _]. done. }
  assert (Forall (styled_by_class (theme_colors "dark_mode" empty_theme))
            (buttons (initial_widgets vehicle_list))
          ∧ tab_dict (initial_widgets vehicle_list) ≠ []) as [Hb Hd].
  { unfold initial_widgets. cbv zeta. cbn [foldl].
    apply (foldl_invariant
             (λ g, Forall (styled_by_class
                             (theme_colors "dark_mode" empty_theme)) (buttons g)
                   ∧ tab_dict g ≠ [])).
    - intros g [name vehicle] _ [Hg _]. by apply create_tab_styled.
    - by apply create_tab_styled. }
  split.
  - cut (Forall (styled_by_class
                   (theme (foldl (λ w c, set_color_theme c false w)
                             (MainWindow_init vehicle_list vehicles) themes)))
           (buttons (widgets (foldl (λ w c, set_color_theme c false w)
                                (MainWindow_init vehicle_list vehicles) themes)))
         ∧ tab_dict (widgets (foldl (λ w c, set_color_theme c false w)
                                (MainWindow_init vehicle_list vehicles) themes))
           ≠ []); [by intros [? _]|].
    apply (foldl_invariant
             (λ w, Forall (styled_by_class (theme w)) (buttons (widgets w))
                   ∧ tab_dict (widgets w) ≠ [])).
    + intros w color_theme _ [_ Hdw]. by apply set_color_theme_styled.
    + by rewrite Ht0, Hb0, Hd0.
  - apply (foldl_invariant
             (λ w, button_text <$> buttons (widgets w)
                   = button_text
                     <$> buttons (widgets (MainWindow_init vehicle_list
                                             vehicles)))); [|done].
    intros w color_theme _ <-.
    pose proof (set_color_theme_content color_theme false w) as Hc.
    unfold content in Hc. by injection Hc.
Qed.


(** ** Console clearing and recall buttons *)





Lemma replace_confirm_label_text (msg : string) (w : MainWindow)
  (tab : string) :
  text <$> confirm_reject_labels
             (widgets (replace_confirm_reject_label msg w)) !! tab
  = (λ _, msg) <$> confirm_reject_labels (widgets w) !! tab.
Proof.
  cbn. rewrite lookup_fmap.
  by destruct (confirm_reject_labels (widgets w) !! tab).
Qed.

Lemma console_update_confirm_labels (msg : string) (i : Z) (w : MainWindow) :
  confirm_reject_labels (widgets (recieve_console_update msg i w))
  = confirm_reject_labels (widgets w).
Proof.
  unfold recieve_console_update, _update_console_gui.
  generalize (if bool_decide (i = 0) then selected_vehicles w else [i]).
  intros l. revert w. induction l as [|v l IH]; intros w; [done|].
  cbn [foldl]. by rewrite IH.
Qed.

Lemma console_update_all_confirm_labels (msg : string) (w : MainWindow) :
  confirm_reject_labels (widgets (console_update_all msg w))
  = confirm_reject_labels (widgets w).
Proof.
  unfold console_update_all. generalize (selected_vehicles w). intros l.
  revert w. induction l as [|i l IH]; intros w; [done|].
  cbn [foldl]. by rewrite IH, console_update_confirm_labels.
Qed.

(** The recall buttons set the confirmation label of every tab and log a
    line, and nothing else: confirmed or not, no request is sent and the
    store is as it was. The general button logs its line for every
    selected vehicle, and the button of a tab for the one vehicle; when
    the recall of one vehicle is declined, the label does not name the
    vehicle and the logged line does. *)
Theorem recall_buttons_send_nothing (w : MainWindow) (vehicle_number : Z)
  (confirmed : bool) :
  console_ok w →
  ros_node (recall_vehicles confirmed w) = ros_node w
  ∧ ros_node (recall_spec_vehicle vehicle_number confirmed w) = ros_node w
  ∧ feedback_dict (recall_vehicles confirmed w) = feedback_dict w
  ∧ feedback_dict (recall_spec_vehicle vehicle_number confirmed w)
    = feedback_dict w
  ∧ console_routed
      (if confirmed then "Recalling the Vehicles..."
       else "Canceling Recall All Vehicles Command...") 0 w
      (recall_vehicles confirmed w)
  ∧ console_routed
      (if confirmed
       then "Recalling Vehicle " +:+ pretty vehicle_number +:+ "..."
       else "Canceling Recall Vehicle " +:+ pretty vehicle_number
            +:+ " Command...") vehicle_number w
      (recall_spec_vehicle vehicle_number confirmed w)
  ∧ (∀ tab,
       text <$> confirm_reject_labels
                  (widgets (recall_vehicles confirmed w)) !! tab
       = (λ _, if confirmed then "Recalling the Vehicles..."
               else "Canceling Recall All Vehicles Command...")
         <$> confirm_reject_labels (widgets w) !! tab)
  ∧ (∀ tab,
       text <$> confirm_reject_labels
                  (widgets (recall_spec_vehicle vehicle_number confirmed w))
                !! tab
       = (λ _, if confirmed
               then "Recalling Vehicle " +:+ pretty vehicle_number +:+ "..."
               else "Canceling Recall Vehicle Command...")
         <$> confirm_reject_labels (widgets w) !! tab).
Proof.
  intros Hok.
  assert (only_labels w (recall_vehicles confirmed w)) as Hall.
  { unfold recall_vehicles. destruct confirmed;
      (etrans; [apply replace_confirm_only_labels
               |apply console_update_all_only_labels]). }
  assert (only_labels w (recall_spec_vehicle vehicle_number confirmed w))
    as Hone.
  { unfold recall_spec_vehicle. destruct confirmed;
      (etrans; [apply replace_confirm_only_labels
               |apply update_console_only_labels]). }
  split_and!.
  - exact (only_labels_ros Hall).
  - exact (only_labels_ros Hone).
  - exact (only_labels_feedback Hall).
  - exact (only_labels_feedback Hone).
  - unfold recall_vehicles. destruct confirmed.
    + apply (console_routed_from _ _ _
               (replace_confirm_reject_label "Recalling the Vehicles..." w));
        [done|done|].
      apply (handle_console_log_routed _ 0). by apply (console_ok_from w).
    + apply (console_routed_from _ _ _
               (replace_confirm_reject_label
                  "Canceling Recall All Vehicles Command..." w));
        [done|done|].
      apply (handle_console_log_routed _ 0). by apply (console_ok_from w).
  - unfold recall_spec_vehicle. destruct confirmed.
    + apply (console_routed_from _ _ _
               (replace_confirm_reject_label
                  ("Recalling Vehicle " +:+ pretty vehicle_number +:+ "...")
                  w)); [done|done|].
      apply update_console_routed. by apply (console_ok_from w).
    + apply (console_routed_from _ _ _
               (replace_confirm_reject_label
                  "Canceling Recall Vehicle Command..." w)); [done|done|].
      apply update_console_routed. by apply (console_ok_from w).
  - intros tab. unfold recall_vehicles.
    destruct confirmed;
      by rewrite console_update_all_confirm_labels,
           replace_confirm_label_text.
  - intros tab. unfold recall_spec_vehicle.
    destruct confirmed;
      by rewrite console_update_confirm_labels, replace_confirm_label_text.
Qed.

(** The recall of vehicle 1 is declined in the window built for vehicles 1
    and 2: nothing is sent, the log of vehicle 1 gets the line that names
    the vehicle after its two start-up lines, and the label of its tab gets
    the line that does not. *)
Lemma recall_buttons_send_nothing_witness :
  let w := MainWindow_init [1; 2] ∅ in
  let line_feed := String (ascii_of_nat 10) EmptyString in
  ros_node (recall_spec_vehicle 1 false w) = ros_node w
  ∧ console_text 1 (recall_spec_vehicle 1 false w)
    = Some ("❌ Vehicle 1 not found in config, consider adding to config.json"
            +:+ line_feed
            +:+ "These are the Vehicle IP Addresses that were both selected "
            +:+ "and in the config.json: []" +:+ line_feed
            +:+ "Canceling Recall Vehicle 1 Command...")
  ∧ text <$> confirm_reject_labels (widgets (recall_spec_vehicle 1 false w))
             !! "Vehicle 1"
    = Some "Canceling Recall Vehicle Command...".
Proof.
  intros w line_feed.
  assert (console_ok w) as Hok by apply MainWindow_init_wf.
  assert (selected_vehicles w = [1; 2]) as Hsel
    by apply MainWindow_init_selected.
  assert (console_text 1 w
          = Some ("❌ Vehicle 1 not found in config, consider adding to "
                  +:+ "config.json" +:+ line_feed
                  +:+ "These are the Vehicle IP Addresses that were both "
                  +:+ "selected and in the config.json: []")) as Hold
    by (vm_compute; reflexivity).
  assert (∀ msg : string,
            (λ _, msg) <$> confirm_reject_labels (widgets w) !! "Vehicle 1"
            = Some msg) as Hlabel
    by (intros msg; vm_compute; reflexivity).
  clearbody w.
  destruct (recall_buttons_send_nothing w 1 false Hok)
    as (_ & Hros & _ & _ & _ & (_ & Hone & _) & _ & Htab).
  split_and!.
  - exact Hros.
  - destruct Hone as (old & Hold' & Hnew); [done|rewrite Hsel; by left|].
    rewrite Hnew. rewrite Hold in Hold'. injection Hold' as <-.
    vm_compute. reflexivity.
  - rewrite Htab. apply Hlabel.
Defined.


(** ** The vehicle selection dialog *)

Lemma remove_dups_length {A} `{EqDecision A} (l : list A) :
  (length (remove_dups l) ≤ length l)%nat
  ∧ (length (remove_dups l) = length l ↔ NoDup l).
Proof.
  induction l as [|x l [IHle IHeq]]; cbn.
  { split; [done|]. split; [intros _; apply NoDup_nil_2|done]. }
  destruct (decide_rel elem_of x l) as [Hin|Hin]; cbn.
  - split; [lia|]. split; [lia|]. by intros [? _]%NoDup_cons.
  - split; [lia|]. rewrite NoDup_cons. split.
    + intros [= H]. split; [done|]. by apply IHeq.
    + intros [_ H]. f_equal. by apply IHeq.
Qed.

Section selection.
Variable int : string → option Z.
Variable strip : string → string.
Variable last_word : string → option string.

Lemma get_states_text d value :
  ConfigurationWindow.Text value ∈ ConfigurationWindow.get_states int strip last_word d → int value = None.
Proof.
  unfold ConfigurationWindow.get_states. intros [Hin|Hin]%elem_of_app.
  - apply list_elem_of_bind in Hin as ([opt checked] & Hin & _).
    destruct checked; [|by apply elem_of_nil in Hin].
    destruct (last_word opt ≫= int); [|by apply elem_of_nil in Hin].
    by apply list_elem_of_singleton in Hin.
  - apply list_elem_of_bind in Hin as (text & Hin & _). cbv zeta in Hin.
    case_bool_decide; [by apply elem_of_nil in Hin|].
    destruct (int (strip text)) eqn:E;
      apply list_elem_of_singleton in Hin; by simplify_eq.
Qed.

Lemma check_entries flags (states : list ConfigurationWindow.entry) :
  foldl (ConfigurationWindow.check_entry int) flags states
  = (flags.1 && forallb (λ value, match ConfigurationWindow.int_of_entry int value with
                                  | Some _ => true
                                  | None => false
                                  end) states,
     flags.2 && forallb (λ value,
                   match ConfigurationWindow.int_of_entry int value with
                   | Some num =>
                       negb (bool_decide (ConfigurationWindow.HIGHEST_VEHICLE_LABEL < num ∨ num < 0))
                   | None => true
                   end) states).
Proof.
  revert flags. induction states as [|value states IH]; intros [a b].
  { cbn. by rewrite !andb_true_r. }
  cbn [foldl forallb]. rewrite IH. unfold ConfigurationWindow.check_entry.
  destruct (ConfigurationWindow.int_of_entry int value) as [num|]; cbn.
  - by destruct (bool_decide (ConfigurationWindow.HIGHEST_VEHICLE_LABEL < num ∨ num < 0)), b.
  - by rewrite andb_false_r.
Qed.

(** The dialog is accepted exactly when the selection it returns is a list
    of one to four different numbers, each from 0 to 999: a text that is no
    number, a repeated number, a number out of range, an empty or too long
    selection all keep the dialog open. *)
Theorem selection_accepted_iff_valid (d : ConfigurationWindow.t) :
  ConfigurationWindow.validate_and_accept int strip last_word d
  = ConfigurationWindow.Accepted
  ↔ ∃ vehicles : list Z,
      ConfigurationWindow.get_states int strip last_word d
      = ConfigurationWindow.Int <$> vehicles
      ∧ vehicles ≠ [] ∧ (length vehicles ≤ 4)%nat ∧ NoDup vehicles
      ∧ Forall (λ num, 0 ≤ num ≤ 999) vehicles.
Proof.
  unfold ConfigurationWindow.validate_and_accept. cbv zeta.
  pose proof (get_states_text d) as Htext.
  set (states := ConfigurationWindow.get_states int strip last_word d) in *.
  rewrite check_entries. cbn [fst snd andb].
  destruct (remove_dups_length states) as [_ Hdup].
  split.
  - repeat case_bool_decide; try done.
    destruct (forallb _ states) eqn:Ecustom; [|done].
    destruct (forallb _ states) eqn:Erange in |- *; [|done]. intros _.
    rewrite forallb_forall in Ecustom. rewrite forallb_forall in Erange.
    assert (∀ value, value ∈ states → ∃ num, value = ConfigurationWindow.Int num
                                             ∧ 0 ≤ num ≤ 999) as Hint.
    { intros value Hin.
      pose proof (Ecustom value (proj1 (list_elem_of_In _ _) Hin)) as Hc.
      pose proof (Erange value (proj1 (list_elem_of_In _ _) Hin)) as Hr.
      destruct value as [n|value].
      - exists n. split; [done|]. cbn in Hr.
        apply negb_true_iff, bool_decide_eq_false in Hr.
        unfold ConfigurationWindow.HIGHEST_VEHICLE_LABEL in Hr. lia.
      - cbn in Hc. by rewrite (Htext value Hin) in Hc. }
    assert (∃ vs, states = ConfigurationWindow.Int <$> vs) as [vs Hvs].
    { clear -Hint. induction states as [|value states IH]; [by exists []|].
      destruct (Hint value) as (num & -> & _); [by left|].
      destruct IH as [vs ->]; [intros v Hv; apply Hint; by right|].
      by exists (num :: vs). }
    exists vs. split; [done|]. clearbody states. subst states.
    split_and!.
    + by destruct vs.
    + rewrite length_fmap in *. unfold ConfigurationWindow.MAX_VEHICLES in *. lia.
    + apply (NoDup_fmap_1 ConfigurationWindow.Int). apply Hdup. by symmetry.
    + apply Forall_forall. intros num Hnum.
      destruct (Hint (ConfigurationWindow.Int num)) as (n & [= <-] & Hn); [|done].
      apply list_elem_of_fmap. by exists num.
  - intros (vs & Hvs & Hne & Hlen & Hnd & Hrange). rewrite Hvs in *.
    rewrite bool_decide_eq_false_2 by by destruct vs.
    rewrite bool_decide_eq_false_2
      by (rewrite length_fmap; unfold ConfigurationWindow.MAX_VEHICLES; lia).
    rewrite bool_decide_eq_false_2.
    2:{ intros Hlen'. apply Hlen'. symmetry. apply Hdup.
        assert (Inj (=) (=) ConfigurationWindow.Int) by (by intros ?? [=]).
        by apply (NoDup_fmap_2 ConfigurationWindow.Int). }
    assert (forallb (λ value, match ConfigurationWindow.int_of_entry int value with
                              | Some _ => true
                              | None => false
                              end) (ConfigurationWindow.Int <$> vs) = true) as ->.
    { apply forallb_forall.
      by intros value (n & -> & _)%list_elem_of_In%list_elem_of_fmap. }
    assert (forallb (λ value,
                   match ConfigurationWindow.int_of_entry int value with
                   | Some num =>
                       negb (bool_decide (ConfigurationWindow.HIGHEST_VEHICLE_LABEL < num ∨ num < 0))
                   | None => true
                   end) (ConfigurationWindow.Int <$> vs) = true) as ->; [|done].
    apply forallb_forall. intros value (n & -> & Hn)%list_elem_of_In%list_elem_of_fmap.
    cbn. apply negb_true_iff, bool_decide_eq_false.
    pose proof (proj1 (Forall_forall _ _) Hrange n Hn) as Hn'.
    cbn beta in Hn'. unfold ConfigurationWindow.HIGHEST_VEHICLE_LABEL. lia.
Qed.

End selection.

(** Whatever the operator does in the selection dialog, it never holds more
    than four custom inputs, and its check boxes are those it was created
    with. *)
Theorem custom_inputs_are_bounded (options : list string)
  (actions : list ConfigurationWindow.action) :
  let d := foldl ConfigurationWindow.act (ConfigurationWindow.init options)
             actions in
  (length (ConfigurationWindow.custom_inputs d) ≤ 4)%nat
  ∧ (ConfigurationWindow.checkboxes d).*1
    = (ConfigurationWindow.checkboxes (ConfigurationWindow.init options)).*1.
Proof.
  cbv zeta.
  apply (foldl_invariant
    (λ d, (length (ConfigurationWindow.custom_inputs d) ≤ 4)%nat
          ∧ (ConfigurationWindow.checkboxes d).*1
            = (ConfigurationWindow.checkboxes
                 (ConfigurationWindow.init options)).*1)).
  - intros d a _ [Hlen Hboxes]. rewrite <-Hboxes.
    destruct a as [opt| |index text];
      cbn [ConfigurationWindow.act ConfigurationWindow.checkboxes
             ConfigurationWindow.custom_inputs].
    + split; [done|]. rewrite <-list_fmap_compose.
      apply list_fmap_ext. intros i [name checked] _. cbn.
      by case_bool_decide.
    + unfold ConfigurationWindow.add_custom_input. cbv zeta.
      case_bool_decide as Hmax; [done|].
      cbn [ConfigurationWindow.checkboxes ConfigurationWindow.custom_inputs].
      split; [|done].
      rewrite length_app. cbn. unfold ConfigurationWindow.MAX_VEHICLES in Hmax.
      lia.
    + split; [|done]. by rewrite length_insert.
  - split; [cbn; lia|done].
Qed.


(** ** The mission file dialog *)

Lemma dict_get_is_Some {K V} `{EqDecision K} (k : K) (d : list (K * V)) :
  k ∈ d.*1 → is_Some (Py.dict_get k d).
Proof.
  induction d as [|[k1 v1] d IH]; cbn; [by intros ?%elem_of_nil|].
  intros [->|Hin]%elem_of_cons; case_decide; try done; by eauto.
Qed.

Lemma dict_set_values {K V} `{EqDecision K} (k : K) (v v' : V) d :
  v' ∈ (Py.dict_set k v d).*2 → v' = v ∨ v' ∈ d.*2.
Proof.
  intros ([k1 v1] & -> & Hin)%list_elem_of_fmap. cbn.
  apply dict_set_elem in Hin as [[= -> ->]|Hin]; [by left|right].
  apply list_elem_of_fmap. by exists (k1, v1).
Qed.

Section mission_dialog.
Variable basename : string → string.

(** What every session of the dialog keeps: the tabs, one chosen file at
    most per tab, chosen files for tabs only, and no empty path. *)
Definition dialog_ok (selected_vehicles : list Z) (d : LoadMissionsDialog.t)
  : Prop :=
  (LoadMissionsDialog.file_display_labels d).*1
  = (LoadMissionsDialog.file_display_labels
       (LoadMissionsDialog.init selected_vehicles)).*1
  ∧ NoDup (LoadMissionsDialog.selected_files d).*1
  ∧ (∀ tab, tab ∈ (LoadMissionsDialog.selected_files d).*1 →
       tab ∈ (LoadMissionsDialog.file_display_labels d).*1)
  ∧ Forall (λ file, file ≠ "") (LoadMissionsDialog.selected_files d).*2.

Lemma init_labels (l : list Z) :
  NoDup (LoadMissionsDialog.file_display_labels (LoadMissionsDialog.init l)).*1
  ∧ (∀ v, v ∈ l →
       tab_name v
       ∈ (LoadMissionsDialog.file_display_labels
            (LoadMissionsDialog.init l)).*1)
  ∧ (NoDup l →
       (LoadMissionsDialog.file_display_labels (LoadMissionsDialog.init l)).*1
       = tab_name <$> l).
Proof.
  unfold LoadMissionsDialog.init. cbn.
  induction l as [|v l (ND & IN & EQ)] using rev_ind.
  { split_and!; [apply NoDup_nil_2|by intros ? ?%elem_of_nil|done]. }
  rewrite foldl_app. cbn [foldl]. split_and!.
  - by apply dict_set_NoDup.
  - intros u Hu. rewrite dict_set_keys.
    apply elem_of_app in Hu as [Hu|Hu%list_elem_of_singleton].
    + case_decide; [by apply IN|]. apply elem_of_app. left. by apply IN.
    + subst u. case_decide; [done|]. apply elem_of_app. right. by left.
  - intros [Hl [Hv _]]%NoDup_app. rewrite fmap_app, <-EQ by done.
    rewrite dict_set_keys, decide_False; [done|].
    rewrite EQ by done. intros (u & Heq%tab_name_inj & Hu)%list_elem_of_fmap.
    subst u. apply (Hv v); [done|]. by left.
Qed.

Lemma choose_file_spec l tab file d :
  dialog_ok l d → tab ∈ (LoadMissionsDialog.file_display_labels d).*1 →
  file ≠ "" →
  ∃ d', LoadMissionsDialog.update_file_display basename tab
          (LoadMissionsDialog.mk
             (Py.dict_set tab file (LoadMissionsDialog.selected_files d))
             (LoadMissionsDialog.file_display_labels d))
        = LoadMissionsDialog.Returned d'
    ∧ LoadMissionsDialog.selected_files d'
      = Py.dict_set tab file (LoadMissionsDialog.selected_files d)
    ∧ (LoadMissionsDialog.file_display_labels d').*1
      = (LoadMissionsDialog.file_display_labels d).*1
    ∧ dialog_ok l d'.
Proof.
  intros (Hlab & Hnd & Hsub & Hne) Htab Hfile.
  unfold LoadMissionsDialog.update_file_display.
  cbn [LoadMissionsDialog.file_display_labels
         LoadMissionsDialog.selected_files].
  destruct (dict_get_is_Some tab _ Htab) as [text ->].
  eexists. split; [done|].
  cbn [LoadMissionsDialog.file_display_labels
         LoadMissionsDialog.selected_files].
  assert (∀ shown, (Py.dict_set tab shown
                     (LoadMissionsDialog.file_display_labels d)).*1
                  = (LoadMissionsDialog.file_display_labels d).*1) as Hkeys
    by (intros shown; by rewrite dict_set_keys, decide_True).
  split_and!; [done|by rewrite Hkeys|].
  unfold dialog_ok.
  cbn [LoadMissionsDialog.file_display_labels
         LoadMissionsDialog.selected_files].
  split_and!.
  - by rewrite Hkeys.
  - by apply dict_set_NoDup.
  - intros tab'. rewrite Hkeys, dict_set_keys.
    case_decide; [apply Hsub|].
    intros [?|Heq%list_elem_of_singleton]%elem_of_app; [by apply Hsub|].
    by subst tab'.
  - apply Forall_forall. intros file' [->|Hin]%dict_set_values; [done|].
    by apply (proj1 (Forall_forall _ _) Hne).
Qed.

Lemma act_spec l d a :
  dialog_ok l d →
  match a with
  | LoadMissionsDialog.browse v _ | LoadMissionsDialog.apply_all v _ => v ∈ l
  end →
  ∃ d', LoadMissionsDialog.act basename d a = LoadMissionsDialog.Returned d'
        ∧ dialog_ok l d'.
Proof.
  intros Hok Hv.
  pose proof (init_labels l) as (_ & Hin & _).
  destruct a as [v file|v confirmed]; cbn [LoadMissionsDialog.act].
  - unfold LoadMissionsDialog.browse_file.
    case_bool_decide as Hfile; [by exists d|].
    destruct (choose_file_spec l (tab_name v) file d) as (d' & -> & _ & _ & ?);
      [done| |done|by exists d'].
    destruct Hok as (-> & _). by apply Hin.
  - unfold LoadMissionsDialog.apply_to_all.
    destruct (Py.dict_get _ _) as [file|]; [|by exists d].
    case_bool_decide as Hfile; [by exists d|].
    destruct confirmed; [|by exists d].
    assert (∀ tabs d0, dialog_ok l d0 →
      (∀ tab, tab ∈ tabs →
         tab ∈ (LoadMissionsDialog.file_display_labels d0).*1) →
      ∃ d', foldl (λ r tab_name,
                 match r with
                 | LoadMissionsDialog.Returned d =>
                     LoadMissionsDialog.update_file_display basename tab_name
                       (LoadMissionsDialog.mk
                          (Py.dict_set tab_name file
                             (LoadMissionsDialog.selected_files d))
                          (LoadMissionsDialog.file_display_labels d))
                 | LoadMissionsDialog.KeyError key d =>
                     LoadMissionsDialog.KeyError key d
                 end) (LoadMissionsDialog.Returned d0) tabs
            = LoadMissionsDialog.Returned d' ∧ dialog_ok l d') as Hfold.
    { induction tabs as [|tab tabs IH]; intros d0 Hok0 Htabs;
        [by exists d0|].
      cbn [foldl].
      destruct (choose_file_spec l tab file d0) as (d1 & -> & _ & Hk & Hok1);
        [done|apply Htabs; by left|done|].
      apply IH; [done|]. intros tab' Htab'. rewrite Hk. apply Htabs. by right. }
    by apply Hfold.
Qed.

Lemma run_spec l actions d :
  dialog_ok l d →
  Forall (λ a, match a with
               | LoadMissionsDialog.browse v _
               | LoadMissionsDialog.apply_all v _ => v ∈ l
               end) actions →
  ∃ d', LoadMissionsDialog.run basename actions d
        = LoadMissionsDialog.Returned d' ∧ dialog_ok l d'.
Proof.
  revert d. induction actions as [|a actions IH]; intros d Hok Hall;
    [by exists d|].
  apply Forall_cons in Hall as [Ha Hall]. cbn [LoadMissionsDialog.run].
  destruct (act_spec l d a Hok Ha) as (d1 & -> & Hok1). by apply IH.
Qed.

Lemma init_ok l : dialog_ok l (LoadMissionsDialog.init l).
Proof.
  split_and!; [done|apply NoDup_nil_2|by intros ? ?%elem_of_nil|done].
Qed.

(** Whatever files the operator chooses on the tabs of the selected
    vehicles, no slot of the dialog raises, and when the dialog is accepted
    every tab has a file with a non-empty path: the list of files handed to
    the loading has one file per tab, hence one per vehicle of a selection
    without repetition, so that no position of the selection is out of its
    range. *)
Theorem mission_dialog_accepts_complete_choice (selected_vehicles : list Z)
  (actions : list LoadMissionsDialog.action) :
  Forall (λ a, match a with
               | LoadMissionsDialog.browse v _
               | LoadMissionsDialog.apply_all v _ => v ∈ selected_vehicles
               end) actions →
  ∃ d, LoadMissionsDialog.run basename actions
         (LoadMissionsDialog.init selected_vehicles)
       = LoadMissionsDialog.Returned d
    ∧ (LoadMissionsDialog.validate_and_accept d = true →
         (LoadMissionsDialog.get_states d).*1
         ≡ₚ (LoadMissionsDialog.file_display_labels d).*1
         ∧ Forall (λ file, file ≠ "") (LoadMissionsDialog.chosen_files d)
         ∧ (NoDup selected_vehicles →
              length (LoadMissionsDialog.chosen_files d)
              = length selected_vehicles)).
Proof.
  intros Hall.
  destruct (run_spec selected_vehicles actions
              (LoadMissionsDialog.init selected_vehicles)
              (init_ok _) Hall) as (d & Hrun & Hlab & Hnd & Hsub & Hne).
  exists d. split; [done|].
  unfold LoadMissionsDialog.validate_and_accept.
  intros [Hlen%bool_decide_eq_true _]%andb_true_iff.
  unfold LoadMissionsDialog.chosen_files, LoadMissionsDialog.get_states.
  split_and!; [|done|].
  - apply submseteq_length_Permutation.
    + by apply NoDup_submseteq.
    + rewrite !length_fmap. lia.
  - intros Hl. rewrite length_fmap, Hlen, <-(length_fmap fst), Hlab.
    pose proof (init_labels selected_vehicles) as (_ & _ & Heq).
    by rewrite Heq, length_fmap.
Qed.

Lemma browse_in_order_spec l (f : Z → string) p d :
  dialog_ok l d → NoDup p →
  (∀ v, v ∈ p → v ∈ l ∧ f v ≠ ""
                ∧ tab_name v ∉ (LoadMissionsDialog.selected_files d).*1) →
  ∃ d', LoadMissionsDialog.run basename
          ((λ v, LoadMissionsDialog.browse v (f v)) <$> p) d
        = LoadMissionsDialog.Returned d'
    ∧ LoadMissionsDialog.selected_files d'
      = LoadMissionsDialog.selected_files d
        ++ ((λ v, (tab_name v, f v)) <$> p)
    ∧ dialog_ok l d'.
Proof.
  revert d. induction p as [|v p IH]; intros d Hok Hnd Hp.
  { exists d. by rewrite app_nil_r. }
  apply NoDup_cons in Hnd as [Hv Hnd].
  destruct (Hp v) as (Hl & Hf & Hfresh); [by left|].
  rewrite fmap_cons.
  cbn [LoadMissionsDialog.run LoadMissionsDialog.act].
  unfold LoadMissionsDialog.browse_file. rewrite bool_decide_eq_false_2 by done.
  pose proof (init_labels l) as (_ & Hin & _).
  destruct (choose_file_spec l (tab_name v) (f v) d)
    as (d1 & -> & Hsel & _ & Hok1); [done| |done|].
  { destruct Hok as (-> & _). by apply Hin. }
  rewrite dict_set_fresh in Hsel by done.
  destruct (IH d1) as (d' & Hrun & Hsel' & Hok'); [done|done| |].
  { intros u Hu. destruct (Hp u) as (? & ? & Hu'); [by right|].
    split_and!; [done|done|]. rewrite Hsel, fmap_app.
    intros [?|Heq%list_elem_of_singleton]%elem_of_app; [done|].
    apply tab_name_inj in Heq. by subst u. }
  exists d'. split_and!; [done| |done].
  by rewrite Hsel', Hsel, <-app_assoc.
Qed.

(** The files handed to the loading are in the order in which the operator
    first chose them, not in the order of the tabs: when a file is chosen
    once on each of some tabs, the list of files is the list of these
    choices in the order they were made, and the dialog is accepted exactly
    when every tab of the selection was visited.  The vehicle at a position
    of the selection is then loaded with the file chosen at this position
    of the browsing order. *)
Theorem mission_files_follow_browsing_order (selected_vehicles p : list Z)
  (f : Z → string) :
  NoDup selected_vehicles → NoDup p →
  (∀ v, v ∈ p → v ∈ selected_vehicles ∧ f v ≠ "") →
  ∃ d, LoadMissionsDialog.run basename
         ((λ v, LoadMissionsDialog.browse v (f v)) <$> p)
         (LoadMissionsDialog.init selected_vehicles)
       = LoadMissionsDialog.Returned d
    ∧ LoadMissionsDialog.chosen_files d = f <$> p
    ∧ (LoadMissionsDialog.validate_and_accept d = true
       ↔ p ≡ₚ selected_vehicles).
Proof.
  intros Hl Hnd Hp.
  destruct (browse_in_order_spec selected_vehicles f p
              (LoadMissionsDialog.init selected_vehicles))
    as (d & Hrun & Hsel & Hlab & _ & _ & Hne); [apply init_ok|done| |].
  { intros v Hv. destruct (Hp v Hv). split_and!; [done|done|].
    by intros ?%elem_of_nil. }
  change (LoadMissionsDialog.selected_files
            (LoadMissionsDialog.init selected_vehicles)) with
    (@nil (string * string)) in Hsel.
  rewrite app_nil_l in Hsel.
  exists d. split; [done|].
  unfold LoadMissionsDialog.chosen_files, LoadMissionsDialog.get_states,
    LoadMissionsDialog.validate_and_accept.
  split; [by rewrite Hsel, <-list_fmap_compose|].
  assert (length (LoadMissionsDialog.file_display_labels d)
          = length selected_vehicles) as ->.
  { rewrite <-(length_fmap fst), Hlab.
    pose proof (init_labels selected_vehicles) as (_ & _ & Heq).
    by rewrite Heq, length_fmap. }
  assert (forallb (λ file, negb (bool_decide (file = "")))
            (LoadMissionsDialog.selected_files d).*2 = true) as ->.
  { apply forallb_forall. intros file Hfile%list_elem_of_In.
    apply negb_true_iff, bool_decide_eq_false.
    by apply (proj1 (Forall_forall _ _) Hne). }
  rewrite andb_true_r, bool_decide_eq_true, Hsel, length_fmap.
  split; [|by intros ->].
  intros Hlen. apply submseteq_length_Permutation; [|lia].
  apply NoDup_submseteq; [done|]. intros v Hv. by apply Hp.
Qed.

End mission_dialog.

Lemma mission_dialog_accepts_complete_choice_witness :
  ∃ d, LoadMissionsDialog.run (λ path, path)
         [LoadMissionsDialog.browse 1 "a.yaml";
          LoadMissionsDialog.apply_all 1 true]
         (LoadMissionsDialog.init [1; 2])
       = LoadMissionsDialog.Returned d
    ∧ (LoadMissionsDialog.validate_and_accept d = true →
         (LoadMissionsDialog.get_states d).*1
         ≡ₚ (LoadMissionsDialog.file_display_labels d).*1
         ∧ Forall (λ file, file ≠ "") (LoadMissionsDialog.chosen_files d)
         ∧ (NoDup [1; 2] →
              length (LoadMissionsDialog.chosen_files d) = length [1; 2])).
Proof.
  apply (mission_dialog_accepts_complete_choice (λ path, path) [1; 2]
           [LoadMissionsDialog.browse 1 "a.yaml";
            LoadMissionsDialog.apply_all 1 true]).
  repeat constructor.
Defined.

Lemma mission_files_follow_browsing_order_witness :
  ∃ d, LoadMissionsDialog.run (λ path, path)
         [LoadMissionsDialog.browse 2 "b.yaml";
          LoadMissionsDialog.browse 1 "a.yaml"]
         (LoadMissionsDialog.init [1; 2])
       = LoadMissionsDialog.Returned d
    ∧ LoadMissionsDialog.chosen_files d = ["b.yaml"; "a.yaml"]
    ∧ (LoadMissionsDialog.validate_and_accept d = true ↔ [2; 1] ≡ₚ [1; 2]).
Proof.
  refine (mission_files_follow_browsing_order (λ path, path) [1; 2] [2; 1]
            (λ v, if (v =? 1)%Z then "a.yaml" else "b.yaml") _ _ _).
  - apply (bool_decide_unpack _). by vm_compute.
  - apply (bool_decide_unpack _). by vm_compute.
  - intros v [->|[->|[]%elem_of_nil]%elem_of_cons]%elem_of_cons;
      (split; [apply (bool_decide_unpack _); by vm_compute|done]).
Defined.
